(** * CodeQuest AI: the exam session core

    A shallow embedding of the session logic of the CodeQuest AI web
    application (React + TypeScript): the answer ledger kept by
    [ExamInterface], the exam timer, the scorer of [ResultsView], the
    judging service wrapper of [geminiService] and the top-level
    controller [App] with its save/resume slot in [localStorage]; then
    what the screens derive from them: the hints, the red timer and the
    counters of the exam screen, the rating, the analysis and the
    history effect of the results screen, and the statistics of
    [ProgressView].

    Conventions of the embedding.
    - A TypeScript interface is a record; an optional field [f?: T] is a
      field of type [option T] ([None] is [undefined]).
    - A JavaScript string is a [string]; [s.length] is [String.length].
    - Counters of seconds, indices and list lengths are [nat].
    - A JavaScript [Map] is an insertion-ordered association list
      ([JsMap]); [Array.from(m.values())] lists the values in that order.
    - IEEE-754 double arithmetic ([/], [*], [+], comparisons,
      [Math.round], [Math.max]) is the binary64 instance of the Standard
      Library's [SpecFloat].
    - A JavaScript [Set] of strings is the list of its elements in
      insertion order ([JsSet]).
    - React state is an explicit record; a handler is a function from the
      state its closure captured to the state it sets. *)

From Stdlib Require Import List String Ascii Bool Arith ZArith Lia.
From Stdlib Require Import DecimalString Floats.SpecFloat.
Import ListNotations.
Open Scope string_scope.
Open Scope list_scope.
Open Scope nat_scope.

(* ================================================================== *)
(** * types.ts *)
(* ================================================================== *)

Inductive Difficulty := Beginner | Intermediate | Advanced | DifficultyMixed.

Inductive ExamType := ExamMixed | ExamMCQ | ExamCODE.

Inductive QuestionType := MCQ | CODE.

Inductive CodeLanguage := PYTHON | SQL.

Record MCQOption := { opt_id : string; opt_text : string }.

Record Question := {
  q_id : string;
  q_type : QuestionType;
  q_title : string;
  q_description : string;
  q_difficulty : Difficulty;
  q_options : option (list MCQOption);
  q_correctOptionId : option string;
  q_language : option CodeLanguage;
  q_startingCode : option string;
  q_referenceCode : option string;
  q_testCases : option (list string);
  q_hints : option (list string)
}.

Record ExamConfig := {
  topic : string;
  difficulty : Difficulty;
  questionCount : nat;
  examType : ExamType;
  timeLimit : nat (* in minutes. 0 implies no limit. *)
}.

Record UserAnswer := {
  questionId : string;
  selectedOptionId : option string;
  code : option string;
  isCorrect : option bool;
  feedback : option string;
  output : option string;
  testInput : option string
}.

Record GradingResult := {
  passed : bool;
  gr_score : nat;
  gr_feedback : string;
  gr_output : string
}.

Inductive AppState := SETUP | LOADING | EXAM | RESULTS | PROGRESS.

(** The object literal [{ questionId: id }]: every optional field absent. *)
Definition blankAnswer (id : string) : UserAnswer :=
  {| questionId := id; selectedOptionId := None; code := None;
     isCorrect := None; feedback := None; output := None; testInput := None |}.

(** Object spread with one overriding property, [{ ...a, code }] and
    [{ ...a, testInput }]. *)
Definition with_code (a : UserAnswer) (c : string) : UserAnswer :=
  {| questionId := questionId a; selectedOptionId := selectedOptionId a;
     code := Some c; isCorrect := isCorrect a; feedback := feedback a;
     output := output a; testInput := testInput a |}.

Definition with_testInput (a : UserAnswer) (t : string) : UserAnswer :=
  {| questionId := questionId a; selectedOptionId := selectedOptionId a;
     code := code a; isCorrect := isCorrect a; feedback := feedback a;
     output := output a; testInput := Some t |}.

(** [{ ...a, isCorrect }] of the scorer. *)
Definition with_isCorrect (a : UserAnswer) (b : bool) : UserAnswer :=
  {| questionId := questionId a; selectedOptionId := selectedOptionId a;
     code := code a; isCorrect := Some b; feedback := feedback a;
     output := output a; testInput := testInput a |}.

(** [{ ...a, code, isCorrect, feedback, output }] of [handleRunCode]. *)
Definition with_judgement (a : UserAnswer) (c : string) (r : GradingResult)
  : UserAnswer :=
  {| questionId := questionId a; selectedOptionId := selectedOptionId a;
     code := Some c; isCorrect := Some (passed r);
     feedback := Some (gr_feedback r); output := Some (gr_output r);
     testInput := testInput a |}.

(** [a === b] on optional strings ([undefined === undefined] is true). *)
Definition opt_string_eqb (a b : option string) : bool :=
  match a, b with
  | None, None => true
  | Some x, Some y => String.eqb x y
  | _, _ => false
  end.

(** The outcome of a call that may throw. *)
Inductive js_result (A : Type) :=
| Returned (a : A)
| Thrown (message : string).
Arguments Returned {A} a.
Arguments Thrown {A} message.

(* ================================================================== *)
(** * The JavaScript [Map] with string keys *)
(* ================================================================== *)

Module JsMap.
Section Defs.
Variable V : Type.

(** Entries in insertion order. *)
Definition t := list (string * V).

Definition empty : t := [].

(** [m.get(k)] *)
Fixpoint get (m : t) (k : string) : option V :=
  match m with
  | [] => None
  | (k', v) :: rest => if String.eqb k' k then Some v else get rest k
  end.

(** [m.set(k, v)]: an existing key keeps its place, a new key goes last. *)
Fixpoint set (m : t) (k : string) (v : V) : t :=
  match m with
  | [] => [(k, v)]
  | (k', v') :: rest =>
      if String.eqb k' k then (k', v) :: rest else (k', v') :: set rest k v
  end.

(** [m.keys()], [m.values()], [m.size] *)
Definition keys (m : t) : list string := map fst m.
Definition values (m : t) : list V := map snd m.
Definition size (m : t) : nat := List.length m.

(** [new Map(entries)] *)
Definition of_entries (entries : list (string * V)) : t :=
  fold_left (fun m kv => set m (fst kv) (snd kv)) entries empty.
End Defs.
Arguments empty {V}.
Arguments get {V} m k.
Arguments set {V} m k v.
Arguments keys {V} m.
Arguments values {V} m.
Arguments size {V} m.
Arguments of_entries {V} entries.
End JsMap.

(** The answer ledger of a session: [Map<string, UserAnswer>]. *)
Definition ledger := JsMap.t UserAnswer.

(** [answers.get(id) || { questionId: id }] *)
Definition existingAnswer (answers : ledger) (id : string) : UserAnswer :=
  match JsMap.get answers id with
  | Some a => a
  | None => blankAnswer id
  end.

(* ================================================================== *)
(** * services/geminiService.ts *)
(* ================================================================== *)

Module GeminiService.

(** What the service reads from its surroundings: the build-time API key
    and the browser's [JSON.parse] applied to a reply text and cast to the
    expected shape. *)
Record Env := {
  VITE_API_KEY : option string;
  JSON_parse_Questions : string -> js_result (list Question);
  JSON_parse_GradingResult : string -> js_result GradingResult;
  JSON_parse_testCases : string -> js_result (option (list string))
}.

(** One [ai.models.generateContent] call: it throws, or it answers with a
    [response.text] that may be [undefined]. *)
Inductive api_reply :=
| ApiThrows (message : string)
| ApiResponds (text : option string).

(** [!text] on an optional string. *)
Definition no_text (text : option string) : bool :=
  match text with
  | None => true
  | Some t => String.eqb t ""
  end.

Definition getAiClient (env : Env) : js_result string :=
  match VITE_API_KEY env with
  | Some apiKey =>
      if String.eqb apiKey ""
      then Thrown "API_KEY is missing from environment variables."
      else Returned apiKey
  | None => Thrown "API_KEY is missing from environment variables."
  end.

(** [generateExamQuestions(topic, difficulty, count, examType)]; [reply]
    is the remote answer to the prompt.  Every failure is thrown on to the
    caller. *)
Definition generateExamQuestions (env : Env) (reply : api_reply)
  : js_result (list Question) :=
  match getAiClient env with
  | Thrown message => Thrown message
  | Returned ai =>
      match reply with
      | ApiThrows message => Thrown message
      | ApiResponds text =>
          match text with
          | Some t =>
              if no_text text then Thrown "No response from AI"
              else JSON_parse_Questions env t
          | None => Thrown "No response from AI"
          end
      end
  end.

(** The object returned by the [catch] branch of [gradeCodeSubmission]. *)
Definition gradingFallback : GradingResult :=
  {| passed := false;
     gr_score := 0;
     gr_output := "Error connecting to Judge AI.";
     gr_feedback := "System error during grading." |}.

(** The body of the [try] block of [gradeCodeSubmission]. *)
Definition gradeCodeSubmission_try (env : Env) (reply : api_reply)
  : js_result GradingResult :=
  match reply with
  | ApiThrows message => Thrown message
  | ApiResponds text =>
      match text with
      | Some t =>
          if no_text text then Thrown "No grading response"
          else JSON_parse_GradingResult env t
      | None => Thrown "No grading response"
      end
  end.

(** [gradeCodeSubmission(question, userCode)]; [reply] is what the remote
    judge answered to the prompt built from the two arguments.  The client
    is obtained before the [try] block, so its failure is not caught. *)
Definition gradeCodeSubmission (env : Env) (question : Question)
    (userCode : string) (reply : api_reply) : js_result GradingResult :=
  match getAiClient env with
  | Thrown message => Thrown message
  | Returned ai =>
      match gradeCodeSubmission_try env reply with
      | Returned result => Returned result
      | Thrown _ => Returned gradingFallback
      end
  end.

(** [generateTestCases(question)] *)
Definition generateTestCases (env : Env) (question : Question)
    (reply : api_reply) : js_result (list string) :=
  match getAiClient env with
  | Thrown message => Thrown message
  | Returned ai =>
      match reply with
      | ApiThrows _ =>
          Returned ["Error generating test cases. Please try again."]
      | ApiResponds text =>
          match text with
          | Some t =>
              if no_text text then Returned ["Could not generate test cases."]
              else
                match JSON_parse_testCases env t with
                | Returned (Some cases) => Returned cases
                | Returned None => Returned ["No test cases returned."]
                | Thrown _ =>
                    Returned ["Error generating test cases. Please try again."]
                end
          | None => Returned ["Could not generate test cases."]
          end
      end
  end.

End GeminiService.

(* ================================================================== *)
(** * components/ExamInterface.tsx *)
(* ================================================================== *)

Module ExamInterface.

Record Props := {
  questions : list Question;
  timeLimit : nat; (* in minutes *)
  initialAnswers : option (list UserAnswer);
  initialTimeSpent : option nat;
  initialCurrentIdx : option nat
}.

(** The [useState] cells of the component that the session logic reads. *)
Record State := {
  currentIdx : nat;
  answers : ledger;
  elapsed : nat;
  isGrading : bool;
  isGeneratingTests : bool
}.

(** [n || 0] on an optional number. *)
Definition or_zero (n : option nat) : nat :=
  match n with
  | Some v => if Nat.eqb v 0 then 0 else v
  | None => 0
  end.

(** The initial values handed to [useState]. *)
Definition initialLedger (init : option (list UserAnswer)) : ledger :=
  match init with
  | Some l => JsMap.of_entries (map (fun a => (questionId a, a)) l)
  | None => JsMap.empty
  end.

Definition initialState (p : Props) : State :=
  {| currentIdx := or_zero (initialCurrentIdx p);
     answers := initialLedger (initialAnswers p);
     elapsed := or_zero (initialTimeSpent p);
     isGrading := false;
     isGeneratingTests := false |}.

(** [questions[currentIdx]] *)
Definition currentQuestion (p : Props) (s : State) : option Question :=
  nth_error (questions p) (currentIdx s).

(** ** The timer *)

(** The updater passed to [setElapsed] by the interval callback. *)
Definition tick (timeLimit prev : nat) : nat :=
  if (0 <? timeLimit) && (timeLimit * 60 <=? prev) then prev else prev + 1.

(** The condition of the auto-submit effect. *)
Definition timeIsUp (timeLimit elapsed : nat) : bool :=
  (0 <? timeLimit) && (timeLimit * 60 <=? elapsed).

(** [getTimerDisplay], in seconds before formatting. *)
Definition timerSeconds (timeLimit elapsed : nat) : nat :=
  if Nat.eqb timeLimit 0 then elapsed else Nat.max 0 (timeLimit * 60 - elapsed).

(** ** The ledger handlers

    Each takes the question on screen and the [answers] map its closure
    captured, and gives the map handed to [setAnswers]. *)

Definition handleOptionSelect (q : Question) (answers : ledger)
    (optId : string) : ledger :=
  let ans := {| questionId := q_id q; selectedOptionId := Some optId;
                code := None; isCorrect := None; feedback := None;
                output := None; testInput := None |} in
  JsMap.set answers (q_id q) ans.

Definition handleCodeChange (q : Question) (answers : ledger)
    (code : string) : ledger :=
  let existing := existingAnswer answers (q_id q) in
  JsMap.set answers (q_id q) (with_code existing code).

(** The text shown by an editor that holds no answer yet. *)
Definition placeholder (q : Question) : string :=
  match q_language q with
  | Some SQL => "-- Start your code here"
  | _ => "# Start your code here"
  end.

(** [currentQuestion.startingCode || placeholder] *)
Definition resetText (q : Question) : string :=
  match q_startingCode q with
  | Some s => if String.eqb s "" then placeholder q else s
  | None => placeholder q
  end.

(** [confirmed] is the answer given to [window.confirm]. *)
Definition handleResetCode (q : Question) (answers : ledger)
    (confirmed : bool) : ledger :=
  if confirmed then
    let existing := existingAnswer answers (q_id q) in
    JsMap.set answers (q_id q) (with_code existing (resetText q))
  else answers.

Definition getEditorValue (q : Question) (answers : ledger) : string :=
  match JsMap.get answers (q_id q) with
  | Some {| code := Some c |} => c
  | _ => resetText q
  end.

(** White space and line terminators removed by [String.prototype.trim],
    among the characters of the embedding (the code units up to 255):
    tab, line feed, vertical tab, form feed and carriage return (9 to
    13), the space (32) and the no-break space (160). *)
Definition is_space (c : ascii) : bool :=
  let n := nat_of_ascii c in
  ((9 <=? n) && (n <=? 13)) || Nat.eqb n 32 || Nat.eqb n 160.

(** [!s.trim()] *)
Fixpoint blank (s : string) : bool :=
  match s with
  | EmptyString => true
  | String c rest => is_space c && blank rest
  end.

(** The code [handleRunCode] submits: the editor's text after formatting
    when the editor is mounted, the stored code (or the empty string)
    otherwise. *)
Definition submittedCode (q : Question) (answers : ledger)
    (editor : option string) : string :=
  match editor with
  | Some v => v
  | None =>
      match JsMap.get answers (q_id q) with
      | Some {| code := Some c |} => c
      | _ => ""
      end
  end.

(** The part of [handleRunCode] after the [await]: the judgement is
    written over the map captured when the handler started. *)
Definition storeJudgement (q : Question) (captured : ledger)
    (userCode : string) (result : GradingResult) : ledger :=
  let existing := existingAnswer captured (q_id q) in
  JsMap.set captured (q_id q) (with_judgement existing userCode result).

(** [cases.map((c, i) => `Case ${i+1}:\n${c}`).join('\n\n')] *)
Definition newline : string := String (ascii_of_nat 10) EmptyString.

Definition decimal (n : nat) : string :=
  DecimalString.NilEmpty.string_of_uint (Nat.to_uint n).

Fixpoint caseLines (i : nat) (cases : list string) : list string :=
  match cases with
  | [] => []
  | c :: rest =>
      ("Case " ++ decimal (i + 1) ++ ":" ++ newline ++ c)%string
        :: caseLines (S i) rest
  end.

Definition formatTestInput (cases : list string) : string :=
  String.concat (newline ++ newline)%string (caseLines 0 cases).

(** The part of [handleGenerateTestCases] after the [await]. *)
Definition storeTestCases (q : Question) (captured : ledger)
    (cases : list string) : ledger :=
  let existing := existingAnswer captured (q_id q) in
  JsMap.set captured (q_id q) (with_testInput existing (formatTestInput cases)).

Definition isAnswered (answers : ledger) (qId : string) : bool :=
  match JsMap.get answers qId with
  | None => false
  | Some a =>
      match selectedOptionId a with
      | Some _ => true
      | None =>
          match code a with
          | Some c => 5 <? String.length c
          | None => false
          end
      end
  end.

(** What [handleSubmitAll] passes to [onComplete] and [handleSave] to
    [onSave]. *)
Definition handleSubmitAll (s : State) : list UserAnswer * nat :=
  (JsMap.values (answers s), elapsed s).

Definition handleSave (s : State) : list UserAnswer * nat * nat :=
  (JsMap.values (answers s), elapsed s, currentIdx s).

(** ** State updates *)

Definition setCurrentIdx (s : State) (idx : nat) : State :=
  {| currentIdx := idx; answers := answers s; elapsed := elapsed s;
     isGrading := isGrading s; isGeneratingTests := isGeneratingTests s |}.

Definition setAnswers (s : State) (newAnswers : ledger) : State :=
  {| currentIdx := currentIdx s; answers := newAnswers; elapsed := elapsed s;
     isGrading := isGrading s; isGeneratingTests := isGeneratingTests s |}.

Definition setElapsed (s : State) (f : nat -> nat) : State :=
  {| currentIdx := currentIdx s; answers := answers s;
     elapsed := f (elapsed s);
     isGrading := isGrading s; isGeneratingTests := isGeneratingTests s |}.

Definition setIsGrading (s : State) (b : bool) : State :=
  {| currentIdx := currentIdx s; answers := answers s; elapsed := elapsed s;
     isGrading := b; isGeneratingTests := isGeneratingTests s |}.

Definition setIsGeneratingTests (s : State) (b : bool) : State :=
  {| currentIdx := currentIdx s; answers := answers s; elapsed := elapsed s;
     isGrading := isGrading s; isGeneratingTests := b |}.

(** ** The mounted component as a transition system

    An [async] handler is split at its [await]: the continuation keeps
    the question and the [answers] map of the render that started it,
    and other events are handled between the two halves.  [handleRunCode]
    is the event [RunCode] (up to [setIsGrading(true)]) and, once the
    promise of [gradeCodeSubmission] has settled, the event
    [JudgeSettled]; a rejected promise leaves the handler there, with
    nothing stored and the grading flag as it is. *)

Inductive Pending :=
| AwaitingJudge (q : Question) (captured : ledger) (userCode : string)
| AwaitingTestCases (q : Question) (captured : ledger).

Record Mounted := {
  state : State;
  pending : list Pending;
  (** the dependency array [[elapsed, timeLimit]] at the last run of the
      auto-submit effect, [None] before the first run *)
  autoSubmitDeps : option (nat * nat);
  (** how many times the effect has scheduled [handleSubmitAll] *)
  autoSubmits : nat
}.

Definition withState (m : Mounted) (s : State) : Mounted :=
  {| state := s; pending := pending m;
     autoSubmitDeps := autoSubmitDeps m; autoSubmits := autoSubmits m |}.

Definition withPending (m : Mounted) (l : list Pending) : Mounted :=
  {| state := state m; pending := l;
     autoSubmitDeps := autoSubmitDeps m; autoSubmits := autoSubmits m |}.

Definition depsChanged (last : option (nat * nat)) (now : nat * nat) : bool :=
  match last with
  | None => true
  | Some (e, t) => negb (Nat.eqb e (fst now) && Nat.eqb t (snd now))
  end.

(** The auto-submit effect: after a render it runs when a dependency
    differs from its last run, and then schedules [handleSubmitAll] when
    the time is up. *)
Definition commit (p : Props) (m : Mounted) : Mounted :=
  let deps := (elapsed (state m), timeLimit p) in
  if depsChanged (autoSubmitDeps m) deps then
    {| state := state m; pending := pending m;
       autoSubmitDeps := Some deps;
       autoSubmits :=
         autoSubmits m
         + (if timeIsUp (timeLimit p) (elapsed (state m)) then 1 else 0) |}
  else m.

Definition mount (p : Props) : Mounted :=
  commit p {| state := initialState p; pending := [];
              autoSubmitDeps := None; autoSubmits := 0 |}.

Inductive Event :=
| TimerTick
| SelectQuestion (idx : nat)
| Previous
| Next
| OptionSelect (optId : string)
| CodeChange (code : string)
| ResetCode (confirmed : bool)
| RunCode (editor : option string)
| JudgeSettled (i : nat) (reply : GeminiService.api_reply)
| GenerateTestCases
| TestCasesSettled (i : nat) (reply : GeminiService.api_reply).

Fixpoint remove_nth {A : Type} (i : nat) (l : list A) : list A :=
  match l, i with
  | [], _ => []
  | _ :: rest, O => rest
  | x :: rest, S j => x :: remove_nth j rest
  end.

(** The state update an event causes; [q] is the question on screen. *)
Definition handle (env : GeminiService.Env) (p : Props) (q : Question)
    (m : Mounted) (ev : Event) : Mounted :=
  let s := state m in
  match ev with
  | TimerTick => withState m (setElapsed s (tick (timeLimit p)))
  | SelectQuestion idx =>
      if idx <? List.length (questions p)
      then withState m (setCurrentIdx s idx) else m
  | Previous => withState m (setCurrentIdx s (Nat.max 0 (currentIdx s - 1)))
  | Next =>
      withState m
        (setCurrentIdx s (Nat.min (List.length (questions p) - 1)
                                  (currentIdx s + 1)))
  | OptionSelect optId =>
      withState m (setAnswers s (handleOptionSelect q (answers s) optId))
  | CodeChange code =>
      withState m (setAnswers s (handleCodeChange q (answers s) code))
  | ResetCode confirmed =>
      if confirmed
      then withState m (setAnswers s (handleResetCode q (answers s) true))
      else m
  | RunCode editor =>
      let userCode := submittedCode q (answers s) editor in
      if blank userCode then m
      else
        withPending (withState m (setIsGrading s true))
          (pending m ++ [AwaitingJudge q (answers s) userCode])
  | JudgeSettled i reply =>
      match nth_error (pending m) i with
      | Some (AwaitingJudge q' captured userCode) =>
          let rest := remove_nth i (pending m) in
          match GeminiService.gradeCodeSubmission env q' userCode reply with
          | Returned result =>
              withPending
                (withState m
                   (setIsGrading
                      (setAnswers s (storeJudgement q' captured userCode result))
                      false))
                rest
          | Thrown _ => withPending m rest
          end
      | _ => m
      end
  | GenerateTestCases =>
      if isGeneratingTests s then m
      else
        withPending (withState m (setIsGeneratingTests s true))
          (pending m ++ [AwaitingTestCases q (answers s)])
  | TestCasesSettled i reply =>
      match nth_error (pending m) i with
      | Some (AwaitingTestCases q' captured) =>
          let rest := remove_nth i (pending m) in
          match GeminiService.generateTestCases env q' reply with
          | Returned cases =>
              withPending
                (withState m
                   (setIsGeneratingTests
                      (setAnswers s (storeTestCases q' captured cases))
                      false))
                rest
          | Thrown _ =>
              withPending (withState m (setIsGeneratingTests s false)) rest
          end
      | _ => m
      end
  end.

(** One event on a mounted component.  Rendering reads
    [currentQuestion.id]; with no question at [currentIdx] the component
    throws and there is no next state. *)
Definition dispatch (env : GeminiService.Env) (p : Props) (m : Mounted)
    (ev : Event) : option Mounted :=
  match currentQuestion p (state m) with
  | Some q => Some (commit p (handle env p q m ev))
  | None => None
  end.

Fixpoint run (env : GeminiService.Env) (p : Props) (m : Mounted)
    (evs : list Event) : option Mounted :=
  match evs with
  | [] => Some m
  | ev :: rest =>
      match dispatch env p m ev with
      | Some m' => run env p m' rest
      | None => None
      end
  end.

End ExamInterface.

(* ================================================================== *)
(** * JavaScript numbers *)
(* ================================================================== *)

Module JsNumber.

(** A [Number] is an IEEE-754 binary64 value. *)
Definition number := spec_float.

Definition prec : Z := 53.
Definition emax : Z := 1024.

(** The [Number] nearest to an integer (the integer itself below 2^53). *)
Definition of_Z (z : Z) : number := binary_normalize prec emax z 0 false.
Definition of_nat (n : nat) : number := of_Z (Z.of_nat n).

(** [x / y] and [x * y] *)
Definition div (x y : number) : number := SFdiv prec emax x y.
Definition mul (x y : number) : number := SFmul prec emax x y.

(** [Math.round(x)]: the integer nearest to [x], a tie going up; a
    negative [x] that rounds to zero gives [-0]; infinities, zeros and
    [NaN] are returned as they are. *)
Definition Math_round (x : number) : number :=
  match x with
  | S754_finite s m e =>
      match e with
      | Zneg p =>
          let d := Z.pow_pos 2 p in
          let v := if s then Zneg m else Zpos m in
          let k := Z.div (2 * v + d) (2 * d) in
          if Z.eqb k 0 then S754_zero s else of_Z k
      | _ => x
      end
  | _ => x
  end.

End JsNumber.

(* ================================================================== *)
(** * components/ResultsView.tsx *)
(* ================================================================== *)

Module ResultsView.

(** [HistoryItem] of types.ts *)
Record HistoryItem := {
  h_id : string;
  h_date : string;
  h_topic : string;
  h_difficulty : Difficulty;
  h_score : nat;
  h_totalQuestions : nat;
  h_percentage : JsNumber.number;
  h_timeSpent : nat
}.

(** [questions.find(q => q.id === id)] *)
Definition findQuestion (questions : list Question) (id : string)
  : option Question :=
  find (fun q => String.eqb (q_id q) id) questions.

(** [!!ans.isCorrect] *)
Definition truthy (b : option bool) : bool :=
  match b with
  | Some true => true
  | _ => false
  end.

(** The [isCorrect] local of the grading callback. *)
Definition computedCorrect (q : Question) (ans : UserAnswer) : bool :=
  match q_type q with
  | MCQ => opt_string_eqb (selectedOptionId ans) (q_correctOptionId q)
  | CODE => truthy (isCorrect ans)
  end.

(** One call of the callback of [answers.map]: the counter [score] after
    it and the element it returns. *)
Definition gradeAnswer (questions : list Question) (score : nat)
    (ans : UserAnswer) : nat * UserAnswer :=
  match findQuestion questions (questionId ans) with
  | None => (score, ans)
  | Some q =>
      let isCorrect := computedCorrect q ans in
      (if isCorrect then score + 1 else score, with_isCorrect ans isCorrect)
  end.

Fixpoint grade (questions : list Question) (score : nat)
    (answers : list UserAnswer) : nat * list UserAnswer :=
  match answers with
  | [] => (score, [])
  | ans :: rest =>
      let (score1, graded) := gradeAnswer questions score ans in
      let (score2, gradedRest) := grade questions score1 rest in
      (score2, graded :: gradedRest)
  end.

Definition score (questions : list Question) (answers : list UserAnswer)
  : nat :=
  fst (grade questions 0 answers).

Definition gradedAnswers (questions : list Question)
    (answers : list UserAnswer) : list UserAnswer :=
  snd (grade questions 0 answers).

(** [Math.round((score / questions.length) * 100)] *)
Definition percentage (questions : list Question)
    (answers : list UserAnswer) : JsNumber.number :=
  JsNumber.Math_round
    (JsNumber.mul
       (JsNumber.div (JsNumber.of_nat (score questions answers))
                     (JsNumber.of_nat (List.length questions)))
       (JsNumber.of_nat 100)).

(** The record the effect stores; [uuid] and [now] are what
    [crypto.randomUUID()] and [new Date().toISOString()] gave. *)
Definition historyItem (questions : list Question)
    (answers : list UserAnswer) (config : ExamConfig) (timeSpent : nat)
    (uuid now : string) : HistoryItem :=
  {| h_id := uuid;
     h_date := now;
     h_topic := topic config;
     h_difficulty := difficulty config;
     h_score := score questions answers;
     h_totalQuestions := List.length questions;
     h_percentage := percentage questions answers;
     h_timeSpent := timeSpent |}.

(** [[historyItem, ...existingHistory]] *)
Definition recordHistory (item : HistoryItem) (existingHistory : list HistoryItem)
  : list HistoryItem :=
  item :: existingHistory.

End ResultsView.

(* ================================================================== *)
(** * JSON documents and [localStorage] *)
(* ================================================================== *)

Module Json.

#[local] Set Warnings "-register-all".

Inductive json :=
| JNull
| JBool (b : bool)
| JNumber (n : nat)
| JString (s : string)
| JArray (items : list json)
| JObject (members : list (string * json)).

(** A string kept in [localStorage], up to [JSON.parse]: the document it
    serializes, or a text that [JSON.parse] rejects. *)
Inductive stored :=
| Serialized (doc : json)
| Unparsable (text : string).

Definition JSON_stringify (doc : json) : stored := Serialized doc.

Definition JSON_parse (s : stored) : js_result json :=
  match s with
  | Serialized doc => Returned doc
  | Unparsable _ => Thrown "SyntaxError"
  end.

(** ** Writing the values of types.ts

    [JSON.stringify] leaves out a property whose value is [undefined]. *)

Definition optional {A : Type} (key : string) (write : A -> json)
    (o : option A) : list (string * json) :=
  match o with
  | Some a => [(key, write a)]
  | None => []
  end.

Definition of_Difficulty (d : Difficulty) : json :=
  JString match d with
          | Beginner => "Beginner"
          | Intermediate => "Intermediate"
          | Advanced => "Advanced"
          | DifficultyMixed => "Mixed"
          end.

Definition of_ExamType (t : ExamType) : json :=
  JString match t with
          | ExamMixed => "Mixed"
          | ExamMCQ => "MCQ Only"
          | ExamCODE => "Coding Challenge Only"
          end.

Definition of_QuestionType (t : QuestionType) : json :=
  JString match t with MCQ => "MCQ" | CODE => "CODE" end.

Definition of_CodeLanguage (l : CodeLanguage) : json :=
  JString match l with PYTHON => "python" | SQL => "sql" end.

Definition of_strings (l : list string) : json := JArray (map JString l).

Definition of_MCQOption (o : MCQOption) : json :=
  JObject [("id", JString (opt_id o)); ("text", JString (opt_text o))].

Definition of_Question (q : Question) : json :=
  JObject
    ([("id", JString (q_id q));
      ("type", of_QuestionType (q_type q));
      ("title", JString (q_title q));
      ("description", JString (q_description q));
      ("difficulty", of_Difficulty (q_difficulty q))]
     ++ optional "options" (fun l => JArray (map of_MCQOption l)) (q_options q)
     ++ optional "correctOptionId" JString (q_correctOptionId q)
     ++ optional "language" of_CodeLanguage (q_language q)
     ++ optional "startingCode" JString (q_startingCode q)
     ++ optional "referenceCode" JString (q_referenceCode q)
     ++ optional "testCases" of_strings (q_testCases q)
     ++ optional "hints" of_strings (q_hints q)).

Definition of_ExamConfig (c : ExamConfig) : json :=
  JObject [("topic", JString (topic c));
           ("difficulty", of_Difficulty (difficulty c));
           ("questionCount", JNumber (questionCount c));
           ("examType", of_ExamType (examType c));
           ("timeLimit", JNumber (timeLimit c))].

Definition of_UserAnswer (a : UserAnswer) : json :=
  JObject
    ([("questionId", JString (questionId a))]
     ++ optional "selectedOptionId" JString (selectedOptionId a)
     ++ optional "code" JString (code a)
     ++ optional "isCorrect" JBool (isCorrect a)
     ++ optional "feedback" JString (feedback a)
     ++ optional "output" JString (output a)
     ++ optional "testInput" JString (testInput a)).

(** ** Reading them back

    [prop doc key] is [doc.key]; a reader gives [None] when the value
    is not of the shape the TypeScript type promises. *)

Fixpoint lookup (members : list (string * json)) (key : string) : option json :=
  match members with
  | [] => None
  | (k, v) :: rest => if String.eqb k key then Some v else lookup rest key
  end.

Definition prop (doc : json) (key : string) : option json :=
  match doc with
  | JObject members => lookup members key
  | _ => None
  end.

(** A value used as a condition, [None] being [undefined]: [undefined],
    [null], [false], [0] and the empty string are falsy. *)
Definition truthy (v : option json) : bool :=
  match v with
  | None | Some JNull | Some (JBool false) | Some (JNumber 0) => false
  | Some (JString s) => negb (String.eqb s "")
  | Some _ => true
  end.

Definition bind {A B : Type} (o : option A) (f : A -> option B) : option B :=
  match o with
  | Some a => f a
  | None => None
  end.

Notation "x <- e ;; k" := (bind e (fun x => k))
  (at level 61, e at next level, right associativity).

Definition required {A : Type} (read : json -> option A) (doc : json)
    (key : string) : option A :=
  bind (prop doc key) read.

Definition optionally {A : Type} (read : json -> option A) (doc : json)
    (key : string) : option (option A) :=
  match prop doc key with
  | Some v => bind (read v) (fun a => Some (Some a))
  | None => Some None
  end.

Definition to_string (doc : json) : option string :=
  match doc with JString s => Some s | _ => None end.

Definition to_nat (doc : json) : option nat :=
  match doc with JNumber n => Some n | _ => None end.

Definition to_bool (doc : json) : option bool :=
  match doc with JBool b => Some b | _ => None end.

Fixpoint traverse {A : Type} (read : json -> option A) (items : list json)
  : option (list A) :=
  match items with
  | [] => Some []
  | x :: rest =>
      a <- read x ;;
      l <- traverse read rest ;;
      Some (a :: l)
  end.

Definition to_list {A : Type} (read : json -> option A) (doc : json)
  : option (list A) :=
  match doc with JArray items => traverse read items | _ => None end.

Definition to_Difficulty (doc : json) : option Difficulty :=
  s <- to_string doc ;;
  if String.eqb s "Beginner" then Some Beginner
  else if String.eqb s "Intermediate" then Some Intermediate
  else if String.eqb s "Advanced" then Some Advanced
  else if String.eqb s "Mixed" then Some DifficultyMixed
  else None.

Definition to_ExamType (doc : json) : option ExamType :=
  s <- to_string doc ;;
  if String.eqb s "Mixed" then Some ExamMixed
  else if String.eqb s "MCQ Only" then Some ExamMCQ
  else if String.eqb s "Coding Challenge Only" then Some ExamCODE
  else None.

Definition to_QuestionType (doc : json) : option QuestionType :=
  s <- to_string doc ;;
  if String.eqb s "MCQ" then Some MCQ
  else if String.eqb s "CODE" then Some CODE
  else None.

Definition to_CodeLanguage (doc : json) : option CodeLanguage :=
  s <- to_string doc ;;
  if String.eqb s "python" then Some PYTHON
  else if String.eqb s "sql" then Some SQL
  else None.

Definition to_MCQOption (doc : json) : option MCQOption :=
  i <- required to_string doc "id" ;;
  t <- required to_string doc "text" ;;
  Some {| opt_id := i; opt_text := t |}.

Definition to_Question (doc : json) : option Question :=
  i <- required to_string doc "id" ;;
  ty <- required to_QuestionType doc "type" ;;
  ti <- required to_string doc "title" ;;
  de <- required to_string doc "description" ;;
  di <- required to_Difficulty doc "difficulty" ;;
  op <- optionally (to_list to_MCQOption) doc "options" ;;
  co <- optionally to_string doc "correctOptionId" ;;
  la <- optionally to_CodeLanguage doc "language" ;;
  st <- optionally to_string doc "startingCode" ;;
  re <- optionally to_string doc "referenceCode" ;;
  te <- optionally (to_list to_string) doc "testCases" ;;
  hi <- optionally (to_list to_string) doc "hints" ;;
  Some {| q_id := i; q_type := ty; q_title := ti; q_description := de;
          q_difficulty := di; q_options := op; q_correctOptionId := co;
          q_language := la; q_startingCode := st; q_referenceCode := re;
          q_testCases := te; q_hints := hi |}.

Definition to_ExamConfig (doc : json) : option ExamConfig :=
  to <- required to_string doc "topic" ;;
  di <- required to_Difficulty doc "difficulty" ;;
  qc <- required to_nat doc "questionCount" ;;
  et <- required to_ExamType doc "examType" ;;
  tl <- required to_nat doc "timeLimit" ;;
  Some {| topic := to; difficulty := di; questionCount := qc;
          examType := et; timeLimit := tl |}.

Definition to_UserAnswer (doc : json) : option UserAnswer :=
  qi <- required to_string doc "questionId" ;;
  se <- optionally to_string doc "selectedOptionId" ;;
  co <- optionally to_string doc "code" ;;
  ic <- optionally to_bool doc "isCorrect" ;;
  fe <- optionally to_string doc "feedback" ;;
  ou <- optionally to_string doc "output" ;;
  te <- optionally to_string doc "testInput" ;;
  Some {| questionId := qi; selectedOptionId := se; code := co;
          isCorrect := ic; feedback := fe; output := ou; testInput := te |}.

End Json.

(* ================================================================== *)
(** * App.tsx *)
(* ================================================================== *)

Module App.
Import Json.

(** The object literal [savedState] of [handleSaveExam]. *)
Record SavedState := {
  sv_config : ExamConfig;
  sv_questions : list Question;
  sv_answers : list UserAnswer;
  sv_timeSpent : nat;
  sv_currentIdx : nat;
  sv_savedAt : string
}.

Definition of_SavedState (s : SavedState) : json :=
  JObject [("config", of_ExamConfig (sv_config s));
           ("questions", JArray (map of_Question (sv_questions s)));
           ("answers", JArray (map of_UserAnswer (sv_answers s)));
           ("timeSpent", JNumber (sv_timeSpent s));
           ("currentIdx", JNumber (sv_currentIdx s));
           ("savedAt", JString (sv_savedAt s))].

(** The properties of [parsed] that [handleResumeExam] reads. *)
Record Parsed := {
  p_config : ExamConfig;
  p_questions : list Question;
  p_answers : list UserAnswer;
  p_timeSpent : nat;
  p_currentIdx : nat
}.

Definition to_Parsed (doc : json) : option Parsed :=
  c <- required to_ExamConfig doc "config" ;;
  q <- required (to_list to_Question) doc "questions" ;;
  a <- required (to_list to_UserAnswer) doc "answers" ;;
  t <- required to_nat doc "timeSpent" ;;
  i <- required to_nat doc "currentIdx" ;;
  Some {| p_config := c; p_questions := q; p_answers := a;
          p_timeSpent := t; p_currentIdx := i |}.

(** The [useState] cells of [App], the item ['codequest_saved_exam'] of
    [localStorage], and the messages shown with [alert]. *)
Record World := {
  appState : AppState;
  questions : list Question;
  config : option ExamConfig;
  userAnswers : list UserAnswer;
  timeSpent : nat;
  initialAnswers : list UserAnswer;
  initialTimeSpent : nat;
  initialIdx : nat;
  savedExam : option stored;
  alerts : list string;
  (** [Some doc] once [handleResumeExam] has read a stored document [doc]
      that is not a saved state: the cells [config], [questions],
      [initialAnswers], [initialTimeSpent] and [initialIdx] then hold
      [doc.config], [doc.questions], [doc.answers], [doc.timeSpent] and
      [doc.currentIdx], which are not all of the cells' types, and the
      fields of these names are not what the cells hold.  Written by
      [handleResumeExam]; cleared where all five cells are assigned. *)
  foreign : option json
}.

(** The application as it loads, over what the browser has stored. *)
Definition load (storedExam : option stored) (shown : list string) : World :=
  {| appState := SETUP; questions := []; config := None; userAnswers := [];
     timeSpent := 0; initialAnswers := []; initialTimeSpent := 0;
     initialIdx := 0; savedExam := storedExam; alerts := shown;
     foreign := None |}.

(** [handleStartExam] before its [await] ... *)
Definition handleStartExam_begin (w : World) (examConfig : ExamConfig) : World :=
  {| appState := LOADING; questions := questions w;
     config := Some examConfig; userAnswers := userAnswers w;
     timeSpent := timeSpent w; initialAnswers := []; initialTimeSpent := 0;
     initialIdx := 0; savedExam := savedExam w; alerts := alerts w;
     foreign := foreign w |}.

Definition generationFailedAlert (errorMessage : string) : string :=
  ("Failed to generate questions: " ++ errorMessage
   ++ ExamInterface.newline ++ ExamInterface.newline
   ++ "Please check:" ++ ExamInterface.newline
   ++ "1. Your API key is valid" ++ ExamInterface.newline
   ++ "2. You have API quota remaining" ++ ExamInterface.newline
   ++ "3. The topic is appropriate")%string.

(** ... and after it: the [try] continues or the [catch] runs. *)
Definition handleStartExam_settle (w : World)
    (generated : js_result (list Question)) : World :=
  match generated with
  | Returned generatedQuestions =>
      {| appState := EXAM; questions := generatedQuestions;
         config := config w; userAnswers := userAnswers w;
         timeSpent := timeSpent w; initialAnswers := initialAnswers w;
         initialTimeSpent := initialTimeSpent w; initialIdx := initialIdx w;
         savedExam := savedExam w; alerts := alerts w;
         foreign := foreign w |}
  | Thrown errorMessage =>
      {| appState := SETUP; questions := questions w;
         config := config w; userAnswers := userAnswers w;
         timeSpent := timeSpent w; initialAnswers := initialAnswers w;
         initialTimeSpent := initialTimeSpent w; initialIdx := initialIdx w;
         savedExam := savedExam w;
         alerts := alerts w ++ [generationFailedAlert errorMessage];
         foreign := foreign w |}
  end.

Definition handleExamComplete (w : World) (answers : list UserAnswer)
    (duration : nat) : World :=
  {| appState := RESULTS; questions := questions w; config := config w;
     userAnswers := answers; timeSpent := duration;
     initialAnswers := initialAnswers w;
     initialTimeSpent := initialTimeSpent w; initialIdx := initialIdx w;
     savedExam := None; (* localStorage.removeItem *)
     alerts := alerts w; foreign := foreign w |}.

(** [now] is [new Date().toISOString()]. *)
Definition handleSaveExam (w : World) (answers : list UserAnswer)
    (timeSpent currentIdx : nat) (now : string) : World :=
  match config w with
  | None => w
  | Some c =>
      let savedState :=
        {| sv_config := c; sv_questions := questions w; sv_answers := answers;
           sv_timeSpent := timeSpent; sv_currentIdx := currentIdx;
           sv_savedAt := now |} in
      {| appState := SETUP; questions := []; config := None;
         userAnswers := []; timeSpent := App.timeSpent w;
         initialAnswers := initialAnswers w;
         initialTimeSpent := initialTimeSpent w; initialIdx := initialIdx w;
         savedExam := Some (JSON_stringify (of_SavedState savedState));
         alerts := alerts w; foreign := foreign w |}
  end.

(** [!saved] on what [localStorage.getItem] gave: [null], or the empty
    string. *)
Definition nothingSaved (item : option stored) : bool :=
  match item with
  | None => true
  | Some (Unparsable text) => String.eqb text ""
  | Some (Serialized _) => false
  end.

(** The [catch] branch of [handleResumeExam]. *)
Definition handleResumeExam_catch (w : World) : World :=
  {| appState := appState w; questions := questions w;
     config := config w; userAnswers := userAnswers w;
     timeSpent := timeSpent w;
     initialAnswers := initialAnswers w;
     initialTimeSpent := initialTimeSpent w;
     initialIdx := initialIdx w; savedExam := savedExam w;
     alerts := alerts w
       ++ ["Could not resume saved exam. Data might be corrupted."];
     foreign := foreign w |}.

(** [handleResumeExam].  A stored text that does not parse, and one that
    parses to [null] (reading [parsed.config] then throws), end in the
    [catch] branch.  For every other document the five setters run with
    its properties and [appState] becomes [EXAM].  A saved state gives
    cells of their types.  Any other document does not: it is kept in
    [foreign], and [config] is [None], so that this embedding shows no
    exam screen over such cells.  That is what the render guard
    [appState === EXAM && config] does when [parsed.config] is missing
    or falsy; what [ExamInterface] does over other foreign cells is
    outside the embedding. *)
Definition handleResumeExam (w : World) : World :=
  match savedExam w with
  | None => w
  | Some saved =>
      if nothingSaved (Some saved) then w else
      match JSON_parse saved with
      | Returned JNull => handleResumeExam_catch w
      | Returned doc =>
          match to_Parsed doc with
          | Some parsed =>
              {| appState := EXAM; questions := p_questions parsed;
                 config := Some (p_config parsed);
                 userAnswers := userAnswers w; timeSpent := timeSpent w;
                 initialAnswers := p_answers parsed;
                 initialTimeSpent := p_timeSpent parsed;
                 initialIdx := p_currentIdx parsed;
                 savedExam := savedExam w; alerts := alerts w;
                 foreign := None |}
          | None =>
              {| appState := EXAM; questions := questions w;
                 config := None;
                 userAnswers := userAnswers w; timeSpent := timeSpent w;
                 initialAnswers := initialAnswers w;
                 initialTimeSpent := initialTimeSpent w;
                 initialIdx := initialIdx w;
                 savedExam := savedExam w; alerts := alerts w;
                 foreign := Some doc |}
          end
      | Thrown _ => handleResumeExam_catch w
      end
  end.

Definition handleRestart (w : World) : World :=
  {| appState := SETUP; questions := []; config := None; userAnswers := [];
     timeSpent := 0; initialAnswers := []; initialTimeSpent := 0;
     initialIdx := 0; savedExam := savedExam w; alerts := alerts w;
     foreign := None |}.

Definition setAppState (w : World) (s : AppState) : World :=
  {| appState := s; questions := questions w; config := config w;
     userAnswers := userAnswers w; timeSpent := timeSpent w;
     initialAnswers := initialAnswers w;
     initialTimeSpent := initialTimeSpent w; initialIdx := initialIdx w;
     savedExam := savedExam w; alerts := alerts w; foreign := foreign w |}.


(** The props [App] passes to [ExamInterface]. *)
Definition examProps (w : World) (c : ExamConfig) : ExamInterface.Props :=
  {| ExamInterface.questions := questions w;
     ExamInterface.timeLimit := timeLimit c;
     ExamInterface.initialAnswers := Some (initialAnswers w);
     ExamInterface.initialTimeSpent := Some (initialTimeSpent w);
     ExamInterface.initialCurrentIdx := Some (initialIdx w) |}.

(** ** The controller as a transition system

    What can happen to the application: the callbacks the screen of the
    current [appState] offers, the settling of a pending generation, and
    a reload of the page, which rebuilds the component over the same
    [localStorage].  The exam and the results screen are drawn over a
    configuration; over foreign cells ([config] is then [None]) the
    embedding has no next state for their callbacks. *)
Inductive Event :=
| Start (examConfig : ExamConfig)
| GenerationSettled (reply : GeminiService.api_reply)
| Resume
| ViewProgress
| Back
| Complete (answers : list UserAnswer) (duration : nat)
| Save (answers : list UserAnswer) (timeSpent currentIdx : nat) (now : string)
| Restart
| Reload.

Definition dispatch (env : GeminiService.Env) (w : World) (ev : Event)
  : option World :=
  match ev, appState w with
  | Start examConfig, SETUP => Some (handleStartExam_begin w examConfig)
  | GenerationSettled reply, LOADING =>
      Some (handleStartExam_settle w
              (GeminiService.generateExamQuestions env reply))
  | Resume, SETUP => Some (handleResumeExam w)
  | ViewProgress, SETUP => Some (setAppState w PROGRESS)
  | Back, PROGRESS => Some (setAppState w SETUP)
  | Complete answers duration, EXAM =>
      match config w with
      | Some _ => Some (handleExamComplete w answers duration)
      | None => None
      end
  | Save answers t idx now, EXAM =>
      match config w with
      | Some _ => Some (handleSaveExam w answers t idx now)
      | None => None
      end
  | Restart, RESULTS =>
      match config w with
      | Some _ => Some (handleRestart w)
      | None => None
      end
  | Reload, _ => Some (load (savedExam w) (alerts w))
  | _, _ => None
  end.

Fixpoint run (env : GeminiService.Env) (w : World) (evs : list Event)
  : option World :=
  match evs with
  | [] => Some w
  | ev :: rest =>
      match dispatch env w ev with
      | Some w' => run env w' rest
      | None => None
      end
  end.

(** The reading of the snapshot invariant in terms of what happened:
    has the user saved, with no event of the given kind since? *)
Fixpoint savedAndNotSince (clears : Event -> bool) (evs : list Event)
    (before : bool) : bool :=
  match evs with
  | [] => before
  | ev :: rest =>
      savedAndNotSince clears rest
        (match ev with
         | Save _ _ _ _ => true
         | _ => if clears ev then false else before
         end)
  end.

(** As the specification words it: resumed, completed or restarted. *)
Definition clearsAsSpecified (ev : Event) : bool :=
  match ev with
  | Resume | Complete _ _ | Restart => true
  | _ => false
  end.

(** As the controller does it: completed. *)
Definition clearsOnCompletion (ev : Event) : bool :=
  match ev with
  | Complete _ _ => true
  | _ => false
  end.

End App.

(* ================================================================== *)
(** * More of JavaScript: [Set], [+], [>], [Math.max] *)
(* ================================================================== *)

Module JsSet.

(** A [Set] of strings: its elements in insertion order, each once. *)
Definition t := list string.

Definition empty : t := [].

(** [s.has(x)] *)
Fixpoint has (s : t) (x : string) : bool :=
  match s with
  | [] => false
  | y :: rest => String.eqb y x || has rest x
  end.

(** [s.add(x)]: a new element goes last. *)
Definition add (s : t) (x : string) : t :=
  if has s x then s else s ++ [x].

(** [s.delete(x)] *)
Fixpoint delete (s : t) (x : string) : t :=
  match s with
  | [] => []
  | y :: rest => if String.eqb y x then delete rest x else y :: delete rest x
  end.

End JsSet.

Module JsMath.

(** [x + y] *)
Definition add (x y : JsNumber.number) : JsNumber.number :=
  SFadd JsNumber.prec JsNumber.emax x y.

(** [x > y], [x >= y] and [x < y]: false when either side is [NaN]. *)
Definition gt (x y : JsNumber.number) : bool :=
  SFltb y x.

Definition ge (x y : JsNumber.number) : bool :=
  SFleb y x.

Definition lt (x y : JsNumber.number) : bool :=
  SFltb x y.

(** The larger of two numbers as [Math.max] takes it: [NaN] if either is
    [NaN], and [+0] rather than [-0]. *)
Definition max2 (x y : JsNumber.number) : JsNumber.number :=
  match SFcompare x y with
  | None => S754_nan
  | Some Lt => y
  | Some Gt => x
  | Some Eq =>
      match x with
      | S754_zero true => y
      | _ => x
      end
  end.

(** [Math.max(...values)]; with no value it is [-Infinity]. *)
Definition Math_max (values : list JsNumber.number) : JsNumber.number :=
  fold_left max2 values (S754_infinity true).

End JsMath.

(* ================================================================== *)
(** * components/ExamInterface.tsx: what the screen derives *)
(* ================================================================== *)

Module ExamScreen.

(** [toggleHint]: the set handed to [setHintsRevealed]. *)
Definition toggleHint (q : Question) (hintsRevealed : JsSet.t) : JsSet.t :=
  if JsSet.has hintsRevealed (q_id q)
  then JsSet.delete hintsRevealed (q_id q)
  else JsSet.add hintsRevealed (q_id q).

(** Is the hint block of the question rendered?
    [hintsRevealed.has(currentQuestion.id) && currentQuestion.hints] *)
Definition hintShown (q : Question) (hintsRevealed : JsSet.t) : bool :=
  JsSet.has hintsRevealed (q_id q)
  && match q_hints q with Some _ => true | None => false end.

(** [isTimeCritical] *)
Definition isTimeCritical (timeLimit elapsed : nat) : bool :=
  (0 <? timeLimit) && (timeLimit * 60 - elapsed <? 300).

(** A string used as a condition: the empty string is falsy. *)
Definition truthyString (s : option string) : bool :=
  match s with
  | Some t => negb (String.eqb t "")
  | None => false
  end.

(** The filter of the counter on the sidebar button:
    [a.selectedOptionId || (a.code && a.code.length > 10)] *)
Definition countsInBadge (a : UserAnswer) : bool :=
  truthyString (selectedOptionId a)
  || (truthyString (code a)
      && match code a with
         | Some c => 10 <? String.length c
         | None => false
         end).

(** [Array.from(answers.values()).filter(...).length] *)
Definition badgeCount (answers : ledger) : nat :=
  List.length (filter countsInBadge (JsMap.values answers)).

(** The green dots of the question list: the questions [q] with
    [isAnswered(q.id)]. *)
Definition dotCount (questions : list Question) (answers : ledger) : nat :=
  List.length
    (filter (fun q => ExamInterface.isAnswered answers (q_id q)) questions).

End ExamScreen.

(* ================================================================== *)
(** * components/ResultsView.tsx: the history effect and the analysis *)
(* ================================================================== *)

Module ResultsScreen.

(** One run of the effect that stores the result: [hasSaved] is
    [hasSavedRef.current], [stored] the parsed history of
    ['codequest_history'] (the empty array when the item is missing), and
    [item] the record built in this run.  The result is the ref and the
    history after the run. *)
Definition saveEffect (hasSaved : bool)
    (stored : list ResultsView.HistoryItem) (item : ResultsView.HistoryItem)
  : bool * list ResultsView.HistoryItem :=
  if hasSaved then (hasSaved, stored)
  else (true, ResultsView.recordHistory item stored).

(** The effect run once per element of [items], the record each run
    would build. *)
Definition saveEffects (hasSaved : bool)
    (stored : list ResultsView.HistoryItem)
    (items : list ResultsView.HistoryItem)
  : bool * list ResultsView.HistoryItem :=
  fold_left (fun st item => saveEffect (fst st) (snd st) item) items
            (hasSaved, stored).

(** The detailed analysis of one question:
    [gradedAnswers.find(a => a.questionId === q.id)?.isCorrect], used as
    a condition. *)
Definition shownCorrect (gradedAnswers : list UserAnswer) (q : Question)
  : bool :=
  match find (fun a => String.eqb (questionId a) (q_id q)) gradedAnswers with
  | Some ans => ResultsView.truthy (isCorrect ans)
  | None => false
  end.

(** The rating beside the score:
    [percentage >= 90 ? 'Expert' : percentage >= 70 ? 'Proficient' :
     percentage >= 50 ? 'Developing' : 'Novice'] *)
Inductive Rating := Expert | Proficient | Developing | Novice.

Definition rating (percentage : JsNumber.number) : Rating :=
  if JsMath.ge percentage (JsNumber.of_nat 90) then Expert
  else if JsMath.ge percentage (JsNumber.of_nat 70) then Proficient
  else if JsMath.ge percentage (JsNumber.of_nat 50) then Developing
  else Novice.

(** [formatDuration], before the numbers are printed: minutes and
    seconds. *)
Definition duration (seconds : nat) : nat * nat :=
  (seconds / 60, seconds mod 60).

End ResultsScreen.

(* ================================================================== *)
(** * components/ProgressView.tsx *)
(* ================================================================== *)

Module ProgressView.

Definition totalExams (history : list ResultsView.HistoryItem) : nat :=
  List.length history.

(** [history.reduce((acc, curr) => acc + curr.percentage, 0)] *)
Definition sumPercentages (history : list ResultsView.HistoryItem)
  : JsNumber.number :=
  fold_left (fun acc curr => JsMath.add acc (ResultsView.h_percentage curr))
            history (JsNumber.of_nat 0).

Definition avgScore (history : list ResultsView.HistoryItem)
  : JsNumber.number :=
  if 0 <? totalExams history
  then JsNumber.Math_round
         (JsNumber.div (sumPercentages history)
                       (JsNumber.of_nat (totalExams history)))
  else JsNumber.of_nat 0.

Definition topScore (history : list ResultsView.HistoryItem)
  : JsNumber.number :=
  if 0 <? totalExams history
  then JsMath.Math_max (map ResultsView.h_percentage history)
  else JsNumber.of_nat 0.

(** [history.slice(0, 10).reverse()] *)
Definition chartData (history : list ResultsView.HistoryItem)
  : list ResultsView.HistoryItem :=
  rev (firstn 10 history).

End ProgressView.

(* ================================================================== *)
(** * Vocabulary of the properties *)
(* ================================================================== *)

(** [round(num / den)] over the rationals, a half going up: the
    specification's [round(100 * score / totalQuestions)]. *)
Definition roundHalfUp (num den : Z) : Z := ((2 * num + den) / (2 * den))%Z.

(** Every entry of a ledger sits under the identity its answer names. *)
Definition keyed (l : ledger) : Prop :=
  Forall (fun kv => questionId (snd kv) = fst kv) l.

(** A judgement is only ever attached together with the judged code. *)
Definition judgedWithCode (a : UserAnswer) : Prop :=
  isCorrect a <> None -> code a <> None.

(** The invariant of the ledger of a session over [questions]. *)
Record wellFormedLedger (questions : list Question) (l : ledger) : Prop := {
  wf_nodup : NoDup (JsMap.keys l);
  wf_keyed : keyed l;
  wf_known : Forall (fun k => In k (map q_id questions)) (JsMap.keys l);
  wf_judged : Forall judgedWithCode (JsMap.values l)
}.

(** The same for a continuation waiting on the judge or on the test-case
    generator. *)
Definition wellFormedPending (questions : list Question)
    (c : ExamInterface.Pending) : Prop :=
  match c with
  | ExamInterface.AwaitingJudge q captured _ =>
      In q questions /\ wellFormedLedger questions captured
  | ExamInterface.AwaitingTestCases q captured =>
      In q questions /\ wellFormedLedger questions captured
  end.

Record wellFormedMounted (p : ExamInterface.Props) (m : ExamInterface.Mounted)
  : Prop := {
  wfm_ledger :
    wellFormedLedger (ExamInterface.questions p)
      (ExamInterface.answers (ExamInterface.state m));
  wfm_pending :
    Forall (wellFormedPending (ExamInterface.questions p))
      (ExamInterface.pending m)
}.

(** How many timer ticks a sequence of events holds. *)
Fixpoint ticks (evs : list ExamInterface.Event) : nat :=
  match evs with
  | [] => 0
  | ExamInterface.TimerTick :: rest => S (ticks rest)
  | _ :: rest => ticks rest
  end.

(** After a commit the auto-submit effect has seen the current
    dependencies, and it has fired once if the time is up and not at all
    otherwise. *)
Definition effectSettled (p : ExamInterface.Props) (m : ExamInterface.Mounted)
  : Prop :=
  let e := ExamInterface.elapsed (ExamInterface.state m) in
  ExamInterface.autoSubmitDeps m = Some (e, ExamInterface.timeLimit p)
  /\ ExamInterface.autoSubmits m
     = if ExamInterface.timeIsUp (ExamInterface.timeLimit p) e then 1 else 0.

(** The clock against the number [n] of seconds it would show if it never
    stopped. *)
Definition clockAt (p : ExamInterface.Props) (m : ExamInterface.Mounted)
    (n : nat) : Prop :=
  let e := ExamInterface.elapsed (ExamInterface.state m) in
  if ExamInterface.timeIsUp (ExamInterface.timeLimit p) e
  then ExamInterface.timeLimit p * 60 <= n
  else e = n.

(** Does the scorer count this answer?  It does when the answer's
    question is found and the answer is computed correct for it. *)
Definition counted (questions : list Question) (a : UserAnswer) : bool :=
  match ResultsView.findQuestion questions (questionId a) with
  | Some q => ResultsView.computedCorrect q a
  | None => false
  end.

(** The round and sticky bits of a shift record are both clear: nothing
    was lost to the right of the mantissa. *)
Definition nothingLost (r : shr_record) : Prop := shr_r r = false /\ shr_s r = false.

(** [y] is [x] shifted right by [n] bits, for a mantissa that is not
    negative. *)
Definition shiftedBy (n : Z) (x y : shr_record) : Prop :=
  (0 <= shr_m x)%Z ->
  (0 <= shr_m y)%Z
  /\ shr_m y = (shr_m x / 2 ^ n)%Z
  /\ (nothingLost x -> (shr_m x mod 2 ^ n)%Z = 0%Z -> nothingLost y).

(** Structural equality of numbers (it tells [+0] from [-0]). *)
Definition number_eqb (x y : JsNumber.number) : bool :=
  match x, y with
  | S754_zero a, S754_zero b => Bool.eqb a b
  | S754_infinity a, S754_infinity b => Bool.eqb a b
  | S754_nan, S754_nan => true
  | S754_finite a m e, S754_finite b n f =>
      Bool.eqb a b && Pos.eqb m n && Z.eqb e f
  | _, _ => false
  end.

(** [Math.round((score / total) * 100)] as [ResultsView] computes it. *)
Definition percentOf (score total : nat) : JsNumber.number :=
  JsNumber.Math_round
    (JsNumber.mul (JsNumber.div (JsNumber.of_nat score) (JsNumber.of_nat total))
                  (JsNumber.of_nat 100)).

(** Do the computed and the exact percentage agree, for one score and for
    every score up to [total]? *)
Definition percentExact (score total : nat) : bool :=
  number_eqb (percentOf score total)
    (JsNumber.of_Z (roundHalfUp (100 * Z.of_nat score) (Z.of_nat total))).

Definition percentExactUpTo (total : nat) : bool :=
  forallb (fun s => percentExact s total) (seq 0 (S total)).

(* ================================================================== *)
(** * Sample sessions *)
(* ================================================================== *)

Definition choiceQuestion (id correct : string) : Question :=
  {| q_id := id; q_type := MCQ; q_title := "Pick one"; q_description := "";
     q_difficulty := Beginner;
     q_options := Some [ {| opt_id := "a"; opt_text := "first" |};
                         {| opt_id := "b"; opt_text := "second" |} ];
     q_correctOptionId := Some correct; q_language := None;
     q_startingCode := None; q_referenceCode := None; q_testCases := None;
     q_hints := None |}.

Definition codeQuestion (id : string) : Question :=
  {| q_id := id; q_type := CODE; q_title := "Write it"; q_description := "";
     q_difficulty := Intermediate; q_options := None;
     q_correctOptionId := None; q_language := Some PYTHON;
     q_startingCode := None; q_referenceCode := None; q_testCases := None;
     q_hints := None |}.

Definition sampleQuestions : list Question :=
  [choiceQuestion "q1" "a"; codeQuestion "q2"; choiceQuestion "q3" "b"].

Definition sampleConfig : ExamConfig :=
  {| topic := "Python Lists"; difficulty := Intermediate; questionCount := 3;
     examType := ExamMixed; timeLimit := 1 |}.

(** A browser with an API key, whose parser reads every reply as the
    sample questions, a passing judgement, or one test case. *)
Definition sampleEnv : GeminiService.Env :=
  {| GeminiService.VITE_API_KEY := Some "key";
     GeminiService.JSON_parse_Questions := fun _ => Returned sampleQuestions;
     GeminiService.JSON_parse_GradingResult := fun _ =>
       Returned {| passed := true; gr_score := 100;
                   gr_feedback := "Well done."; gr_output := "42" |};
     GeminiService.JSON_parse_testCases := fun _ => Returned (Some ["Input: 1"]) |}.

(** A fresh one-minute session over the sample questions. *)
Definition sampleProps : ExamInterface.Props :=
  {| ExamInterface.questions := sampleQuestions;
     ExamInterface.timeLimit := 1;
     ExamInterface.initialAnswers := Some [];
     ExamInterface.initialTimeSpent := Some 0;
     ExamInterface.initialCurrentIdx := Some 0 |}.

(** The user answers the first question, moves on, types and runs code
    while editing it further, asks for test cases, resets the code, then
    lets the clock run out. *)
Definition sampleEvents : list ExamInterface.Event :=
  [ ExamInterface.OptionSelect "b";
    ExamInterface.OptionSelect "a";
    ExamInterface.Next;
    ExamInterface.CodeChange "print(1)";
    ExamInterface.RunCode (Some "print(1)");
    ExamInterface.CodeChange "print(12)";
    ExamInterface.GenerateTestCases;
    ExamInterface.JudgeSettled 0 (GeminiService.ApiResponds (Some "{}"));
    ExamInterface.TestCasesSettled 0 (GeminiService.ApiThrows "offline");
    ExamInterface.ResetCode true ]
  ++ repeat ExamInterface.TimerTick 65.

(** The component showing the code question, with code typed but not
    yet run. *)
Definition typedState : ExamInterface.State :=
  {| ExamInterface.currentIdx := 1;
     ExamInterface.answers :=
       [("q1", {| questionId := "q1"; selectedOptionId := Some "a";
                  code := None; isCorrect := None; feedback := None;
                  output := None; testInput := None |});
        ("q2", with_code (blankAnswer "q2") "print(1)")];
     ExamInterface.elapsed := 30;
     ExamInterface.isGrading := false;
     ExamInterface.isGeneratingTests := false |}.

(** The application showing an exam over the sample questions. *)
Definition examWorld : App.World :=
  {| App.appState := EXAM; App.questions := sampleQuestions;
     App.config := Some sampleConfig; App.userAnswers := [];
     App.timeSpent := 0; App.initialAnswers := []; App.initialTimeSpent := 0;
     App.initialIdx := 0; App.savedExam := None; App.alerts := [];
     App.foreign := None |}.

(** A start that succeeds, a save, and a resume. *)
Definition saveAndResume : list App.Event :=
  [ App.Start sampleConfig;
    App.GenerationSettled (GeminiService.ApiResponds (Some "[]"));
    App.Save (JsMap.values (ExamInterface.answers typedState)) 30 1
             "2025-11-24T17:38:48.000Z";
    App.Resume ].

(** Forty choice questions, and a user who picks the correct option of
    the first [k]. *)
Definition fortyQuestions : list Question :=
  map (fun i => choiceQuestion (ExamInterface.decimal i) "a") (seq 1 40).

Definition fortyProps : ExamInterface.Props :=
  {| ExamInterface.questions := fortyQuestions;
     ExamInterface.timeLimit := 0;
     ExamInterface.initialAnswers := Some [];
     ExamInterface.initialTimeSpent := Some 0;
     ExamInterface.initialCurrentIdx := Some 0 |}.

Definition answerFirst (k : nat) : list ExamInterface.Event :=
  flat_map (fun i => [ExamInterface.SelectQuestion i; ExamInterface.OptionSelect "a"])
           (seq 0 k).

(** Three choice questions, the first two answered correctly and the
    third not. *)
Definition threeChoices : list Question :=
  [choiceQuestion "q1" "a"; choiceQuestion "q2" "b"; choiceQuestion "q3" "a"].

Definition twoOfThree : ledger :=
  ExamInterface.handleOptionSelect (choiceQuestion "q3" "a")
    (ExamInterface.handleOptionSelect (choiceQuestion "q2" "b")
       (ExamInterface.handleOptionSelect (choiceQuestion "q1" "a") JsMap.empty "a")
       "b")
    "b".

(** Is there a snapshot in the slot? *)
Definition snapshotExists (w : App.World) : bool :=
  match App.savedExam w with
  | Some _ => true
  | None => false
  end.

(** The results screen is only ever shown over an empty slot. *)
Definition resultsWithoutSnapshot (w : App.World) : Prop :=
  App.appState w = RESULTS -> App.savedExam w = None.


(** Outside an exam and its results the controller holds no questions
    and no answers. *)
Definition idle (w : App.World) : Prop :=
  match App.appState w with
  | SETUP | LOADING | PROGRESS => App.questions w = [] /\ App.userAnswers w = []
  | EXAM | RESULTS => True
  end.

(* ================================================================== *)
(** * Vocabulary of the further properties *)
(* ================================================================== *)

(** What the clock shows as elapsed after [k] ticks from [e0]. *)
Definition clockAfter (limit e0 k : nat) : nat :=
  if ExamInterface.timeIsUp limit e0 then e0
  else if Nat.eqb limit 0 then e0 + k
  else Nat.min (e0 + k) (limit * 60).

(** The events whose handlers run to their end at once: everything but
    the start and the settling of a judging or test-case request. *)
Definition synchronous (ev : ExamInterface.Event) : bool :=
  match ev with
  | ExamInterface.RunCode _
  | ExamInterface.JudgeSettled _ _
  | ExamInterface.GenerateTestCases
  | ExamInterface.TestCasesSettled _ _ => false
  | _ => true
  end.

(** [l1] is a prefix of [l2]. *)
Definition prefixOf {A : Type} (l1 l2 : list A) : Prop :=
  exists rest, l2 = l1 ++ rest.

(** The fields of an answer that grading leaves alone. *)
Definition sameButIsCorrect (a g : UserAnswer) : Prop :=
  questionId g = questionId a
  /\ selectedOptionId g = selectedOptionId a
  /\ code g = code a
  /\ feedback g = feedback a
  /\ output g = output a
  /\ testInput g = testInput a.

(** The percentages of a history are whole numbers from 0 to 100. *)
Definition percentagesInRange (history : list ResultsView.HistoryItem)
    (ks : list Z) : Prop :=
  map ResultsView.h_percentage history = map JsNumber.of_Z ks
  /\ Forall (fun k => (0 <= k <= 100)%Z) ks.

(** The largest of a list of integers, [d] for the empty list. *)
Definition maxOf (d : Z) (ks : list Z) : Z := fold_left Z.max ks d.

(** Do [Math.max] and the comparison of two percentages agree with the
    integers they stand for, for all pairs up to 100? *)
Definition max2Exact (a b : nat) : bool :=
  number_eqb (JsMath.max2 (JsNumber.of_nat a) (JsNumber.of_nat b))
             (JsNumber.of_nat (Nat.max a b)).

Definition max2ExactUpTo (n : nat) : bool :=
  forallb (fun a => forallb (fun b => max2Exact a b) (seq 0 (S n))) (seq 0 (S n)).

(** A history record with the given percentage. *)
Definition sampleRecord (id : string) (percent : nat) : ResultsView.HistoryItem :=
  {| ResultsView.h_id := id; ResultsView.h_date := "2025-11-24T17:38:48.000Z";
     ResultsView.h_topic := "Python Lists";
     ResultsView.h_difficulty := Intermediate;
     ResultsView.h_score := 0; ResultsView.h_totalQuestions := 1;
     ResultsView.h_percentage := JsNumber.of_nat percent;
     ResultsView.h_timeSpent := 60 |}.

(** The rating by the whole percentage, and whether [rating] gives it
    for every percentage up to [n]. *)
Definition ratingOf (k : nat) : ResultsScreen.Rating :=
  if 90 <=? k then ResultsScreen.Expert
  else if 70 <=? k then ResultsScreen.Proficient
  else if 50 <=? k then ResultsScreen.Developing
  else ResultsScreen.Novice.

Definition rating_eqb (a b : ResultsScreen.Rating) : bool :=
  match a, b with
  | ResultsScreen.Expert, ResultsScreen.Expert
  | ResultsScreen.Proficient, ResultsScreen.Proficient
  | ResultsScreen.Developing, ResultsScreen.Developing
  | ResultsScreen.Novice, ResultsScreen.Novice => true
  | _, _ => false
  end.

Definition ratingExactUpTo (n : nat) : bool :=
  forallb (fun k => rating_eqb (ResultsScreen.rating (JsNumber.of_nat k))
                               (ratingOf k))
          (seq 0 (S n)).

(** Is every percentage up to [n] above [-Infinity] for [Math.max]? *)
Definition maxFromBelowUpTo (n : nat) : bool :=
  forallb (fun a => number_eqb (JsMath.max2 (S754_infinity true) (JsNumber.of_nat a))
                               (JsNumber.of_nat a))
          (seq 0 (S n)).


(** A stored item that [handleResumeExam] cannot read: a text, not
    empty, that does not parse, or the text of [null]. *)
Definition unreadable (item : Json.stored) : Prop :=
  (exists text, item = Json.Unparsable text /\ text <> EmptyString)
  \/ item = Json.Serialized Json.JNull.

(** The events that write to the snapshot slot. *)
Definition writesSlot (ev : App.Event) : bool :=
  match ev with
  | App.Save _ _ _ _ | App.Complete _ _ => true
  | _ => false
  end.

(** The component of [typedState] with no request in flight. *)
Definition typedMounted : ExamInterface.Mounted :=
  {| ExamInterface.state := typedState; ExamInterface.pending := [];
     ExamInterface.autoSubmitDeps := None; ExamInterface.autoSubmits := 0 |}.

(** What the user does while a request is in flight: types on, goes back
    and picks another option for the first question. *)
Definition editsInBetween : list ExamInterface.Event :=
  [ExamInterface.CodeChange "print(2)"; ExamInterface.Previous;
   ExamInterface.OptionSelect "b"].

(** The sample browser built without an API key. *)
Definition keylessEnv : GeminiService.Env :=
  {| GeminiService.VITE_API_KEY := None;
     GeminiService.JSON_parse_Questions :=
       GeminiService.JSON_parse_Questions sampleEnv;
     GeminiService.JSON_parse_GradingResult :=
       GeminiService.JSON_parse_GradingResult sampleEnv;
     GeminiService.JSON_parse_testCases :=
       GeminiService.JSON_parse_testCases sampleEnv |}.

(** How many requests for test cases are in flight. *)
Fixpoint testRequests (l : list ExamInterface.Pending) : nat :=
  match l with
  | [] => 0
  | ExamInterface.AwaitingTestCases _ _ :: rest => S (testRequests rest)
  | ExamInterface.AwaitingJudge _ _ _ :: rest => testRequests rest
  end.

(** The progress flag of the test-case generator says whether a request
    is in flight, and there is never more than one. *)
Definition oneTestRequest (m : ExamInterface.Mounted) : Prop :=
  testRequests (ExamInterface.pending m)
  = if ExamInterface.isGeneratingTests (ExamInterface.state m) then 1 else 0.

(** The sum of a list of integers. *)
Definition sumOf (ks : list Z) : Z := fold_left Z.add ks 0%Z.

(* ================================================================== *)
(** * Facts about [JsMap] *)
(* ================================================================== *)

Section JsMapFacts.
Variable V : Type.
Implicit Types (m : JsMap.t V) (k : string) (v : V).

Lemma get_set_same m k v : JsMap.get (JsMap.set m k v) k = Some v.
Proof.
  induction m as [|[k' v'] m IH]; simpl.
  - now rewrite String.eqb_refl.
  - destruct (String.eqb k' k) eqn:E; simpl; rewrite E; auto.
Qed.

Lemma get_set_other m k k' v :
  k <> k' -> JsMap.get (JsMap.set m k v) k' = JsMap.get m k'.
Proof.
  intros Hne. induction m as [|[k0 v0] m IH]; simpl.
  - destruct (String.eqb_spec k k'); congruence.
  - destruct (String.eqb_spec k0 k) as [->|Hk]; simpl.
    + destruct (String.eqb_spec k k'); congruence.
    + now rewrite IH.
Qed.

Lemma get_None_notin m k : JsMap.get m k = None <-> ~ In k (JsMap.keys m).
Proof.
  induction m as [|[k' v'] m IH]; simpl.
  - tauto.
  - destruct (String.eqb_spec k' k) as [->|Hk].
    + split; [discriminate | tauto].
    + rewrite IH. tauto.
Qed.

Lemma get_Some_in m k v : JsMap.get m k = Some v -> In (k, v) m.
Proof.
  induction m as [|[k' v'] m IH]; simpl; [discriminate|].
  destruct (String.eqb_spec k' k) as [->|Hk].
  - intros [= ->]. now left.
  - auto.
Qed.

Lemma in_get_nodup m k v :
  NoDup (JsMap.keys m) -> In (k, v) m -> JsMap.get m k = Some v.
Proof.
  induction m as [|[k' v'] m IH]; simpl; [tauto|].
  intros Hnd [[= -> ->]|Hin].
  - now rewrite String.eqb_refl.
  - inversion Hnd as [|? ? Hnotin Hnd']; subst.
    destruct (String.eqb_spec k' k) as [->|Hk].
    + exfalso. apply Hnotin. change k with (fst (k, v)). now apply in_map.
    + auto.
Qed.

Lemma set_fresh m k v :
  ~ In k (JsMap.keys m) -> JsMap.set m k v = m ++ [(k, v)].
Proof.
  induction m as [|[k' v'] m IH]; simpl; [reflexivity|].
  intros Hn. destruct (String.eqb_spec k' k) as [->|Hk]; [tauto|].
  rewrite IH; tauto.
Qed.

Lemma keys_set_present m k v :
  In k (JsMap.keys m) -> JsMap.keys (JsMap.set m k v) = JsMap.keys m.
Proof.
  induction m as [|[k' v'] m IH]; simpl; [tauto|].
  intros Hin. destruct (String.eqb_spec k' k) as [->|Hk]; simpl.
  - reflexivity.
  - rewrite IH; [reflexivity | tauto].
Qed.

Lemma keys_set m k v :
  JsMap.keys (JsMap.set m k v) = JsMap.keys m
  \/ (~ In k (JsMap.keys m)
      /\ JsMap.keys (JsMap.set m k v) = JsMap.keys m ++ [k]).
Proof.
  destruct (in_dec string_dec k (JsMap.keys m)) as [Hin|Hn].
  - left. now apply keys_set_present.
  - right. split; [assumption|].
    rewrite set_fresh by assumption. unfold JsMap.keys.
    now rewrite map_app.
Qed.

Lemma nodup_keys_set m k v :
  NoDup (JsMap.keys m) -> NoDup (JsMap.keys (JsMap.set m k v)).
Proof.
  intros Hnd. destruct (keys_set m k v) as [->|[Hn ->]]; [assumption|].
  apply NoDup_app; [assumption | repeat constructor; simpl; tauto |].
  intros x Hx [<-|[]]. contradiction.
Qed.

Lemma in_keys_set m k v x :
  In x (JsMap.keys (JsMap.set m k v)) -> x = k \/ In x (JsMap.keys m).
Proof.
  destruct (keys_set m k v) as [->|[_ ->]]; [tauto|].
  rewrite in_app_iff. simpl. intuition.
Qed.

Lemma in_set m k v x w :
  In (x, w) (JsMap.set m k v) -> (x = k /\ w = v) \/ In (x, w) m.
Proof.
  induction m as [|[k' v'] m IH]; simpl.
  - intros [[= <- <-]|[]]. now left.
  - destruct (String.eqb_spec k' k) as [->|Hk]; simpl.
    + intros [[= <- <-]|Hin]; [now left | now right; right].
    + intros [Heq|Hin]; [now right; left|].
      destruct (IH Hin); [now left | now right; right].
Qed.

End JsMapFacts.

(* ================================================================== *)
(** * The ledger invariant *)
(* ================================================================== *)

Section LedgerInvariant.
Variable questions : list Question.

Lemma wellFormed_empty : wellFormedLedger questions JsMap.empty.
Proof. split; constructor. Qed.

Lemma wellFormed_set (l : ledger) (k : string) (a : UserAnswer) :
  wellFormedLedger questions l ->
  questionId a = k ->
  In k (map q_id questions) ->
  judgedWithCode a ->
  wellFormedLedger questions (JsMap.set l k a).
Proof.
  intros [Hnd Hkey Hknown Hjud] Hid Hin Hj. split.
  - now apply nodup_keys_set.
  - apply Forall_forall. intros [x w] Hx.
    destruct (in_set _ _ _ _ _ _ Hx) as [[-> ->]|Hold]; [assumption|].
    unfold keyed in Hkey. rewrite Forall_forall in Hkey. now apply (Hkey (x, w)).
  - apply Forall_forall. intros x Hx.
    destruct (in_keys_set _ _ _ _ _ Hx) as [->|Hold]; [assumption|].
    rewrite Forall_forall in Hknown. auto.
  - apply Forall_forall. intros w Hw.
    apply in_map_iff in Hw. destruct Hw as [[x w'] [Hsnd Hx]]. simpl in Hsnd. subst w'.
    destruct (in_set _ _ _ _ _ _ Hx) as [[_ ->]|Hold]; [assumption|].
    rewrite Forall_forall in Hjud. apply Hjud.
    apply in_map_iff. now exists (x, w).
Qed.

Lemma existingAnswer_questionId (l : ledger) (k : string) :
  keyed l -> questionId (existingAnswer l k) = k.
Proof.
  intros Hkey. unfold existingAnswer.
  destruct (JsMap.get l k) as [a|] eqn:E; [|reflexivity].
  apply get_Some_in in E. unfold keyed in Hkey. rewrite Forall_forall in Hkey.
  now apply (Hkey (k, a)).
Qed.

Lemma existingAnswer_judged (l : ledger) (k : string) :
  Forall judgedWithCode (JsMap.values l) -> judgedWithCode (existingAnswer l k).
Proof.
  intros Hjud. unfold existingAnswer.
  destruct (JsMap.get l k) as [a|] eqn:E.
  - apply get_Some_in in E. rewrite Forall_forall in Hjud. apply Hjud.
    apply in_map_iff. now exists (k, a).
  - intros H. now elim H.
Qed.

Lemma q_id_known (q : Question) : In q questions -> In (q_id q) (map q_id questions).
Proof. apply in_map. Qed.

Lemma wellFormed_handleOptionSelect q l optId :
  In q questions -> wellFormedLedger questions l ->
  wellFormedLedger questions (ExamInterface.handleOptionSelect q l optId).
Proof.
  intros Hq Hl. unfold ExamInterface.handleOptionSelect.
  apply wellFormed_set; auto using q_id_known.
  intros H. now elim H.
Qed.

Lemma wellFormed_handleCodeChange q l c :
  In q questions -> wellFormedLedger questions l ->
  wellFormedLedger questions (ExamInterface.handleCodeChange q l c).
Proof.
  intros Hq Hl. unfold ExamInterface.handleCodeChange.
  apply wellFormed_set; auto using q_id_known.
  - simpl. apply existingAnswer_questionId, Hl.
  - intros _. discriminate.
Qed.

Lemma wellFormed_handleResetCode q l confirmed :
  In q questions -> wellFormedLedger questions l ->
  wellFormedLedger questions (ExamInterface.handleResetCode q l confirmed).
Proof.
  intros Hq Hl. unfold ExamInterface.handleResetCode.
  destruct confirmed; [|assumption].
  apply wellFormed_set; auto using q_id_known.
  - simpl. apply existingAnswer_questionId, Hl.
  - intros _. discriminate.
Qed.

Lemma wellFormed_storeJudgement q l c r :
  In q questions -> wellFormedLedger questions l ->
  wellFormedLedger questions (ExamInterface.storeJudgement q l c r).
Proof.
  intros Hq Hl. unfold ExamInterface.storeJudgement.
  apply wellFormed_set; auto using q_id_known.
  - simpl. apply existingAnswer_questionId, Hl.
  - intros _. discriminate.
Qed.

Lemma wellFormed_storeTestCases q l cases :
  In q questions -> wellFormedLedger questions l ->
  wellFormedLedger questions (ExamInterface.storeTestCases q l cases).
Proof.
  intros Hq Hl. unfold ExamInterface.storeTestCases.
  apply wellFormed_set; auto using q_id_known.
  - simpl. apply existingAnswer_questionId, Hl.
  - pose proof (existingAnswer_judged l (q_id q) (wf_judged _ _ Hl)) as Hj.
    unfold judgedWithCode in *. simpl. exact Hj.
Qed.

(** A well-formed ledger holds no more answers than there are questions. *)
Lemma wellFormed_size (l : ledger) :
  wellFormedLedger questions l -> JsMap.size l <= List.length questions.
Proof.
  intros [Hnd _ Hknown _].
  unfold JsMap.size. rewrite <- (length_map fst l), <- (length_map q_id questions).
  apply NoDup_incl_length; [exact Hnd|].
  intros x Hx. rewrite Forall_forall in Hknown. now apply Hknown.
Qed.

End LedgerInvariant.

Section MountedInvariant.
Variable env : GeminiService.Env.
Variable p : ExamInterface.Props.

Lemma Forall_remove_nth {A : Type} (P : A -> Prop) (i : nat) (l : list A) :
  Forall P l -> Forall P (ExamInterface.remove_nth i l).
Proof.
  intros H. revert i. induction H as [|x l Hx Hl IH]; intros i.
  - destruct i; constructor.
  - destruct i; simpl; [assumption | constructor; auto].
Qed.

Lemma Forall_nth_error {A : Type} (P : A -> Prop) (i : nat) (l : list A) (x : A) :
  Forall P l -> nth_error l i = Some x -> P x.
Proof.
  intros H Hn. rewrite Forall_forall in H. eauto using nth_error_In.
Qed.

Lemma wellFormed_commit m :
  wellFormedMounted p m -> wellFormedMounted p (ExamInterface.commit p m).
Proof.
  intros [Hl Hp]. unfold ExamInterface.commit.
  destruct (ExamInterface.depsChanged _ _); split; assumption.
Qed.

Lemma wellFormed_handle q m ev :
  In q (ExamInterface.questions p) ->
  wellFormedMounted p m ->
  wellFormedMounted p (ExamInterface.handle env p q m ev).
Proof.
  intros Hq [Hl Hp].
  destruct ev; simpl.
  - split; assumption.
  - destruct (_ <? _); split; assumption.
  - split; assumption.
  - split; assumption.
  - split; simpl; [now apply wellFormed_handleOptionSelect | assumption].
  - split; simpl; [now apply wellFormed_handleCodeChange | assumption].
  - destruct confirmed; [|split; assumption].
    split; simpl; [|assumption].
    now apply wellFormed_handleResetCode with (confirmed := true).
  - destruct (ExamInterface.blank _); [split; assumption|].
    split; simpl; [assumption|].
    apply Forall_app. split; [assumption|].
    constructor; [|constructor]. simpl. now split.
  - destruct (nth_error (ExamInterface.pending m) i) as [[q' captured userCode|]|] eqn:E;
      try (split; assumption).
    pose proof (Forall_nth_error _ _ _ _ Hp E) as [Hq' Hc].
    destruct (GeminiService.gradeCodeSubmission env q' userCode reply);
      split; simpl;
      auto using Forall_remove_nth, wellFormed_storeJudgement.
  - destruct (ExamInterface.isGeneratingTests _); [split; assumption|].
    split; simpl; [assumption|].
    apply Forall_app. split; [assumption|].
    constructor; [|constructor]. simpl. now split.
  - destruct (nth_error (ExamInterface.pending m) i) as [[|q' captured]|] eqn:E;
      try (split; assumption).
    pose proof (Forall_nth_error _ _ _ _ Hp E) as [Hq' Hc].
    destruct (GeminiService.generateTestCases env q' reply);
      split; simpl;
      auto using Forall_remove_nth, wellFormed_storeTestCases.
Qed.

Lemma wellFormed_dispatch m ev m' :
  wellFormedMounted p m ->
  ExamInterface.dispatch env p m ev = Some m' ->
  wellFormedMounted p m'.
Proof.
  intros Hm. unfold ExamInterface.dispatch, ExamInterface.currentQuestion.
  destruct (nth_error _ _) as [q|] eqn:E; [|discriminate].
  intros [= <-]. apply wellFormed_commit, wellFormed_handle; [|assumption].
  eauto using nth_error_In.
Qed.

Lemma wellFormed_run evs : forall m m',
  wellFormedMounted p m ->
  ExamInterface.run env p m evs = Some m' ->
  wellFormedMounted p m'.
Proof.
  induction evs as [|ev evs IH]; simpl; intros m m' Hm.
  - now intros [= <-].
  - destruct (ExamInterface.dispatch env p m ev) as [m1|] eqn:E; [|discriminate].
    eauto using wellFormed_dispatch.
Qed.

(** With a question under the index, no event makes the component throw:
    the index stays inside the question set. *)
Lemma index_handle q m ev :
  ExamInterface.currentIdx (ExamInterface.state m)
    < List.length (ExamInterface.questions p) ->
  ExamInterface.currentIdx
      (ExamInterface.state (ExamInterface.commit p (ExamInterface.handle env p q m ev)))
    < List.length (ExamInterface.questions p).
Proof.
  intros Hi.
  assert (Hc : forall x, ExamInterface.state (ExamInterface.commit p x)
                         = ExamInterface.state x).
  { intros x. unfold ExamInterface.commit.
    now destruct (ExamInterface.depsChanged _ _). }
  rewrite Hc.
  destruct ev; simpl; try assumption; try lia.
  - destruct (idx <? _) eqn:E; simpl; [now apply Nat.ltb_lt in E | assumption].
  - destruct confirmed; simpl; assumption.
  - destruct (ExamInterface.blank _); simpl; assumption.
  - destruct (nth_error (ExamInterface.pending m) i) as [[q' captured userCode|]|];
      try assumption.
    destruct (GeminiService.gradeCodeSubmission env q' userCode reply); simpl; assumption.
  - destruct (ExamInterface.isGeneratingTests _); simpl; assumption.
  - destruct (nth_error (ExamInterface.pending m) i) as [[|q' captured]|];
      try assumption.
    destruct (GeminiService.generateTestCases env q' reply); simpl; assumption.
Qed.

Lemma run_total evs : forall m,
  ExamInterface.currentIdx (ExamInterface.state m)
    < List.length (ExamInterface.questions p) ->
  exists m', ExamInterface.run env p m evs = Some m'.
Proof.
  induction evs as [|ev evs IH]; simpl; intros m Hi.
  - eauto.
  - unfold ExamInterface.dispatch, ExamInterface.currentQuestion.
    destruct (nth_error _ _) as [q|] eqn:E.
    + apply IH. now apply index_handle.
    + apply nth_error_None in E. lia.
Qed.

End MountedInvariant.

(* ================================================================== *)
(** * The timer and the auto-submit effect *)
(* ================================================================== *)

Section Timer.
Variable env : GeminiService.Env.
Variable p : ExamInterface.Props.

Lemma handle_effect_fields q m ev :
  ExamInterface.autoSubmitDeps (ExamInterface.handle env p q m ev)
    = ExamInterface.autoSubmitDeps m
  /\ ExamInterface.autoSubmits (ExamInterface.handle env p q m ev)
     = ExamInterface.autoSubmits m.
Proof.
  destruct ev; simpl; auto.
  - destruct (_ <? _); auto.
  - destruct confirmed; auto.
  - destruct (ExamInterface.blank _); auto.
  - destruct (nth_error _ _) as [[q' c u|]|]; auto.
    destruct (GeminiService.gradeCodeSubmission _ _ _ _); auto.
  - destruct (ExamInterface.isGeneratingTests _); auto.
  - destruct (nth_error _ _) as [[|q' c]|]; auto.
    destruct (GeminiService.generateTestCases _ _ _); auto.
Qed.

Lemma handle_elapsed q m ev :
  ExamInterface.elapsed (ExamInterface.state (ExamInterface.handle env p q m ev))
  = match ev with
    | ExamInterface.TimerTick =>
        ExamInterface.tick (ExamInterface.timeLimit p)
          (ExamInterface.elapsed (ExamInterface.state m))
    | _ => ExamInterface.elapsed (ExamInterface.state m)
    end.
Proof.
  destruct ev; simpl; auto.
  - destruct (_ <? _); auto.
  - destruct confirmed; auto.
  - destruct (ExamInterface.blank _); auto.
  - destruct (nth_error _ _) as [[q' c u|]|]; auto.
    destruct (GeminiService.gradeCodeSubmission _ _ _ _); auto.
  - destruct (ExamInterface.isGeneratingTests _); auto.
  - destruct (nth_error _ _) as [[|q' c]|]; auto.
    destruct (GeminiService.generateTestCases _ _ _); auto.
Qed.

Lemma timeIsUp_spec limit e :
  ExamInterface.timeIsUp limit e = true <-> 0 < limit /\ limit * 60 <= e.
Proof.
  unfold ExamInterface.timeIsUp.
  rewrite andb_true_iff, Nat.ltb_lt, Nat.leb_le. tauto.
Qed.

Lemma tick_spec limit e :
  ExamInterface.tick limit e
  = if ExamInterface.timeIsUp limit e then e else e + 1.
Proof. reflexivity. Qed.

Lemma commit_state m :
  ExamInterface.state (ExamInterface.commit p m) = ExamInterface.state m.
Proof.
  unfold ExamInterface.commit. now destruct (ExamInterface.depsChanged _ _).
Qed.

(** The effect after a render: it stays settled when the clock did not
    move, and when it moved from a time that was not yet up. *)
Lemma commit_settles h e :
  ExamInterface.autoSubmitDeps h = Some (e, ExamInterface.timeLimit p) ->
  ExamInterface.autoSubmits h
    = (if ExamInterface.timeIsUp (ExamInterface.timeLimit p) e then 1 else 0) ->
  ExamInterface.elapsed (ExamInterface.state h) = e
    \/ ExamInterface.timeIsUp (ExamInterface.timeLimit p) e = false ->
  effectSettled p (ExamInterface.commit p h).
Proof.
  intros Hdeps Hcount Hmove.
  unfold effectSettled, ExamInterface.commit. rewrite Hdeps. simpl.
  rewrite Nat.eqb_refl, andb_true_r.
  destruct (Nat.eqb e (ExamInterface.elapsed (ExamInterface.state h))) eqn:E; simpl.
  - apply Nat.eqb_eq in E. rewrite <- E. auto.
  - apply Nat.eqb_neq in E. split; [reflexivity|].
    destruct Hmove as [Heq|Hup]; [congruence|].
    rewrite Hcount, Hup. reflexivity.
Qed.

Lemma settled_mount :
  effectSettled p (ExamInterface.mount p)
  /\ clockAt p (ExamInterface.mount p)
       (ExamInterface.or_zero (ExamInterface.initialTimeSpent p)).
Proof.
  unfold ExamInterface.mount, ExamInterface.commit, effectSettled, clockAt. simpl.
  destruct (ExamInterface.timeIsUp _ _) eqn:E; repeat split; auto.
  apply timeIsUp_spec in E. lia.
Qed.

Lemma ticks_cons ev evs : ticks (ev :: evs) = ticks [ev] + ticks evs.
Proof. destruct ev; simpl; lia. Qed.

Lemma settled_dispatch m ev m' n :
  effectSettled p m -> clockAt p m n ->
  ExamInterface.dispatch env p m ev = Some m' ->
  effectSettled p m' /\ clockAt p m' (n + ticks [ev]).
Proof.
  intros [Hdeps Hcount] Hclock. unfold ExamInterface.dispatch.
  destruct (ExamInterface.currentQuestion p _) as [q|]; [|discriminate].
  intros [= <-].
  destruct (handle_effect_fields q m ev) as [Hd Hc].
  pose proof (handle_elapsed q m ev) as He.
  unfold clockAt in *. rewrite commit_state, He.
  assert (Hquiet :
    ExamInterface.elapsed (ExamInterface.state (ExamInterface.handle env p q m ev))
      = ExamInterface.elapsed (ExamInterface.state m) ->
    effectSettled p (ExamInterface.commit p (ExamInterface.handle env p q m ev))).
  { intros Hsame.
    apply commit_settles with (e := ExamInterface.elapsed (ExamInterface.state m));
      [congruence | congruence | now left]. }
  destruct ev; simpl ticks; rewrite ?Nat.add_0_r;
    try (split; [now apply Hquiet | exact Hclock]).
  rewrite tick_spec in *.
  destruct (ExamInterface.timeIsUp _ (ExamInterface.elapsed (ExamInterface.state m)))
    eqn:Eup.
  - rewrite Eup. split; [now apply Hquiet | lia].
  - split.
    + apply commit_settles with (e := ExamInterface.elapsed (ExamInterface.state m));
        [congruence | rewrite Eup; congruence | now right].
    + destruct (ExamInterface.timeIsUp _ (_ + 1)) eqn:Eup'; [|lia].
      apply timeIsUp_spec in Eup'. lia.
Qed.

Lemma settled_run evs : forall m m' n,
  effectSettled p m -> clockAt p m n ->
  ExamInterface.run env p m evs = Some m' ->
  effectSettled p m' /\ clockAt p m' (n + ticks evs).
Proof.
  induction evs as [|ev evs IH]; intros m m' n Hs Hc; simpl ExamInterface.run.
  - intros [= <-]. simpl. now rewrite Nat.add_0_r.
  - destruct (ExamInterface.dispatch env p m ev) as [m1|] eqn:E; [|discriminate].
    intros Hrun.
    destruct (settled_dispatch _ _ _ _ Hs Hc E) as [Hs1 Hc1].
    rewrite ticks_cons, Nat.add_assoc. eauto.
Qed.

End Timer.

(** C4. With a positive time limit the auto-submit effect has scheduled
    [handleSubmitAll] exactly once as soon as the elapsed time has reached
    the limit - that is, once the session's starting time plus the ticks
    so far make up the limit - and it stays at one whatever ticks and other
    events follow; before that, and always when the limit is zero, it has
    scheduled none. *)
Theorem C4_auto_submit_exactly_once :
  forall (env : GeminiService.Env) (p : ExamInterface.Props)
         (evs : list ExamInterface.Event) (m : ExamInterface.Mounted),
    ExamInterface.run env p (ExamInterface.mount p) evs = Some m ->
    ExamInterface.autoSubmits m
    = if (0 <? ExamInterface.timeLimit p)
         && (ExamInterface.timeLimit p * 60
             <=? ExamInterface.or_zero (ExamInterface.initialTimeSpent p) + ticks evs)
      then 1 else 0.
Proof.
  intros env p evs m Hrun.
  destruct (settled_mount p) as [Hs Hc].
  destruct (settled_run env p evs _ _ _ Hs Hc Hrun) as [[_ Hcount] Hclock].
  rewrite Hcount. unfold clockAt in Hclock.
  change ((0 <? ExamInterface.timeLimit p)
          && (ExamInterface.timeLimit p * 60
              <=? ExamInterface.or_zero (ExamInterface.initialTimeSpent p) + ticks evs))
    with (ExamInterface.timeIsUp (ExamInterface.timeLimit p)
            (ExamInterface.or_zero (ExamInterface.initialTimeSpent p) + ticks evs)).
  destruct (ExamInterface.timeIsUp _ (ExamInterface.elapsed _)) eqn:Eup.
  - apply timeIsUp_spec in Eup.
    assert (H : ExamInterface.timeIsUp (ExamInterface.timeLimit p)
                  (ExamInterface.or_zero (ExamInterface.initialTimeSpent p) + ticks evs)
                = true) by (apply timeIsUp_spec; lia).
    now rewrite H.
  - rewrite <- Hclock, Eup. reflexivity.
Qed.

Lemma C4_auto_submit_exactly_once_witness :
  exists m,
    ExamInterface.run sampleEnv sampleProps (ExamInterface.mount sampleProps)
      sampleEvents = Some m
    /\ ExamInterface.autoSubmits m = 1.
Proof.
  eexists. split; [vm_compute; reflexivity|].
  apply (C4_auto_submit_exactly_once sampleEnv sampleProps sampleEvents).
  vm_compute. reflexivity.
Defined.

(* ================================================================== *)
(** * The ledger of a running session *)
(* ================================================================== *)

Lemma keyed_questionIds (l : ledger) :
  keyed l -> map questionId (JsMap.values l) = JsMap.keys l.
Proof.
  unfold keyed, JsMap.values, JsMap.keys. intros H.
  rewrite map_map. apply map_ext_in. intros kv Hin.
  rewrite Forall_forall in H. now apply H.
Qed.

Lemma wellFormed_mount (p : ExamInterface.Props) :
  wellFormedLedger (ExamInterface.questions p)
    (ExamInterface.initialLedger (ExamInterface.initialAnswers p)) ->
  wellFormedMounted p (ExamInterface.mount p).
Proof.
  intros H. apply wellFormed_commit. split; simpl; [assumption | constructor].
Qed.

(** Over an empty question set the exam screen throws on every event: no
    session without questions gets as far as its results. *)
Lemma no_questions_no_exam env (p : ExamInterface.Props) m ev :
  ExamInterface.questions p = [] -> ExamInterface.dispatch env p m ev = None.
Proof.
  intros Hq. unfold ExamInterface.dispatch, ExamInterface.currentQuestion.
  rewrite Hq. now destruct (ExamInterface.currentIdx (ExamInterface.state m)).
Qed.

(** C9. In every state a session reaches from an empty ledger, by any
    sequence of option selections, code edits, code resets, runs and
    test-case generations (settling in any order) mixed with navigation
    and timer ticks: no two answers of the ledger belong to one question
    identity; every entry is the one answer found under its key, that key
    is the identity its answer names and the identity of a question of the
    session; and the ledger holds at most as many answers as there are
    questions. *)
Theorem C9_one_answer_per_question :
  forall (env : GeminiService.Env) (p : ExamInterface.Props)
         (evs : list ExamInterface.Event) (m : ExamInterface.Mounted),
    ExamInterface.initialLedger (ExamInterface.initialAnswers p) = JsMap.empty ->
    ExamInterface.run env p (ExamInterface.mount p) evs = Some m ->
    let l := ExamInterface.answers (ExamInterface.state m) in
    NoDup (map questionId (JsMap.values l))
    /\ (forall k a, In (k, a) l ->
          JsMap.get l k = Some a
          /\ questionId a = k
          /\ exists q, In q (ExamInterface.questions p) /\ q_id q = k)
    /\ JsMap.size l <= List.length (ExamInterface.questions p).
Proof.
  intros env p evs m Hempty Hrun l.
  assert (Hm : wellFormedMounted p m).
  { eapply wellFormed_run; [|exact Hrun].
    apply wellFormed_mount. rewrite Hempty. apply wellFormed_empty. }
  destruct Hm as [Hl _]. fold l in Hl.
  pose proof Hl as [Hnd Hkey Hknown _].
  split; [|split].
  - now rewrite keyed_questionIds.
  - intros k a Hin. split; [|split].
    + now apply in_get_nodup.
    + unfold keyed in Hkey. rewrite Forall_forall in Hkey. now apply (Hkey (k, a)).
    + rewrite Forall_forall in Hknown.
      assert (Hk : In k (JsMap.keys l)).
      { change k with (fst (k, a)). now apply in_map. }
      apply Hknown, in_map_iff in Hk. destruct Hk as [q [Hq Hin']]. eauto.
  - now apply wellFormed_size.
Qed.

Lemma C9_one_answer_per_question_witness :
  exists m,
    ExamInterface.run sampleEnv sampleProps (ExamInterface.mount sampleProps)
      sampleEvents = Some m
    /\ JsMap.keys (ExamInterface.answers (ExamInterface.state m)) = ["q1"; "q2"]
    /\ NoDup (map questionId
                (JsMap.values (ExamInterface.answers (ExamInterface.state m))))
    /\ JsMap.size (ExamInterface.answers (ExamInterface.state m)) <= 3.
Proof.
  eexists. split; [vm_compute; reflexivity|].
  split; [vm_compute; reflexivity|].
  refine (let H := C9_one_answer_per_question sampleEnv sampleProps sampleEvents
                     _ eq_refl _ in conj (proj1 H) (proj2 (proj2 H))).
  vm_compute. reflexivity.
Defined.

(* ================================================================== *)
(** * [isAnswered] *)
(* ================================================================== *)

Lemma placeholder_length (q : Question) :
  String.length (ExamInterface.placeholder q) = 22
  \/ String.length (ExamInterface.placeholder q) = 23.
Proof.
  unfold ExamInterface.placeholder.
  destruct (q_language q) as [[|]|]; simpl; auto.
Qed.

(** C5, as the code has it. [isAnswered] is true exactly when the ledger
    holds an answer for the question that has a selected option or code
    text longer than 5 characters; so it is false for a question without
    an answer and for an answer whose only content is code of at most 5
    characters.  The editor's placeholder texts are 22 and 23 characters
    long: for a freshly created answer that holds nothing but the
    placeholder, [isAnswered] is true. *)
Theorem C5_isAnswered_threshold :
  forall (answers : ledger) (qId : string) (q : Question),
    (ExamInterface.isAnswered answers qId = true <->
       exists a, JsMap.get answers qId = Some a
                 /\ (selectedOptionId a <> None
                     \/ exists c, code a = Some c /\ 5 < String.length c))
    /\ JsMap.get (ExamInterface.handleCodeChange q JsMap.empty
                    (ExamInterface.placeholder q)) (q_id q)
       = Some (with_code (blankAnswer (q_id q)) (ExamInterface.placeholder q))
    /\ ExamInterface.isAnswered
         (ExamInterface.handleCodeChange q JsMap.empty (ExamInterface.placeholder q))
         (q_id q) = true.
Proof.
  intros answers qId q. split; [|split].
  - unfold ExamInterface.isAnswered.
    destruct (JsMap.get answers qId) as [a|].
    + destruct (selectedOptionId a) as [o|] eqn:Eo.
      * split; [|reflexivity]. intros _. exists a. rewrite Eo.
        split; [reflexivity | left; discriminate].
      * destruct (code a) as [c|] eqn:Ec.
        -- rewrite Nat.ltb_lt. split.
           ++ intros Hlen. exists a. split; [reflexivity|]. right. eauto.
           ++ intros [a' [[= <-] [Hsel|[c' [Hc Hlen]]]]].
              ** now elim Hsel.
              ** rewrite Ec in Hc. now injection Hc as ->.
        -- split; [discriminate|].
           intros [a' [[= <-] [Hsel|[c' [Hc _]]]]].
           ++ now elim Hsel.
           ++ rewrite Ec in Hc. discriminate.
    + split; [discriminate|]. intros [a [Ha _]]. discriminate.
  - unfold ExamInterface.handleCodeChange. simpl.
    now rewrite String.eqb_refl.
  - unfold ExamInterface.isAnswered, ExamInterface.handleCodeChange. simpl.
    rewrite String.eqb_refl. simpl. apply Nat.ltb_lt.
    destruct (placeholder_length q) as [-> | ->]; lia.
Qed.

(** The claim as stated fails on a question without starter code whose
    code was reset: the new answer holds only the placeholder, no option,
    and it counts as answered. *)
Lemma C5_placeholder_counts_as_answered :
  let q := codeQuestion "q2" in
  let answers := ExamInterface.handleResetCode q JsMap.empty true in
  JsMap.get answers "q2"
    = Some {| questionId := "q2"; selectedOptionId := None;
              code := Some (ExamInterface.placeholder q); isCorrect := None;
              feedback := None; output := None; testInput := None |}
  /\ ExamInterface.isAnswered answers "q2" <> false.
Proof. split; [reflexivity | discriminate]. Qed.

(* ================================================================== *)
(** * Judging a submission *)
(* ================================================================== *)

(** The judging request failed: it threw, it came back without text, or
    its text could not be parsed. *)
Lemma gradeCodeSubmission_fallback env q userCode reply ai message :
  GeminiService.getAiClient env = Returned ai ->
  GeminiService.gradeCodeSubmission_try env reply = Thrown message ->
  GeminiService.gradeCodeSubmission env q userCode reply
  = Returned GeminiService.gradingFallback.
Proof.
  intros Hai Htry. unfold GeminiService.gradeCodeSubmission.
  now rewrite Hai, Htry.
Qed.

Lemma gradeCodeSubmission_try_fails env reply :
  (exists message, reply = GeminiService.ApiThrows message)
  \/ (exists text, reply = GeminiService.ApiResponds text
                   /\ GeminiService.no_text text = true) ->
  exists message, GeminiService.gradeCodeSubmission_try env reply = Thrown message.
Proof.
  intros [[message ->]|[text [-> Hno]]]; simpl.
  - eauto.
  - destruct text as [t|]; [|eauto]. rewrite Hno. eauto.
Qed.

Lemma commit_pending p m :
  ExamInterface.pending (ExamInterface.commit p m) = ExamInterface.pending m.
Proof.
  unfold ExamInterface.commit.
  now destruct (ExamInterface.depsChanged _ _).
Qed.

Lemma index_run env p evs : forall m m',
  ExamInterface.currentIdx (ExamInterface.state m)
    < List.length (ExamInterface.questions p) ->
  ExamInterface.run env p m evs = Some m' ->
  ExamInterface.currentIdx (ExamInterface.state m')
    < List.length (ExamInterface.questions p).
Proof.
  induction evs as [|ev evs IH]; simpl; intros m m' Hi.
  - now intros [= <-].
  - unfold ExamInterface.dispatch.
    destruct (ExamInterface.currentQuestion p (ExamInterface.state m)) as [q|];
      [|discriminate].
    apply IH. now apply index_handle.
Qed.


Lemma current_of_index p s :
  ExamInterface.currentIdx s < List.length (ExamInterface.questions p) ->
  exists q, ExamInterface.currentQuestion p s = Some q.
Proof.
  unfold ExamInterface.currentQuestion. intros H.
  destruct (nth_error (ExamInterface.questions p) (ExamInterface.currentIdx s))
    as [q|] eqn:E; [eauto|].
  apply nth_error_None in E. lia.
Qed.


(** The verdict of a request in flight arrives: it is written over the
    ledger the request kept, and the session goes on. *)
Lemma verdict_settles env p m i q captured userCode reply result :
  ExamInterface.currentIdx (ExamInterface.state m)
    < List.length (ExamInterface.questions p) ->
  nth_error (ExamInterface.pending m) i
    = Some (ExamInterface.AwaitingJudge q captured userCode) ->
  GeminiService.gradeCodeSubmission env q userCode reply = Returned result ->
  exists m',
    ExamInterface.dispatch env p m (ExamInterface.JudgeSettled i reply) = Some m'
    /\ ExamInterface.answers (ExamInterface.state m')
       = ExamInterface.storeJudgement q captured userCode result
    /\ ExamInterface.isGrading (ExamInterface.state m') = false
    /\ ExamInterface.currentIdx (ExamInterface.state m')
       = ExamInterface.currentIdx (ExamInterface.state m)
    /\ ExamInterface.elapsed (ExamInterface.state m')
       = ExamInterface.elapsed (ExamInterface.state m)
    /\ ExamInterface.pending m'
       = ExamInterface.remove_nth i (ExamInterface.pending m)
    /\ forall evs, exists m'', ExamInterface.run env p m' evs = Some m''.
Proof.
  intros Hi Hn Hg.
  destruct (current_of_index p _ Hi) as [q0 Hq0].
  unfold ExamInterface.dispatch. rewrite Hq0.
  eexists. split; [reflexivity|].
  assert (Hh : ExamInterface.handle env p q0 m (ExamInterface.JudgeSettled i reply)
               = ExamInterface.withPending
                   (ExamInterface.withState m
                      (ExamInterface.setIsGrading
                         (ExamInterface.setAnswers (ExamInterface.state m)
                            (ExamInterface.storeJudgement q captured userCode result))
                         false))
                   (ExamInterface.remove_nth i (ExamInterface.pending m))).
  { simpl. now rewrite Hn, Hg. }
  rewrite commit_state, commit_pending, Hh. simpl.
  repeat (split; [reflexivity|]).
  intros evs. apply run_total. rewrite commit_state. exact Hi.
Qed.




(** C7, as the code has it.  Once the client has been obtained, a
    judging request that throws or comes back without text makes
    [gradeCodeSubmission] return the fixed fallback (not passed, feedback
    "System error during grading.") rather than throw.  The session is
    not interrupted: for any request in flight, the failed verdict is
    handled, the grading flag is cleared, position and clock are
    untouched, the answer of the question carries the judgement [false]
    and the fallback feedback, and every later event is handled. *)
Theorem C7_failed_judging_gives_fallback :
  forall (env : GeminiService.Env) (p : ExamInterface.Props)
         (m : ExamInterface.Mounted) (i : nat) (q : Question) (captured : ledger)
         (userCode : string) (reply : GeminiService.api_reply) (ai : string),
    GeminiService.getAiClient env = Returned ai ->
    ((exists message, reply = GeminiService.ApiThrows message)
     \/ (exists text, reply = GeminiService.ApiResponds text
                      /\ GeminiService.no_text text = true)) ->
    (forall q' code,
        GeminiService.gradeCodeSubmission env q' code reply
        = Returned GeminiService.gradingFallback)
    /\ passed GeminiService.gradingFallback = false
    /\ gr_feedback GeminiService.gradingFallback = "System error during grading."
    /\ (ExamInterface.currentIdx (ExamInterface.state m)
          < List.length (ExamInterface.questions p) ->
        nth_error (ExamInterface.pending m) i
          = Some (ExamInterface.AwaitingJudge q captured userCode) ->
        exists m',
          ExamInterface.dispatch env p m (ExamInterface.JudgeSettled i reply)
          = Some m'
          /\ ExamInterface.isGrading (ExamInterface.state m') = false
          /\ ExamInterface.currentIdx (ExamInterface.state m')
             = ExamInterface.currentIdx (ExamInterface.state m)
          /\ ExamInterface.elapsed (ExamInterface.state m')
             = ExamInterface.elapsed (ExamInterface.state m)
          /\ (exists a,
                 JsMap.get (ExamInterface.answers (ExamInterface.state m')) (q_id q)
                 = Some a
                 /\ code a = Some userCode
                 /\ isCorrect a = Some false
                 /\ feedback a = Some "System error during grading.")
          /\ forall evs, exists m'', ExamInterface.run env p m' evs = Some m'').
Proof.
  intros env p m i q captured userCode reply ai Hai Hfail.
  destruct (gradeCodeSubmission_try_fails env reply Hfail) as [message Htry].
  assert (Hgrade : forall q' code,
             GeminiService.gradeCodeSubmission env q' code reply
             = Returned GeminiService.gradingFallback).
  { intros q' code. eapply gradeCodeSubmission_fallback; eassumption. }
  split; [exact Hgrade|]. split; [reflexivity|]. split; [reflexivity|].
  intros Hi Hn.
  destruct (verdict_settles env p m i q captured userCode reply
              GeminiService.gradingFallback Hi Hn (Hgrade q userCode))
    as (m' & Hd & Ha & Hg & Hidx & He & _ & Hgo).
  exists m'. split; [exact Hd|]. split; [exact Hg|]. split; [exact Hidx|].
  split; [exact He|]. split; [|exact Hgo].
  rewrite Ha. unfold ExamInterface.storeJudgement.
  eexists. split; [apply get_set_same|]. repeat split.
Qed.

Lemma C7_failed_judging_gives_fallback_witness :
  GeminiService.gradeCodeSubmission sampleEnv (codeQuestion "q2") "print(1)"
    (GeminiService.ApiThrows "network down")
  = Returned GeminiService.gradingFallback
  /\ exists m',
       ExamInterface.dispatch sampleEnv sampleProps
         (ExamInterface.withPending typedMounted
            [ExamInterface.AwaitingJudge (codeQuestion "q2")
               (ExamInterface.answers typedState) "print(1)"])
         (ExamInterface.JudgeSettled 0 (GeminiService.ApiThrows "network down"))
       = Some m'
       /\ ExamInterface.isGrading (ExamInterface.state m') = false.
Proof.
  destruct (C7_failed_judging_gives_fallback sampleEnv sampleProps
              (ExamInterface.withPending typedMounted
                 [ExamInterface.AwaitingJudge (codeQuestion "q2")
                    (ExamInterface.answers typedState) "print(1)"])
              0 (codeQuestion "q2") (ExamInterface.answers typedState) "print(1)"
              (GeminiService.ApiThrows "network down") "key" eq_refl
              (or_introl (ex_intro _ "network down" eq_refl)))
    as [Hgrade [_ [_ Hsettle]]].
  split; [apply Hgrade|].
  destruct (Hsettle ltac:(simpl; lia) eq_refl) as (m' & Hd & Hg & _).
  exists m'. split; [exact Hd | exact Hg].
Defined.

(** The claim as stated fails when the application was built without an
    API key: a saved exam can still be resumed, the judging call then
    throws to its caller before any request is made, no fallback is
    returned or stored, and the answer keeps no feedback. *)
Lemma C7_without_a_key_nothing_is_returned :
  (exists w,
      App.run keylessEnv
        (App.load (App.savedExam
                     (App.handleSaveExam examWorld
                        (JsMap.values (ExamInterface.answers typedState)) 30 1
                        "2025-11-24T17:38:48.000Z")) [])
        [App.Resume] = Some w
      /\ App.appState w = EXAM
      /\ ExamInterface.initialState (App.examProps w sampleConfig) = typedState)
  /\ GeminiService.gradeCodeSubmission keylessEnv (codeQuestion "q2") "print(1)"
       (GeminiService.ApiThrows "network down")
     = Thrown "API_KEY is missing from environment variables."
  /\ exists m',
       ExamInterface.run keylessEnv sampleProps typedMounted
         [ExamInterface.RunCode (Some "print(1)");
          ExamInterface.JudgeSettled 0 (GeminiService.ApiThrows "network down")]
       = Some m'
       /\ JsMap.get (ExamInterface.answers (ExamInterface.state m')) "q2"
          = Some {| questionId := "q2"; selectedOptionId := None;
                    code := Some "print(1)"; isCorrect := None; feedback := None;
                    output := None; testInput := None |}.
Proof.
  split; [|split].
  - eexists. split; [vm_compute; reflexivity|]. split; reflexivity.
  - reflexivity.
  - eexists. split; [vm_compute; reflexivity|]. reflexivity.
Qed.

(* ================================================================== *)
(** * Writing and reading the snapshot *)
(* ================================================================== *)

Section JsonRoundTrip.
Import Json.

Lemma traverse_map {A : Type} (write : A -> json) (read : json -> option A) :
  (forall a, read (write a) = Some a) ->
  forall l, traverse read (map write l) = Some l.
Proof.
  intros Hrw. induction l as [|a l IH]; simpl; [reflexivity|].
  now rewrite Hrw, IH.
Qed.

Lemma to_strings_of_strings (l : list string) :
  to_list to_string (of_strings l) = Some l.
Proof. apply (traverse_map JString to_string). reflexivity. Qed.

Lemma to_Difficulty_of_Difficulty d : to_Difficulty (of_Difficulty d) = Some d.
Proof. now destruct d. Qed.

Lemma to_ExamType_of_ExamType t : to_ExamType (of_ExamType t) = Some t.
Proof. now destruct t. Qed.

Lemma to_QuestionType_of_QuestionType t :
  to_QuestionType (of_QuestionType t) = Some t.
Proof. now destruct t. Qed.

Lemma to_CodeLanguage_of_CodeLanguage l :
  to_CodeLanguage (of_CodeLanguage l) = Some l.
Proof. now destruct l. Qed.

Lemma to_MCQOption_of_MCQOption o : to_MCQOption (of_MCQOption o) = Some o.
Proof. now destruct o. Qed.

Lemma to_MCQOptions_of_MCQOptions (l : list MCQOption) :
  to_list to_MCQOption (JArray (map of_MCQOption l)) = Some l.
Proof. apply (traverse_map of_MCQOption to_MCQOption), to_MCQOption_of_MCQOption. Qed.

Lemma to_UserAnswer_of_UserAnswer a : to_UserAnswer (of_UserAnswer a) = Some a.
Proof.
  destruct a as [qi [se|] [co|] [ic|] [fe|] [ou|] [te|]]; reflexivity.
Qed.

Lemma to_ExamConfig_of_ExamConfig c : to_ExamConfig (of_ExamConfig c) = Some c.
Proof.
  destruct c as [to di qc et tl].
  unfold to_ExamConfig, of_ExamConfig, required. simpl.
  now rewrite to_Difficulty_of_Difficulty, to_ExamType_of_ExamType.
Qed.

Lemma to_Question_of_Question q : to_Question (of_Question q) = Some q.
Proof.
  destruct q as [i ty ti de di [op|] [co|] [la|] [st|] [re|] [te|] [hi|]];
    unfold to_Question, of_Question, required, optionally, optional; simpl;
    rewrite to_QuestionType_of_QuestionType; simpl;
    rewrite to_Difficulty_of_Difficulty; simpl;
    rewrite ?(traverse_map of_MCQOption to_MCQOption to_MCQOption_of_MCQOption);
    simpl;
    rewrite ?to_CodeLanguage_of_CodeLanguage; simpl;
    try change (traverse to_string (map JString te)) with (to_list to_string (of_strings te));
    try change (traverse to_string (map JString hi)) with (to_list to_string (of_strings hi));
    rewrite ?to_strings_of_strings; simpl;
    rewrite ?to_strings_of_strings; reflexivity.
Qed.

Lemma to_Questions_of_Questions (l : list Question) :
  to_list to_Question (JArray (map of_Question l)) = Some l.
Proof. apply (traverse_map of_Question to_Question), to_Question_of_Question. Qed.

Lemma to_UserAnswers_of_UserAnswers (l : list UserAnswer) :
  to_list to_UserAnswer (JArray (map of_UserAnswer l)) = Some l.
Proof. apply (traverse_map of_UserAnswer to_UserAnswer), to_UserAnswer_of_UserAnswer. Qed.

Lemma to_Parsed_of_SavedState (s : App.SavedState) :
  App.to_Parsed (App.of_SavedState s)
  = Some {| App.p_config := App.sv_config s;
            App.p_questions := App.sv_questions s;
            App.p_answers := App.sv_answers s;
            App.p_timeSpent := App.sv_timeSpent s;
            App.p_currentIdx := App.sv_currentIdx s |}.
Proof.
  destruct s as [c q a t i at_].
  unfold App.to_Parsed, App.of_SavedState, required. simpl.
  rewrite to_ExamConfig_of_ExamConfig. simpl.
  rewrite (traverse_map of_Question to_Question to_Question_of_Question). simpl.
  rewrite (traverse_map of_UserAnswer to_UserAnswer to_UserAnswer_of_UserAnswer).
  reflexivity.
Qed.

End JsonRoundTrip.

(* ================================================================== *)
(** * Save and resume *)
(* ================================================================== *)

Lemma entries_of_values (l : ledger) :
  keyed l -> map (fun a => (questionId a, a)) (JsMap.values l) = l.
Proof.
  unfold keyed, JsMap.values. intros H. rewrite map_map.
  rewrite <- (map_id l) at 2. apply map_ext_in. intros [k a] Hin.
  rewrite Forall_forall in H. specialize (H _ Hin). simpl in *. now subst.
Qed.

Lemma fold_set_fresh {V : Type} (entries acc : JsMap.t V) :
  NoDup (JsMap.keys acc ++ JsMap.keys entries) ->
  fold_left (fun m kv => JsMap.set m (fst kv) (snd kv)) entries acc
  = acc ++ entries.
Proof.
  revert acc. induction entries as [|[k v] entries IH]; intros acc Hnd; simpl.
  - now rewrite app_nil_r.
  - simpl in Hnd. rewrite set_fresh.
    + rewrite IH.
      * now rewrite <- app_assoc.
      * unfold JsMap.keys in *. rewrite map_app. simpl. now rewrite <- app_assoc.
    + apply NoDup_remove_2 in Hnd. rewrite in_app_iff in Hnd. tauto.
Qed.

Lemma of_entries_nodup {V : Type} (l : JsMap.t V) :
  NoDup (JsMap.keys l) -> JsMap.of_entries l = l.
Proof.
  intros Hnd. unfold JsMap.of_entries. now rewrite fold_set_fresh.
Qed.

(** The ledger rebuilt from the values of a ledger is that ledger. *)
Lemma initialLedger_values (l : ledger) :
  NoDup (JsMap.keys l) -> keyed l ->
  ExamInterface.initialLedger (Some (JsMap.values l)) = l.
Proof.
  intros Hnd Hkey. unfold ExamInterface.initialLedger.
  rewrite entries_of_values by assumption. now apply of_entries_nodup.
Qed.

(** A session resumed from the values of a well-formed ledger starts
    well-formed again. *)
Lemma wellFormed_resumed (p : ExamInterface.Props) (l : ledger) :
  wellFormedLedger (ExamInterface.questions p) l ->
  ExamInterface.initialAnswers p = Some (JsMap.values l) ->
  wellFormedMounted p (ExamInterface.mount p).
Proof.
  intros Hl Hinit. apply wellFormed_mount. rewrite Hinit.
  rewrite initialLedger_values; [assumption | apply Hl | apply Hl].
Qed.

Lemma or_zero_Some (n : nat) : ExamInterface.or_zero (Some n) = n.
Proof. simpl. destruct (Nat.eqb_spec n 0); congruence. Qed.

Lemma handleResumeExam_after_save w c answers t i now :
  App.config w = Some c ->
  App.handleResumeExam (App.handleSaveExam w answers t i now)
  = {| App.appState := EXAM; App.questions := App.questions w;
       App.config := Some c; App.userAnswers := [];
       App.timeSpent := App.timeSpent w;
       App.initialAnswers := answers; App.initialTimeSpent := t;
       App.initialIdx := i;
       App.savedExam := App.savedExam (App.handleSaveExam w answers t i now);
       App.alerts := App.alerts w; App.foreign := None |}.
Proof.
  intros Hc. unfold App.handleSaveExam. rewrite Hc.
  unfold App.handleResumeExam. simpl.
  rewrite to_Parsed_of_SavedState. reflexivity.
Qed.

Lemma handleResumeExam_after_save_and_reload w c answers t i now :
  App.config w = Some c ->
  App.handleResumeExam
    (App.load (App.savedExam (App.handleSaveExam w answers t i now))
              (App.alerts (App.handleSaveExam w answers t i now)))
  = {| App.appState := EXAM; App.questions := App.questions w;
       App.config := Some c; App.userAnswers := [];
       App.timeSpent := 0;
       App.initialAnswers := answers; App.initialTimeSpent := t;
       App.initialIdx := i;
       App.savedExam := App.savedExam (App.handleSaveExam w answers t i now);
       App.alerts := App.alerts w; App.foreign := None |}.
Proof.
  intros Hc. unfold App.handleSaveExam. rewrite Hc.
  unfold App.handleResumeExam. simpl.
  rewrite to_Parsed_of_SavedState. reflexivity.
Qed.

Lemma App_run_cons env w ev evs :
  App.run env w (ev :: evs)
  = match App.dispatch env w ev with
    | Some w' => App.run env w' evs
    | None => None
    end.
Proof. reflexivity. Qed.

(** C2. From an exam in progress - any question set, a ledger as sessions
    build it (distinct keys, each answer under its own question identity),
    any elapsed time and any current index - saving and then resuming,
    at once or after the page was reloaded in between, puts the
    application back into the exam with the same configuration and
    question set, and the exam component starts from that very ledger,
    elapsed time and current index. *)
Theorem C2_save_then_resume_restores_session :
  forall (env : GeminiService.Env) (w : App.World) (c : ExamConfig)
         (s : ExamInterface.State) (now : string) (reloaded : bool),
    App.appState w = EXAM ->
    App.config w = Some c ->
    NoDup (JsMap.keys (ExamInterface.answers s)) ->
    keyed (ExamInterface.answers s) ->
    exists w',
      App.run env w
        (App.Save (fst (fst (ExamInterface.handleSave s)))
                  (snd (fst (ExamInterface.handleSave s)))
                  (snd (ExamInterface.handleSave s)) now
         :: (if reloaded then [App.Reload] else []) ++ [App.Resume])
      = Some w'
      /\ App.appState w' = EXAM
      /\ App.config w' = Some c
      /\ App.questions w' = App.questions w
      /\ ExamInterface.questions (App.examProps w' c) = App.questions w
      /\ ExamInterface.answers (ExamInterface.initialState (App.examProps w' c))
         = ExamInterface.answers s
      /\ ExamInterface.elapsed (ExamInterface.initialState (App.examProps w' c))
         = ExamInterface.elapsed s
      /\ ExamInterface.currentIdx (ExamInterface.initialState (App.examProps w' c))
         = ExamInterface.currentIdx s.
Proof.
  intros env w c s now reloaded Hstate Hc Hnd Hkey.
  unfold ExamInterface.handleSave. simpl fst. simpl snd.
  set (saved := App.handleSaveExam w (JsMap.values (ExamInterface.answers s))
                  (ExamInterface.elapsed s) (ExamInterface.currentIdx s) now).
  assert (Hsave : App.dispatch env w
                    (App.Save (JsMap.values (ExamInterface.answers s))
                       (ExamInterface.elapsed s) (ExamInterface.currentIdx s) now)
                  = Some saved).
  { unfold App.dispatch. now rewrite Hstate, Hc. }
  assert (Hsetup : App.appState saved = SETUP).
  { unfold saved, App.handleSaveExam. now rewrite Hc. }
  rewrite App_run_cons, Hsave.
  destruct reloaded; simpl app.
  - rewrite App_run_cons.
    replace (App.dispatch env saved App.Reload)
      with (Some (App.load (App.savedExam saved) (App.alerts saved)))
      by (unfold App.dispatch; now destruct (App.appState saved)).
    rewrite App_run_cons.
    replace (App.dispatch env _ App.Resume)
      with (Some (App.handleResumeExam
                    (App.load (App.savedExam saved) (App.alerts saved))))
      by reflexivity.
    unfold saved.
    rewrite (handleResumeExam_after_save_and_reload w c _ _ _ _ Hc).
    eexists. split; [reflexivity|].
    cbn -[ExamInterface.initialLedger ExamInterface.or_zero].
    rewrite (initialLedger_values _ Hnd Hkey), !or_zero_Some.
    repeat split; reflexivity.
  - rewrite App_run_cons.
    replace (App.dispatch env saved App.Resume)
      with (Some (App.handleResumeExam saved))
      by (unfold App.dispatch; now rewrite Hsetup).
    unfold saved.
    rewrite (handleResumeExam_after_save w c _ _ _ _ Hc).
    eexists. split; [reflexivity|].
    cbn -[ExamInterface.initialLedger ExamInterface.or_zero].
    rewrite (initialLedger_values _ Hnd Hkey), !or_zero_Some.
    repeat split; reflexivity.
Qed.

Lemma C2_save_then_resume_restores_session_witness :
  exists w',
    App.run sampleEnv examWorld
      [App.Save (JsMap.values (ExamInterface.answers typedState)) 30 1
                "2025-11-24T17:38:48.000Z";
       App.Reload; App.Resume] = Some w'
    /\ ExamInterface.answers (ExamInterface.initialState (App.examProps w' sampleConfig))
       = ExamInterface.answers typedState
    /\ ExamInterface.elapsed (ExamInterface.initialState (App.examProps w' sampleConfig))
       = 30
    /\ ExamInterface.currentIdx (ExamInterface.initialState (App.examProps w' sampleConfig))
       = 1.
Proof.
  assert (Hnd : NoDup (JsMap.keys (ExamInterface.answers typedState))).
  { repeat constructor; simpl; intuition discriminate. }
  assert (Hkey : keyed (ExamInterface.answers typedState)).
  { repeat constructor. }
  destruct (C2_save_then_resume_restores_session sampleEnv examWorld sampleConfig
              typedState "2025-11-24T17:38:48.000Z" true eq_refl eq_refl Hnd Hkey)
    as [w' [Hrun [_ [_ [_ [_ [Ha [He Hi]]]]]]]].
  exists w'. repeat split; assumption.
Defined.

(* ================================================================== *)
(** * The controller and the snapshot slot *)
(* ================================================================== *)

Section Controller.
Variable env : GeminiService.Env.

Lemma handleResumeExam_slot w :
  App.savedExam (App.handleResumeExam w) = App.savedExam w.
Proof.
  unfold App.handleResumeExam.
  destruct (App.savedExam w) as [saved|] eqn:E; [|now rewrite E].
  destruct (App.nothingSaved (Some saved)); [now rewrite E|].
  destruct (Json.JSON_parse saved) as [doc|message]; [|now rewrite <- E].
  destruct doc; try (now rewrite <- E);
    destruct (App.to_Parsed _) as [parsed|]; reflexivity.
Qed.

Lemma handleResumeExam_appState w :
  App.appState (App.handleResumeExam w) = EXAM
  \/ (App.appState (App.handleResumeExam w) = App.appState w
      /\ App.questions (App.handleResumeExam w) = App.questions w
      /\ App.userAnswers (App.handleResumeExam w) = App.userAnswers w).
Proof.
  unfold App.handleResumeExam.
  destruct (App.savedExam w) as [saved|]; [|now right].
  destruct (App.nothingSaved (Some saved)); [now right|].
  destruct (Json.JSON_parse saved) as [doc|message]; [|now right].
  destruct doc; try (now right);
    destruct (App.to_Parsed _) as [parsed|]; now left.
Qed.

(** What one event does to the slot. *)
Lemma dispatch_slot w ev w' :
  App.dispatch env w ev = Some w' ->
  snapshotExists w'
  = match ev with
    | App.Save _ _ _ _ => true
    | App.Complete _ _ => false
    | _ => snapshotExists w
    end.
Proof.
  unfold App.dispatch, snapshotExists.
  destruct ev; destruct (App.appState w); try discriminate;
    try (intros [= <-]; reflexivity).
  - destruct (GeminiService.generateExamQuestions env reply);
      intros [= <-]; reflexivity.
  - intros [= <-]. now rewrite handleResumeExam_slot.
  - destruct (App.config w); [|discriminate]. intros [= <-]. reflexivity.
  - unfold App.handleSaveExam.
    destruct (App.config w); [|discriminate]. intros [= <-]. reflexivity.
  - destruct (App.config w); [|discriminate]. intros [= <-]. reflexivity.
Qed.

Lemma run_slot evs : forall w w',
  App.run env w evs = Some w' ->
  snapshotExists w'
  = App.savedAndNotSince App.clearsOnCompletion evs (snapshotExists w).
Proof.
  induction evs as [|ev evs IH]; intros w w'; simpl.
  - now intros [= <-].
  - destruct (App.dispatch env w ev) as [w1|] eqn:E; [|discriminate].
    intros Hrun. rewrite (IH _ _ Hrun), (dispatch_slot _ _ _ E).
    now destruct ev.
Qed.

Lemma dispatch_results w ev w' :
  resultsWithoutSnapshot w -> App.dispatch env w ev = Some w' ->
  resultsWithoutSnapshot w'.
Proof.
  unfold resultsWithoutSnapshot, App.dispatch. intros Hw.
  destruct ev; destruct (App.appState w) eqn:Es; try discriminate;
    try (intros [= <-]; simpl; auto; discriminate).
  - destruct (GeminiService.generateExamQuestions env reply);
      intros [= <-]; simpl; discriminate.
  - intros [= <-]. destruct (handleResumeExam_appState w) as [->|[-> _]];
      rewrite ?Es; discriminate.
  - destruct (App.config w); [|discriminate]. intros [= <-]. reflexivity.
  - unfold App.handleSaveExam.
    destruct (App.config w); [|discriminate]. intros [= <-]. discriminate.
  - destruct (App.config w); [|discriminate]. intros [= <-]. discriminate.
Qed.

Lemma dispatch_idle w ev w' :
  idle w -> App.dispatch env w ev = Some w' -> idle w'.
Proof.
  unfold idle, App.dispatch.
  destruct ev; destruct (App.appState w) eqn:Es; intros Hw; try discriminate;
    try solve [intros [= <-]; simpl; auto].
  - destruct (GeminiService.generateExamQuestions env reply);
      intros [= <-]; simpl; auto.
  - intros [= <-]. destruct (handleResumeExam_appState w) as [->|[-> [-> ->]]];
      rewrite ?Es; auto.
  - destruct (App.config w); [|discriminate]. intros [= <-]. simpl. auto.
  - unfold App.handleSaveExam.
    destruct (App.config w); [|discriminate]. intros [= <-]. simpl. auto.
  - destruct (App.config w); [|discriminate]. intros [= <-]. simpl. auto.
Qed.


Lemma run_invariant (P : App.World -> Prop) :
  (forall w ev w', P w -> App.dispatch env w ev = Some w' -> P w') ->
  forall evs w w', P w -> App.run env w evs = Some w' -> P w'.
Proof.
  intros Hstep. induction evs as [|ev evs IH]; intros w w' Hw; simpl.
  - now intros [= <-].
  - destruct (App.dispatch env w ev) as [w1|] eqn:E; [|discriminate]. eauto.
Qed.

End Controller.

(** C3, as the code has it. In every state the application reaches from
    a start over empty storage - through starts, finished and failed
    generations, saves, resumes, completions, restarts, visits of the
    progress screen and page reloads - a snapshot is in the slot if and
    only if the user has saved and no exam has been completed since.
    Every save puts a snapshot there and every completion leaves none; a
    resume leaves the slot as it is, so the snapshot it restored is still
    there; a restart leaves the slot as it is too, and since the results
    screen is only shown over an empty slot, there is no snapshot after a
    restart. *)
Theorem C3_snapshot_until_completion :
  forall (env : GeminiService.Env) (evs : list App.Event) (w : App.World),
    App.run env (App.load None []) evs = Some w ->
    (snapshotExists w = true
     <-> App.savedAndNotSince App.clearsOnCompletion evs false = true)
    /\ (forall answers t i now w',
          App.dispatch env w (App.Save answers t i now) = Some w' ->
          snapshotExists w' = true)
    /\ (forall answers duration w',
          App.dispatch env w (App.Complete answers duration) = Some w' ->
          snapshotExists w' = false)
    /\ (forall w',
          App.dispatch env w App.Resume = Some w' ->
          App.savedExam w' = App.savedExam w)
    /\ (forall w',
          App.dispatch env w App.Restart = Some w' ->
          App.savedExam w' = App.savedExam w /\ snapshotExists w' = false).
Proof.
  intros env evs w Hrun. split; [|split; [|split; [|split]]].
  - rewrite (run_slot env evs _ _ Hrun). reflexivity.
  - intros answers t i now w' H. apply (dispatch_slot env _ _ _ H).
  - intros answers duration w' H. apply (dispatch_slot env _ _ _ H).
  - intros w'. unfold App.dispatch.
    destruct (App.appState w); try discriminate.
    intros [= <-]. apply handleResumeExam_slot.
  - intros w' H.
    assert (Hres : resultsWithoutSnapshot w).
    { apply (run_invariant env resultsWithoutSnapshot (dispatch_results env)
               evs _ _) in Hrun; [assumption | discriminate]. }
    unfold App.dispatch in H. destruct (App.appState w) eqn:Es; try discriminate.
    destruct (App.config w); [|discriminate]. injection H as <-.
    unfold snapshotExists. simpl. split; [reflexivity|].
    now rewrite (Hres Es).
Qed.

Lemma C3_snapshot_until_completion_witness :
  exists w,
    App.run sampleEnv (App.load None []) saveAndResume = Some w
    /\ snapshotExists w = true
    /\ App.savedAndNotSince App.clearsOnCompletion saveAndResume false = true.
Proof.
  eexists. split; [vm_compute; reflexivity|].
  split; [vm_compute; reflexivity|].
  refine (proj1 (proj1 (C3_snapshot_until_completion sampleEnv saveAndResume _ _)) _);
    vm_compute; reflexivity.
Defined.

(** The claim as stated fails: after a save and a resume the user "has
    since resumed", and the snapshot is still in the slot. *)
Lemma C3_snapshot_survives_resume :
  exists w,
    App.run sampleEnv (App.load None []) saveAndResume = Some w
    /\ App.appState w = EXAM
    /\ App.savedAndNotSince App.clearsAsSpecified saveAndResume false = false
    /\ snapshotExists w = true.
Proof. eexists. repeat split; vm_compute; reflexivity. Qed.

(** C8, at the failing start. From the setup screen of an application
    started over any storage, a start whose generation fails ends on the
    setup screen with the failure shown in an alert, with no questions, no
    answers and no resume data - and with the configuration of the failed
    start still in the controller's [config]. *)
Theorem C8_failed_start_keeps_the_configuration :
  forall (env : GeminiService.Env) (slot : option Json.stored)
         (evs : list App.Event) (w : App.World) (examConfig : ExamConfig)
         (reply : GeminiService.api_reply) (message : string),
    App.run env (App.load slot []) evs = Some w ->
    App.appState w = SETUP ->
    GeminiService.generateExamQuestions env reply = Thrown message ->
    exists w',
      App.run env w [App.Start examConfig; App.GenerationSettled reply] = Some w'
      /\ App.appState w' = SETUP
      /\ App.alerts w' = App.alerts w ++ [App.generationFailedAlert message]
      /\ App.questions w' = []
      /\ App.userAnswers w' = []
      /\ App.initialAnswers w' = []
      /\ App.savedExam w' = App.savedExam w
      /\ App.config w' = Some examConfig.
Proof.
  intros env slot evs w examConfig reply message Hrun Hsetup Hfail.
  assert (Hidle : idle w).
  { apply (run_invariant env idle (dispatch_idle env) evs _ _) in Hrun;
      [assumption | now split]. }
  unfold idle in Hidle. rewrite Hsetup in Hidle. destruct Hidle as [Hq Ha].
  eexists. split.
  - rewrite App_run_cons.
    replace (App.dispatch env w (App.Start examConfig))
      with (Some (App.handleStartExam_begin w examConfig))
      by (unfold App.dispatch; now rewrite Hsetup).
    rewrite App_run_cons. unfold App.dispatch. simpl App.appState.
    rewrite Hfail. reflexivity.
  - simpl. repeat split; assumption.
Qed.

Lemma C8_failed_start_keeps_the_configuration_witness :
  exists w',
    App.run sampleEnv (App.load None [])
      [App.Start sampleConfig;
       App.GenerationSettled (GeminiService.ApiThrows "quota exceeded")] = Some w'
    /\ App.appState w' = SETUP
    /\ App.config w' = Some sampleConfig.
Proof.
  destruct (C8_failed_start_keeps_the_configuration sampleEnv None []
              (App.load None []) sampleConfig
              (GeminiService.ApiThrows "quota exceeded") "quota exceeded"
              eq_refl eq_refl eq_refl)
    as [w' [Hrun [Hs [_ [_ [_ [_ [_ Hc]]]]]]]].
  exists w'. repeat split; assumption.
Defined.

(* ================================================================== *)
(** * The scorer: counting *)
(* ================================================================== *)

Section Scoring.
Variable questions : list Question.

Lemma gradeAnswer_spec acc a :
  ResultsView.gradeAnswer questions acc a
  = (acc + (if counted questions a then 1 else 0),
     snd (ResultsView.gradeAnswer questions 0 a)).
Proof.
  unfold ResultsView.gradeAnswer, counted.
  destruct (ResultsView.findQuestion questions (questionId a)) as [q|]; simpl.
  - destruct (ResultsView.computedCorrect q a); f_equal; lia.
  - f_equal; lia.
Qed.

Lemma grade_spec (answers : list UserAnswer) : forall acc,
  ResultsView.grade questions acc answers
  = (acc + List.length (filter (counted questions) answers),
     map (fun a => snd (ResultsView.gradeAnswer questions 0 a)) answers).
Proof.
  induction answers as [|a answers IH]; intros acc; simpl.
  - now rewrite Nat.add_0_r.
  - rewrite gradeAnswer_spec, IH.
    destruct (counted questions a); simpl; f_equal; lia.
Qed.

Lemma score_spec (answers : list UserAnswer) :
  ResultsView.score questions answers
  = List.length (filter (counted questions) answers).
Proof. unfold ResultsView.score. now rewrite grade_spec. Qed.

Lemma gradedAnswers_spec (answers : list UserAnswer) :
  ResultsView.gradedAnswers questions answers
  = map (fun a => snd (ResultsView.gradeAnswer questions 0 a)) answers.
Proof. unfold ResultsView.gradedAnswers. now rewrite grade_spec. Qed.

Lemma findQuestion_Some id q :
  ResultsView.findQuestion questions id = Some q -> In q questions /\ q_id q = id.
Proof.
  unfold ResultsView.findQuestion. intros H. apply find_some in H.
  destruct H as [Hin Heq]. now apply String.eqb_eq in Heq.
Qed.

Lemma findQuestion_known id :
  In id (map q_id questions) ->
  exists q, ResultsView.findQuestion questions id = Some q.
Proof.
  intros Hin. apply in_map_iff in Hin. destruct Hin as [q0 [Hid Hq0]].
  unfold ResultsView.findQuestion.
  destruct (find _ questions) as [q|] eqn:E; [eauto|].
  exfalso. apply (find_none _ _ E) in Hq0. rewrite Hid, String.eqb_refl in Hq0.
  discriminate.
Qed.

Lemma counted_known a :
  counted questions a = true -> In (questionId a) (map q_id questions).
Proof.
  unfold counted.
  destruct (ResultsView.findQuestion questions (questionId a)) as [q|] eqn:E;
    [|discriminate].
  intros _. apply findQuestion_Some in E. destruct E as [Hin <-].
  now apply in_map.
Qed.

Lemma NoDup_map_filter {A B : Type} (f : A -> B) (keep : A -> bool) (l : list A) :
  NoDup (map f l) -> NoDup (map f (filter keep l)).
Proof.
  induction l as [|a l IH]; simpl; [auto|].
  intros Hnd. inversion Hnd as [|? ? Hnotin Hnd']; subst.
  destruct (keep a); simpl; [|auto].
  constructor; [|auto].
  intros Hin. apply Hnotin. apply in_map_iff in Hin.
  destruct Hin as [x [Hx Hin]]. apply filter_In in Hin.
  apply in_map_iff. exists x. tauto.
Qed.

(** With at most one answer per question identity, the score cannot
    exceed the number of questions. *)
Lemma score_le_questions (answers : list UserAnswer) :
  NoDup (map questionId answers) ->
  ResultsView.score questions answers <= List.length questions.
Proof.
  intros Hnd. rewrite score_spec.
  rewrite <- (length_map questionId), <- (length_map q_id questions).
  apply NoDup_incl_length.
  - now apply NoDup_map_filter.
  - intros id Hin. apply in_map_iff in Hin. destruct Hin as [a [<- Ha]].
    apply filter_In in Ha. now apply counted_known.
Qed.

End Scoring.

(* ================================================================== *)
(** * Rounding to a double, bounded from above *)
(* ================================================================== *)

Section Binary64.
Local Open Scope Z_scope.

Lemma digits2_pos_size p : digits2_pos p = Pos.size p.
Proof. induction p; simpl; congruence. Qed.

Lemma Zdigits2_log2 m : 0 < m -> Zdigits2 m = Z.log2 m + 1.
Proof.
  destruct m as [|p|p]; try lia. intros _. simpl. rewrite digits2_pos_size.
  destruct p; simpl; try reflexivity; rewrite Pos.add_1_r; reflexivity.
Qed.

Lemma Zdigits2_nonneg m : 0 <= Zdigits2 m.
Proof. destruct m; simpl; lia. Qed.

Lemma Zdigits2_le m n : 0 <= m <= n -> Zdigits2 m <= Zdigits2 n.
Proof.
  intros [Hm Hmn]. destruct (Z.eq_dec m 0) as [->|Hne].
  - apply Zdigits2_nonneg.
  - rewrite !Zdigits2_log2 by lia. apply Z.add_le_mono_r, Z.log2_le_mono. lia.
Qed.

Lemma Zdigits2_mul_pow2 c k : 0 < c -> 0 <= k -> Zdigits2 (c * 2 ^ k) = Zdigits2 c + k.
Proof.
  intros Hc Hk. rewrite !Zdigits2_log2 by nia.
  rewrite Z.log2_mul_pow2 by lia. lia.
Qed.

Lemma shiftedBy_shr_1 x : shiftedBy 1 x (shr_1 x).
Proof.
  destruct x as [m r s]. unfold shiftedBy, nothingLost. simpl. intros Hm.
  change (2 ^ 1) with 2.
  destruct m as [|[p|p|]|p]; simpl; try lia.
  - split; [lia|]. split; [reflexivity|]. intros [-> ->] _. auto.
  - split; [lia|]. split.
    + rewrite Pos2Z.inj_xI. apply Z.div_unique with 1; lia.
    + intros [-> ->]. rewrite Pos2Z.inj_xI.
      rewrite Z.add_comm, Z.mul_comm, Z.mod_add by lia. discriminate.
  - split; [lia|]. split.
    + rewrite Pos2Z.inj_xO. apply Z.div_unique with 0; lia.
    + intros [-> ->] _. auto.
  - split; [lia|]. split; [reflexivity|]. intros [-> ->]. discriminate.
Qed.

Lemma shiftedBy_trans a b x y z :
  0 <= a -> 0 <= b -> shiftedBy a x y -> shiftedBy b y z -> shiftedBy (a + b) x z.
Proof.
  unfold shiftedBy. intros Ha Hb Hxy Hyz Hx.
  destruct (Hxy Hx) as [Hy [Hmy Hey]]. destruct (Hyz Hy) as [Hz [Hmz Hez]].
  split; [assumption|]. split.
  - rewrite Hmz, Hmy, Z.pow_add_r, Z.div_div by lia. reflexivity.
  - intros Hex Hmod. 
    assert (H2a : 0 < 2 ^ a) by (apply Z.pow_pos_nonneg; lia).
    assert (H2b : 0 < 2 ^ b) by (apply Z.pow_pos_nonneg; lia).
    rewrite Z.pow_add_r, Z.rem_mul_r in Hmod by lia.
    pose proof (Z.mod_pos_bound (shr_m x) (2 ^ a) H2a).
    pose proof (Z.mod_pos_bound (shr_m x / 2 ^ a) (2 ^ b) H2b).
    apply Hez; [apply Hey; [assumption | nia] | rewrite Hmy; nia].
Qed.

Lemma shiftedBy_iter_pos p x : shiftedBy (Zpos p) x (iter_pos shr_1 p x).
Proof.
  revert x. induction p as [p IH|p IH|]; intros x; simpl.
  - replace (Z.pos p~1) with (1 + (Z.pos p + Z.pos p)) by lia.
    apply shiftedBy_trans with (shr_1 x); try lia; [apply shiftedBy_shr_1|].
    apply shiftedBy_trans with (iter_pos shr_1 p (shr_1 x)); try lia; apply IH.
  - replace (Z.pos p~0) with (Z.pos p + Z.pos p) by lia.
    apply shiftedBy_trans with (iter_pos shr_1 p x); try lia; apply IH.
  - apply shiftedBy_shr_1.
Qed.

Lemma shiftedBy_refl x : shiftedBy 0 x x.
Proof.
  unfold shiftedBy. intros Hx. rewrite Z.pow_0_r, Z.div_1_r. auto.
Qed.

Lemma shr_spec mrs e n mrs' e' :
  shr mrs e n = (mrs', e') ->
  e' = e + Z.max 0 n /\ shiftedBy (Z.max 0 n) mrs mrs'.
Proof.
  unfold shr. destruct n as [|p|p]; intros [= <- <-].
  - split; [lia | apply shiftedBy_refl].
  - split; [lia|]. rewrite Z.max_r by lia. apply shiftedBy_iter_pos.
  - split; [lia | apply shiftedBy_refl].
Qed.

Lemma loc_of_shr_record_exact r :
  nothingLost r -> loc_of_shr_record r = loc_Exact.
Proof. destruct r as [m [|] [|]]; unfold nothingLost; simpl; intuition congruence. Qed.

Lemma shr_fexp_spec m e l mrs' e' :
  0 <= m ->
  shr_fexp 53 1024 m e l = (mrs', e') ->
  let n := Z.max 0 (fexp 53 1024 (Zdigits2 m + e) - e) in
  e' = e + n
  /\ 0 <= shr_m mrs'
  /\ shr_m mrs' = m / 2 ^ n
  /\ (l = loc_Exact -> m mod 2 ^ n = 0 -> loc_of_shr_record mrs' = loc_Exact).
Proof.
  intros Hm H n. unfold shr_fexp in H. apply shr_spec in H.
  destruct H as [He Hs]. fold n in He, Hs.
  assert (Hrec : shr_m (shr_record_of_loc m l) = m) by (destruct l as [|[| |]]; reflexivity).
  unfold shiftedBy in Hs. rewrite Hrec in Hs. destruct (Hs Hm) as [H0 [Hdiv Hex]].
  repeat split; try assumption.
  intros -> Hmod. apply loc_of_shr_record_exact, Hex; [split; reflexivity | assumption].
Qed.

Lemma round_nearest_even_bounds m l :
  m <= round_nearest_even m l <= m + 1
  /\ (l = loc_Exact -> round_nearest_even m l = m).
Proof.
  destruct l as [|[| |]]; simpl; try (split; [lia | congruence]).
  destruct (Z.even m); split; try lia; congruence.
Qed.

(** One truncation step under an integer bound [c]. *)
Lemma shift_under_bound c m e :
  0 < c -> Zdigits2 c <= 53 -> e <= 0 -> 0 <= m <= c * 2 ^ (- e) ->
  let n := Z.max 0 (fexp 53 1024 (Zdigits2 m + e) - e) in
  e + n <= Z.max e (fexp 53 1024 (Zdigits2 c))
  /\ e + n <= 0
  /\ m / 2 ^ n <= c * 2 ^ (- (e + n))
  /\ (m / 2 ^ n = c * 2 ^ (- (e + n)) -> m = c * 2 ^ (- e))
  /\ (m = c * 2 ^ (- e) -> m mod 2 ^ n = 0).
Proof.
  intros Hc Hdc He Hm n.
  assert (Hd : Zdigits2 m + e <= Zdigits2 c).
  { pose proof (Zdigits2_le m (c * 2 ^ (- e)) Hm) as H.
    rewrite Zdigits2_mul_pow2 in H by lia. lia. }
  assert (Hn : 0 <= n /\ e + n <= Z.max e (fexp 53 1024 (Zdigits2 c)) /\ e + n <= 0).
  { unfold n, fexp, emin in *. lia. }
  destruct Hn as [Hn0 [Hn1 Hn2]].
  assert (Hsplit : c * 2 ^ (- e) = c * 2 ^ (- (e + n)) * 2 ^ n).
  { rewrite <- Z.mul_assoc, <- Z.pow_add_r by lia. f_equal. f_equal. lia. }
  assert (H2n : 0 < 2 ^ n) by (apply Z.pow_pos_nonneg; lia).
  split; [assumption|]. split; [assumption|].
  split; [|split].
  - apply Z.div_le_upper_bound; [assumption|]. rewrite Hsplit in Hm. lia.
  - intros Heq.
    pose proof (Z.mul_div_le m (2 ^ n) H2n) as Hle. rewrite Heq in Hle. lia.
  - intros ->. rewrite Hsplit. apply Z.mod_mul. lia.
Qed.

Lemma binary_round_aux_le c sx mx ex lx :
  0 < c -> Zdigits2 c <= 53 -> 0 <= mx -> ex <= 0 ->
  mx < c * 2 ^ (- ex) \/ (mx = c * 2 ^ (- ex) /\ lx = loc_Exact) ->
  binary_round_aux 53 1024 sx mx ex lx = S754_zero sx
  \/ exists m e,
       binary_round_aux 53 1024 sx mx ex lx = S754_finite sx m e
       /\ e <= Z.max ex (fexp 53 1024 (Zdigits2 c))
       /\ e <= 0
       /\ Zpos m <= c * 2 ^ (- e).
Proof.
  intros Hc Hdc Hmx Hex Hle. unfold binary_round_aux.
  destruct (shr_fexp 53 1024 mx ex lx) as [mrs' e'] eqn:E1.
  apply shr_fexp_spec in E1; [|assumption].
  destruct E1 as [He' [Hm1 [Hdiv1 Hexact1]]].
  assert (Hmxle : 0 <= mx <= c * 2 ^ (- ex)) by lia.
  destruct (shift_under_bound c mx ex Hc Hdc Hex Hmxle)
    as [Hb1 [Hb2 [Hb3 [Hb4 Hb5]]]].
  rewrite <- He' in *. rewrite <- Hdiv1 in *.
  destruct (round_nearest_even_bounds (shr_m mrs') (loc_of_shr_record mrs'))
    as [Hr1 Hr2].
  set (m2 := round_nearest_even (shr_m mrs') (loc_of_shr_record mrs')) in *.
  assert (Hm2 : 0 <= m2 <= c * 2 ^ (- e')).
  { split; [lia|].
    destruct (Z.eq_dec (shr_m mrs') (c * 2 ^ (- e'))) as [Heq|Hne]; [|lia].
    specialize (Hb4 Heq). destruct Hle as [Hlt|[_ Hl]]; [lia|].
    rewrite Hr2; [lia|]. apply Hexact1; auto. }
  destruct (shr_fexp 53 1024 m2 e' loc_Exact) as [mrs'' e''] eqn:E2.
  apply shr_fexp_spec in E2; [|lia].
  destruct E2 as [He'' [Hm'' [Hdiv2 _]]].
  destruct (shift_under_bound c m2 e' Hc Hdc Hb2 Hm2) as [Hc1 [Hc2 [Hc3 _]]].
  rewrite <- He'' in *. rewrite <- Hdiv2 in *.
  destruct (shr_m mrs'') as [|m|m] eqn:Em; [now left | | lia].
  right. exists m, e''.
  replace (e'' <=? 1024 - 53) with true by (symmetry; apply Z.leb_le; lia).
  repeat split; try assumption. lia.
Qed.

Lemma binary_round_aux_canonical s m e :
  Zdigits2 (Zpos m) = 53 -> -1074 <= e <= 971 ->
  binary_round_aux 53 1024 s (Zpos m) e loc_Exact = S754_finite s m e.
Proof.
  intros Hd He. unfold binary_round_aux.
  assert (Hn : Z.max 0 (fexp 53 1024 (Zdigits2 (Zpos m) + e) - e) = 0).
  { rewrite Hd. unfold fexp, emin. lia. }
  destruct (shr_fexp 53 1024 (Zpos m) e loc_Exact) as [mrs' e'] eqn:E1.
  apply shr_fexp_spec in E1; [|lia].
  rewrite Hn, Z.pow_0_r, Z.div_1_r, Z.add_0_r in E1.
  destruct E1 as [-> [_ [Hm1 Hex1]]].
  rewrite Hex1, Hm1 by (auto using Z.mod_1_r). simpl round_nearest_even.
  destruct (shr_fexp 53 1024 (Zpos m) e loc_Exact) as [mrs'' e''] eqn:E2.
  apply shr_fexp_spec in E2; [|lia].
  rewrite Hn, Z.pow_0_r, Z.div_1_r, Z.add_0_r in E2.
  destruct E2 as [-> [_ [Hm2 _]]]. rewrite Hm2.
  replace (e <=? 1024 - 53) with true by (symmetry; apply Z.leb_le; lia).
  reflexivity.
Qed.

Lemma iter_xO_pow2 m d : Zpos (Pos.iter xO m d) = Zpos m * 2 ^ Zpos d.
Proof.
  induction d as [|d IH] using Pos.peano_ind.
  - simpl. lia.
  - rewrite Pos.iter_succ, Pos2Z.inj_xO, IH, Pos2Z.inj_succ, Z.pow_succ_r by lia.
    lia.
Qed.

(** The number of a positive integer below 2^53: a 53-bit mantissa. *)
Lemma of_Z_pos p :
  Zpos p < 2 ^ 53 ->
  exists m e,
    JsNumber.of_Z (Zpos p) = S754_finite false m e
    /\ Zdigits2 (Zpos m) = 53
    /\ -52 <= e <= 0
    /\ Zpos m = Zpos p * 2 ^ (- e).
Proof.
  intros Hp.
  assert (Hd : 1 <= Zdigits2 (Zpos p) <= 53).
  { rewrite Zdigits2_log2 by lia.
    pose proof (Z.log2_nonneg (Zpos p)).
    assert (Z.log2 (Zpos p) < 53) by (apply Z.log2_lt_pow2; lia). lia. }
  unfold JsNumber.of_Z, binary_normalize, binary_round.
  change (Zpos (digits2_pos p)) with (Zdigits2 (Zpos p)).
  set (d := Zdigits2 (Zpos p)) in *.
  assert (Hf : fexp JsNumber.prec JsNumber.emax (d + 0) = d - 53).
  { unfold fexp, emin, JsNumber.prec, JsNumber.emax. lia. }
  rewrite Hf. unfold shl_align.
  destruct (d - 53 - 0) as [|k|k] eqn:Ek; try lia.
  - exists p, 0. split; [|split; [|split]]; try lia.
    apply binary_round_aux_canonical; [fold d|]; lia.
  - exists (Pos.iter xO p k), (d - 53).
    assert (Hm : Zpos (Pos.iter xO p k) = Zpos p * 2 ^ (- (d - 53))).
    { rewrite iter_xO_pow2. f_equal. f_equal. lia. }
    assert (Hdm : Zdigits2 (Zpos (Pos.iter xO p k)) = 53).
    { rewrite Hm, Zdigits2_mul_pow2 by lia. fold d. lia. }
    split; [|split; [|split]]; try assumption; try lia.
    apply binary_round_aux_canonical; [assumption | lia].
Qed.

Lemma new_location_exact nb : new_location nb 0 = loc_Exact.
Proof.
  unfold new_location, new_location_even, new_location_odd.
  now destruct (Z.even nb).
Qed.

(** The quotient of two 53-bit mantissas whose value is at most one. *)
Lemma div_at_most_one ms es mn en :
  Zdigits2 (Zpos ms) = 53 -> Zdigits2 (Zpos mn) = 53 ->
  -52 <= es <= 0 -> -52 <= en <= 0 ->
  Zpos ms * 2 ^ (- en) <= Zpos mn * 2 ^ (- es) ->
  JsNumber.div (S754_finite false ms es) (S754_finite false mn en)
    = S754_zero false
  \/ exists m e,
       JsNumber.div (S754_finite false ms es) (S754_finite false mn en)
         = S754_finite false m e
       /\ e < 0
       /\ Zpos m <= 2 ^ (- e).
Proof.
  intros Hds Hdn Hes Hen Hle.
  unfold JsNumber.div, SFdiv, SFdiv_core_binary. rewrite Hds, Hdn.
  set (e0 := es - en - 53).
  assert (He0 : Z.min (fexp JsNumber.prec JsNumber.emax (53 + es - (53 + en))) (es - en)
                = e0).
  { unfold fexp, emin, JsNumber.prec, JsNumber.emax, e0. lia. }
  rewrite He0. replace (es - en - e0) with 53 by (unfold e0; lia).
  rewrite Z.shiftl_mul_pow2 by lia.
  pose proof (Z_div_mod (Zpos ms * 2 ^ 53) (Zpos mn) eq_refl) as Hdm.
  destruct (Z.div_eucl (Zpos ms * 2 ^ 53) (Zpos mn)) as [q r].
  destruct Hdm as [Hq Hr].
  assert (H2es : 0 < 2 ^ (- es)) by (apply Z.pow_pos_nonneg; lia).
  assert (H2en : 0 < 2 ^ (- en)) by (apply Z.pow_pos_nonneg; lia).
  assert (HB : 2 ^ (- e0) * 2 ^ (- en) = 2 ^ 53 * 2 ^ (- es)).
  { rewrite <- !Z.pow_add_r by lia. f_equal. unfold e0. lia. }
  assert (Hbound : Zpos ms * 2 ^ 53 <= Zpos mn * 2 ^ (- e0)).
  { apply Z.mul_le_mono_pos_r with (2 ^ (- en)); [assumption|].
    rewrite <- (Z.mul_assoc (Zpos mn)), HB. nia. }
  assert (H2e0 : 0 < 2 ^ (- e0)) by (apply Z.pow_pos_nonneg; unfold e0; lia).
  assert (Hqle : 0 <= q <= 2 ^ (- e0)) by nia.
  assert (Hcase : q < 1 * 2 ^ (- e0)
                  \/ (q = 1 * 2 ^ (- e0) /\ new_location (Zpos mn) r = loc_Exact)).
  { rewrite Z.mul_1_l.
    destruct (Z.eq_dec q (2 ^ (- e0))) as [Heq|Hne]; [right | left; lia].
    split; [assumption|].
    assert (r = 0) by nia. subst r. apply new_location_exact. }
  assert (Hd1 : Zdigits2 1 <= 53) by (simpl; lia).
  assert (He0neg : e0 <= 0) by (unfold e0; lia).
  destruct (binary_round_aux_le 1 (xorb false false) q e0
              (new_location (Zpos mn) r) Z.lt_0_1 Hd1 (proj1 Hqle) He0neg Hcase)
    as [Hz|[m [e [Hf [He1 [He2 Hm]]]]]].
  - now left.
  - right. exists m, e. split; [apply Hf|]. split; [|lia].
    unfold fexp, emin, e0 in He1. simpl Zdigits2 in He1. lia.
Qed.

(** A number of value at most one, times one hundred. *)
Lemma mul_hundred_at_most m e :
  e < 0 -> Zpos m <= 2 ^ (- e) ->
  JsNumber.mul (S754_finite false m e) (JsNumber.of_nat 100) = S754_zero false
  \/ exists m' e',
       JsNumber.mul (S754_finite false m e) (JsNumber.of_nat 100)
         = S754_finite false m' e'
       /\ e' < 0
       /\ Zpos m' <= 100 * 2 ^ (- e').
Proof.
  intros He Hm.
  change (JsNumber.of_nat 100) with (S754_finite false 7036874417766400 (-46)).
  unfold JsNumber.mul, SFmul.
  assert (H2e : 0 < 2 ^ (- e)) by (apply Z.pow_pos_nonneg; lia).
  assert (Hsplit : 100 * 2 ^ (- (e + -46)) = 2 ^ (- e) * 7036874417766400).
  { replace (- (e + -46)) with (- e + 46) by lia.
    rewrite Z.pow_add_r by lia. change (2 ^ 46) with 70368744177664. lia. }
  assert (Hd100 : Zdigits2 100 <= 53) by (simpl; lia).
  assert (Hcase : Zpos (m * 7036874417766400) < 100 * 2 ^ (- (e + -46))
                  \/ (Zpos (m * 7036874417766400) = 100 * 2 ^ (- (e + -46))
                      /\ loc_Exact = loc_Exact)).
  { rewrite Hsplit, Pos2Z.inj_mul.
    destruct (Z.eq_dec (Zpos m) (2 ^ (- e))) as [Heq|Hne].
    - right. split; [now rewrite Heq | reflexivity].
    - left. nia. }
  destruct (binary_round_aux_le 100 (xorb false false)
              (Zpos (m * 7036874417766400)) (e + -46) loc_Exact
              ltac:(lia) Hd100 ltac:(lia) ltac:(lia) Hcase)
    as [Hz|[m' [e' [Hf [He1 [He2 Hm']]]]]].
  - now left.
  - right. exists m', e'. split; [apply Hf|]. split; [|lia].
    unfold fexp, emin in He1. simpl Zdigits2 in He1. lia.
Qed.

Lemma Math_round_at_most_hundred m e :
  e < 0 -> Zpos m <= 100 * 2 ^ (- e) ->
  exists k, JsNumber.Math_round (S754_finite false m e) = JsNumber.of_Z k
            /\ 0 <= k <= 100.
Proof.
  intros He Hm. destruct e as [|p|p]; try lia.
  unfold JsNumber.Math_round. rewrite Z.pow_pos_fold.
  change (- Z.neg p) with (Zpos p) in Hm.
  assert (Hd : 0 < 2 ^ Zpos p) by (apply Z.pow_pos_nonneg; lia).
  set (k := (2 * Zpos m + 2 ^ Zpos p) / (2 * 2 ^ Zpos p)).
  assert (Hk : 0 <= k <= 100).
  { unfold k. split.
    - apply Z.div_pos; lia.
    - assert ((2 * Zpos m + 2 ^ Zpos p) / (2 * 2 ^ Zpos p) < 101); [|lia].
      apply Z.div_lt_upper_bound; lia. }
  exists k. split; [|assumption].
  destruct (Z.eqb_spec k 0) as [->|Hne]; reflexivity.
Qed.

Lemma percentOf_bounds (s n : nat) :
  (1 <= n)%nat -> Z.of_nat n < 2 ^ 53 -> (s <= n)%nat ->
  exists k, percentOf s n = JsNumber.of_Z k /\ 0 <= k <= 100.
Proof.
  intros Hn Hbig Hs. unfold percentOf.
  change (JsNumber.of_nat s) with (JsNumber.of_Z (Z.of_nat s)).
  change (JsNumber.of_nat n) with (JsNumber.of_Z (Z.of_nat n)).
  destruct (Z.of_nat n) as [|pn|pn] eqn:En; try lia.
  destruct (of_Z_pos pn Hbig) as [mn [en [Hfn [Hdn [Hen Hmn]]]]].
  rewrite Hfn.
  destruct (Z.of_nat s) as [|ps|ps] eqn:Es; try lia.
  - exists 0. split; [reflexivity | lia].
  - assert (Hps : Zpos ps < 2 ^ 53) by lia.
    destruct (of_Z_pos ps Hps) as [ms [es [Hfs [Hds [Hes Hms]]]]].
    rewrite Hfs.
    assert (Hle : Zpos ms * 2 ^ (- en) <= Zpos mn * 2 ^ (- es)).
    { rewrite Hms, Hmn.
      assert (0 < 2 ^ (- es)) by (apply Z.pow_pos_nonneg; lia).
      assert (0 < 2 ^ (- en)) by (apply Z.pow_pos_nonneg; lia).
      assert (Zpos ps <= Zpos pn) by lia. nia. }
    destruct (div_at_most_one ms es mn en Hds Hdn Hes Hen Hle)
      as [-> | [m [e [-> [He Hm]]]]].
    + exists 0. split; [reflexivity | lia].
    + destruct (mul_hundred_at_most m e He Hm) as [-> | [m' [e' [-> [He' Hm']]]]].
      * exists 0. split; [reflexivity | lia].
      * now apply Math_round_at_most_hundred.
Qed.

End Binary64.

(* ================================================================== *)
(** * The scorer: the percentage *)
(* ================================================================== *)

Lemma number_eqb_eq (x y : JsNumber.number) : number_eqb x y = true -> x = y.
Proof.
  destruct x as [a|a| |a m e], y as [b|b| |b n f]; simpl; try discriminate.
  - intros H. apply Bool.eqb_prop in H. now subst.
  - intros H. apply Bool.eqb_prop in H. now subst.
  - reflexivity.
  - rewrite !andb_true_iff. intros [[Hs Hm] He].
    apply Bool.eqb_prop in Hs. apply Pos.eqb_eq in Hm. apply Z.eqb_eq in He.
    now subst.
Qed.

(** Up to 39 questions the double-precision percentage is the exact one. *)
Lemma percentOf_exact (s n : nat) :
  1 <= n <= 39 -> s <= n ->
  percentOf s n
  = JsNumber.of_Z (roundHalfUp (100 * Z.of_nat s) (Z.of_nat n)).
Proof.
  intros Hn Hs.
  assert (Hall : forallb percentExactUpTo (seq 1 39) = true)
    by (vm_compute; reflexivity).
  rewrite forallb_forall in Hall.
  assert (Hin : In n (seq 1 39)) by (apply in_seq; lia).
  specialize (Hall n Hin). unfold percentExactUpTo in Hall.
  rewrite forallb_forall in Hall.
  apply number_eqb_eq, Hall, in_seq. lia.
Qed.

Lemma wellFormed_answers_nodup questions (l : ledger) :
  wellFormedLedger questions l -> NoDup (map questionId (JsMap.values l)).
Proof.
  intros [Hnd Hkey _ _]. now rewrite keyed_questionIds.
Qed.

Lemma wellFormed_answer_known questions (l : ledger) a :
  wellFormedLedger questions l -> In a (JsMap.values l) ->
  In (questionId a) (map q_id questions) /\ judgedWithCode a.
Proof.
  intros [Hnd Hkey Hknown Hjud] Hin. split.
  - rewrite <- keyed_questionIds in Hknown by assumption.
    rewrite Forall_forall in Hknown. apply Hknown. now apply in_map.
  - rewrite Forall_forall in Hjud. now apply Hjud.
Qed.

(** C1, as the code has it. For a completed session with at most 39
    questions (and at least one), the percentage that is shown and
    recorded in the history equals [round(100 * score / totalQuestions)],
    a half going up; the recorded score is the computed one and counts
    the graded answers marked correct.  Every answer of the ledger is
    graded against the question it names: for a choice question it is
    correct exactly when its selected option identity equals the
    question's correct option identity, for a code question exactly when
    the judgement attached to it is [true], and an answer to a code
    question without submitted code is incorrect.  (Beyond 39 questions
    the percentage is [Math.round] of the double [(score / total) * 100],
    which can fall one below the exact rounding.) *)
Theorem C1_percentage_of_correct_answers :
  forall (questions : list Question) (l : ledger),
    wellFormedLedger questions l ->
    1 <= List.length questions <= 39 ->
    let answers := JsMap.values l in
    let graded := ResultsView.gradedAnswers questions answers in
    let score := ResultsView.score questions answers in
    ResultsView.percentage questions answers
      = JsNumber.of_Z (roundHalfUp (100 * Z.of_nat score)
                                   (Z.of_nat (List.length questions)))
    /\ (forall config timeSpent uuid now,
          let item := ResultsView.historyItem questions answers config timeSpent
                        uuid now in
          ResultsView.h_percentage item
            = JsNumber.of_Z (roundHalfUp (100 * Z.of_nat score)
                                         (Z.of_nat (List.length questions)))
          /\ ResultsView.h_score item = score
          /\ ResultsView.h_totalQuestions item = List.length questions)
    /\ score
       = List.length (filter (fun g => ResultsView.truthy (isCorrect g)) graded)
    /\ forall i a, nth_error answers i = Some a ->
         exists q,
           ResultsView.findQuestion questions (questionId a) = Some q
           /\ nth_error graded i
              = Some (with_isCorrect a (ResultsView.computedCorrect q a))
           /\ (q_type q = MCQ ->
               (ResultsView.computedCorrect q a = true
                <-> selectedOptionId a = q_correctOptionId q))
           /\ (q_type q = CODE ->
               (ResultsView.computedCorrect q a = true <-> isCorrect a = Some true)
               /\ (code a = None -> ResultsView.computedCorrect q a = false)).
Proof.
  intros questions l Hwf Hn answers graded score.
  assert (Hscore : score <= List.length questions).
  { apply score_le_questions. now apply (wellFormed_answers_nodup questions). }
  assert (Hpct : ResultsView.percentage questions answers
                 = JsNumber.of_Z (roundHalfUp (100 * Z.of_nat score)
                                    (Z.of_nat (List.length questions)))).
  { apply (percentOf_exact score (List.length questions)); assumption. }
  assert (Hgraded : forall a, In a answers ->
            exists q, ResultsView.findQuestion questions (questionId a) = Some q
                      /\ snd (ResultsView.gradeAnswer questions 0 a)
                         = with_isCorrect a (ResultsView.computedCorrect q a)).
  { intros a Hin.
    destruct (wellFormed_answer_known questions l a Hwf Hin) as [Hknown _].
    destruct (findQuestion_known questions _ Hknown) as [q Hq].
    exists q. split; [assumption|].
    unfold ResultsView.gradeAnswer. now rewrite Hq. }
  split; [exact Hpct|]. split; [|split].
  - intros config timeSpent uuid now. simpl. auto.
  - unfold score, graded. rewrite score_spec, gradedAnswers_spec.
    clear Hpct Hscore. induction answers as [|a rest IH]; simpl; [reflexivity|].
    destruct (Hgraded a (or_introl eq_refl)) as [q [Hq Hg]].
    rewrite Hg. unfold counted at 1. rewrite Hq. simpl.
    destruct (ResultsView.computedCorrect q a); simpl;
      rewrite IH by (intros; apply Hgraded; now right); reflexivity.
  - intros i a Hi.
    destruct (Hgraded a (nth_error_In _ _ Hi)) as [q [Hq Hg]].
    exists q. split; [assumption|]. split; [|split].
    + unfold graded. rewrite gradedAnswers_spec.
      rewrite nth_error_map, Hi. simpl. now rewrite Hg.
    + intros Hty. unfold ResultsView.computedCorrect. rewrite Hty.
      unfold opt_string_eqb.
      destruct (selectedOptionId a) as [x|], (q_correctOptionId q) as [y|];
        try (split; [discriminate | congruence]); [|tauto].
      rewrite String.eqb_eq. split; congruence.
    + intros Hty. unfold ResultsView.computedCorrect. rewrite Hty.
      destruct (wellFormed_answer_known questions l a Hwf (nth_error_In _ _ Hi))
        as [_ Hjud].
      split.
      * unfold ResultsView.truthy. destruct (isCorrect a) as [[|]|]; split;
          congruence.
      * intros Hcode. unfold judgedWithCode in Hjud.
        destruct (isCorrect a) as [b|]; [|reflexivity].
        exfalso. apply Hjud; [discriminate | assumption].
Qed.

Lemma wellFormed_twoOfThree : wellFormedLedger threeChoices twoOfThree.
Proof.
  unfold twoOfThree.
  repeat apply wellFormed_handleOptionSelect; simpl; auto.
  apply wellFormed_empty.
Qed.

Lemma C1_percentage_of_correct_answers_witness :
  ResultsView.score threeChoices (JsMap.values twoOfThree) = 2
  /\ ResultsView.percentage threeChoices (JsMap.values twoOfThree)
     = JsNumber.of_Z 67.
Proof.
  split; [reflexivity|].
  refine (proj1 (C1_percentage_of_correct_answers threeChoices twoOfThree
                   wellFormed_twoOfThree _)).
  simpl. lia.
Defined.

(** The claim as stated fails on a session of forty questions of which
    twenty-three are answered correctly: [(23 / 40) * 100] is the double
    57.49999999999999, shown and recorded as 57, while
    [round(100 * 23 / 40)] is 58. *)
Lemma C1_percentage_differs_at_forty_questions :
  exists m,
    ExamInterface.run sampleEnv fortyProps (ExamInterface.mount fortyProps)
      (answerFirst 23) = Some m
    /\ let answers := fst (ExamInterface.handleSubmitAll (ExamInterface.state m)) in
       List.length fortyQuestions = 40
       /\ ResultsView.score fortyQuestions answers = 23
       /\ ResultsView.percentage fortyQuestions answers = JsNumber.of_Z 57
       /\ roundHalfUp (100 * 23) 40 = 58%Z
       /\ ResultsView.percentage fortyQuestions answers
          <> JsNumber.of_Z
               (roundHalfUp (100 * Z.of_nat (ResultsView.score fortyQuestions answers))
                            (Z.of_nat (List.length fortyQuestions))).
Proof.
  eexists. split; [vm_compute; reflexivity|].
  vm_compute. repeat split; discriminate.
Qed.

Lemma score_without_questions (answers : list UserAnswer) :
  ResultsView.score [] answers = 0.
Proof.
  rewrite score_spec.
  induction answers as [|a answers IH]; simpl; [reflexivity | exact IH].
Qed.

(** C10. The scorer divides by [questions.length] unguarded.  For the
    answers of a session - at most one per question identity - over a
    question array (its length, like every array length, is an integer
    that a double holds exactly): with at least one question the score
    lies between 0 and the number of questions and the percentage is an
    integer between 0 and 100; with no question the score is 0 and the
    percentage is [0 / 0 * 100], which is [NaN]. *)
Theorem C10_score_and_percentage_range :
  forall (questions : list Question) (answers : list UserAnswer),
    NoDup (map questionId answers) ->
    (Z.of_nat (List.length questions) < 2 ^ 53)%Z ->
    (1 <= List.length questions ->
       0 <= ResultsView.score questions answers <= List.length questions
       /\ exists k, ResultsView.percentage questions answers = JsNumber.of_Z k
                    /\ (0 <= k <= 100)%Z)
    /\ (List.length questions = 0 ->
          ResultsView.score questions answers = 0
          /\ JsNumber.div (JsNumber.of_nat (ResultsView.score questions answers))
                          (JsNumber.of_nat (List.length questions))
             = S754_nan
          /\ ResultsView.percentage questions answers = S754_nan).
Proof.
  intros questions answers Hnd Hlen. split.
  - intros Hone.
    pose proof (score_le_questions questions answers Hnd) as Hscore.
    split; [lia|].
    apply (percentOf_bounds (ResultsView.score questions answers)
             (List.length questions)); assumption.
  - intros Hzero. destruct questions as [|q questions]; [|discriminate].
    unfold ResultsView.percentage. rewrite score_without_questions.
    repeat split; reflexivity.
Qed.

Lemma C10_score_and_percentage_range_witness :
  (0 <= ResultsView.score threeChoices (JsMap.values twoOfThree) <= 3
   /\ exists k, ResultsView.percentage threeChoices (JsMap.values twoOfThree)
                = JsNumber.of_Z k
                /\ (0 <= k <= 100)%Z)
  /\ ResultsView.percentage [] [] = S754_nan.
Proof.
  assert (Hnd : NoDup (map questionId (JsMap.values twoOfThree))).
  { repeat constructor; simpl; intuition discriminate. }
  split.
  - refine (proj1 (C10_score_and_percentage_range threeChoices
                     (JsMap.values twoOfThree) Hnd _) _).
    + reflexivity.
    + simpl. lia.
  - refine (proj2 (proj2 (proj2 (C10_score_and_percentage_range [] []
                                   (NoDup_nil _) _) eq_refl))).
    reflexivity.
Defined.

(* ================================================================== *)
(** * The exam screen: position and clock *)
(* ================================================================== *)

Lemma ExamInterface_run_app env p evs1 : forall evs2 m,
  ExamInterface.run env p m (evs1 ++ evs2)
  = match ExamInterface.run env p m evs1 with
    | Some m1 => ExamInterface.run env p m1 evs2
    | None => None
    end.
Proof.
  induction evs1 as [|ev evs1 IH]; intros evs2 m; simpl; [reflexivity|].
  destruct (ExamInterface.dispatch env p m ev); [apply IH | reflexivity].
Qed.

(** X1. Started on a question of the set, the exam screen handles every
    sequence of events - navigation by list, Previous and Next included -
    without throwing, and the current index always stays on a question
    of the set. *)
Theorem X1_exam_screen_stays_on_a_question :
  forall (env : GeminiService.Env) (p : ExamInterface.Props)
         (evs : list ExamInterface.Event),
    ExamInterface.or_zero (ExamInterface.initialCurrentIdx p)
      < List.length (ExamInterface.questions p) ->
    exists m q,
      ExamInterface.run env p (ExamInterface.mount p) evs = Some m
      /\ ExamInterface.currentIdx (ExamInterface.state m)
         < List.length (ExamInterface.questions p)
      /\ ExamInterface.currentQuestion p (ExamInterface.state m) = Some q
      /\ In q (ExamInterface.questions p).
Proof.
  intros env p evs Hi.
  assert (Hm : ExamInterface.currentIdx (ExamInterface.state (ExamInterface.mount p))
               < List.length (ExamInterface.questions p)).
  { unfold ExamInterface.mount. rewrite commit_state. exact Hi. }
  destruct (run_total env p evs _ Hm) as [m Hrun].
  pose proof (index_run env p evs _ _ Hm Hrun) as Hidx.
  unfold ExamInterface.currentQuestion.
  destruct (nth_error (ExamInterface.questions p)
              (ExamInterface.currentIdx (ExamInterface.state m))) as [q|] eqn:E.
  - exists m, q. repeat split; try assumption. eauto using nth_error_In.
  - apply nth_error_None in E. lia.
Qed.

Lemma X1_exam_screen_stays_on_a_question_witness :
  exists m q,
    ExamInterface.run sampleEnv sampleProps (ExamInterface.mount sampleProps)
      [ExamInterface.Previous; ExamInterface.Next; ExamInterface.Next;
       ExamInterface.Next; ExamInterface.Next; ExamInterface.SelectQuestion 7]
    = Some m
    /\ ExamInterface.currentIdx (ExamInterface.state m) < 3
    /\ ExamInterface.currentQuestion sampleProps (ExamInterface.state m) = Some q
    /\ In q sampleQuestions.
Proof.
  refine (X1_exam_screen_stays_on_a_question sampleEnv sampleProps _ _).
  simpl. lia.
Defined.

Lemma elapsed_run env p evs : forall m m',
  ExamInterface.run env p m evs = Some m' ->
  ExamInterface.elapsed (ExamInterface.state m')
  = Nat.iter (ticks evs) (ExamInterface.tick (ExamInterface.timeLimit p))
      (ExamInterface.elapsed (ExamInterface.state m)).
Proof.
  induction evs as [|ev evs IH]; simpl ExamInterface.run; intros m m'.
  - now intros [= <-].
  - unfold ExamInterface.dispatch.
    destruct (ExamInterface.currentQuestion p (ExamInterface.state m)) as [q|];
      [|discriminate].
    intros Hrun. rewrite (IH _ _ Hrun), commit_state, handle_elapsed.
    rewrite ticks_cons.
    destruct ev; simpl ticks; try reflexivity.
    rewrite Nat.add_comm. simpl Nat.iter.
    clear. induction (ticks evs) as [|k IHk]; simpl; [reflexivity|].
    now rewrite IHk.
Qed.

Lemma iter_tick limit e0 k :
  Nat.iter k (ExamInterface.tick limit) e0 = clockAfter limit e0 k.
Proof.
  unfold clockAfter. induction k as [|k IH]; simpl.
  - destruct (ExamInterface.timeIsUp limit e0) eqn:E; [reflexivity|].
    destruct (Nat.eqb_spec limit 0); [lia|].
    unfold ExamInterface.timeIsUp in E.
    apply andb_false_iff in E. rewrite Nat.ltb_ge, Nat.leb_gt in E. lia.
  - rewrite IH. unfold ExamInterface.tick.
    fold (ExamInterface.timeIsUp limit
            (if ExamInterface.timeIsUp limit e0 then e0
             else if Nat.eqb limit 0 then e0 + k else Nat.min (e0 + k) (limit * 60))).
    destruct (ExamInterface.timeIsUp limit e0) eqn:E.
    + now rewrite E.
    + unfold ExamInterface.timeIsUp in *.
      apply andb_false_iff in E. rewrite Nat.ltb_ge, Nat.leb_gt in E.
      destruct (Nat.eqb_spec limit 0) as [->|Hne]; simpl; [lia|].
      destruct (Nat.ltb_spec 0 limit); [|lia]. simpl.
      destruct (Nat.leb_spec (limit * 60) (Nat.min (e0 + k) (limit * 60))); lia.
Qed.

(** X2. The clock of the exam screen, after any events of which [k] are
    ticks, started at [e0]: without a limit it shows [e0 + k]; with a
    limit it stops at the limit when it started at or below it (and does
    not move at all when it started above), and the display counts down
    from the limit and stays at zero: it shows [limit * 60 - (e0 + k)],
    cut off at zero. *)
Theorem X2_clock_counts_and_stops :
  forall (env : GeminiService.Env) (p : ExamInterface.Props)
         (evs : list ExamInterface.Event) (m : ExamInterface.Mounted),
    ExamInterface.run env p (ExamInterface.mount p) evs = Some m ->
    let limit := ExamInterface.timeLimit p in
    let e0 := ExamInterface.or_zero (ExamInterface.initialTimeSpent p) in
    let e := ExamInterface.elapsed (ExamInterface.state m) in
    e = clockAfter limit e0 (ticks evs)
    /\ (limit = 0 -> e = e0 + ticks evs)
    /\ (0 < limit -> e0 <= limit * 60 -> e = Nat.min (e0 + ticks evs) (limit * 60))
    /\ (0 < limit -> limit * 60 <= e0 -> e = e0)
    /\ ExamInterface.timerSeconds limit e
       = if Nat.eqb limit 0 then e0 + ticks evs
         else limit * 60 - (e0 + ticks evs).
Proof.
  intros env p evs m Hrun limit e0 e.
  assert (He : e = clockAfter limit e0 (ticks evs)).
  { unfold e. rewrite (elapsed_run env p evs _ _ Hrun), iter_tick.
    unfold ExamInterface.mount. now rewrite commit_state. }
  split; [exact He|]. rewrite He. unfold clockAfter, ExamInterface.timerSeconds.
  destruct (ExamInterface.timeIsUp limit e0) eqn:E.
  - apply timeIsUp_spec in E.
    destruct (Nat.eqb_spec limit 0); repeat split; intros; lia.
  - unfold ExamInterface.timeIsUp in E.
    apply andb_false_iff in E. rewrite Nat.ltb_ge, Nat.leb_gt in E.
    destruct (Nat.eqb_spec limit 0); repeat split; intros; lia.
Qed.

Lemma X2_clock_counts_and_stops_witness :
  exists m,
    ExamInterface.run sampleEnv sampleProps (ExamInterface.mount sampleProps)
      sampleEvents = Some m
    /\ ExamInterface.elapsed (ExamInterface.state m) = 60
    /\ ExamInterface.timerSeconds 1 (ExamInterface.elapsed (ExamInterface.state m)) = 0.
Proof.
  eexists. split; [vm_compute; reflexivity|].
  refine (let H := X2_clock_counts_and_stops sampleEnv sampleProps sampleEvents _ _
          in conj (proj1 H) (proj2 (proj2 (proj2 (proj2 H))))).
  vm_compute. reflexivity.
Defined.

(* ================================================================== *)
(** * The exam screen: answering *)
(* ================================================================== *)

Lemma set_set {V : Type} (m : JsMap.t V) (k : string) (v v' : V) :
  JsMap.set (JsMap.set m k v) k v' = JsMap.set m k v'.
Proof.
  induction m as [|[k0 v0] m IH]; simpl.
  - now rewrite String.eqb_refl.
  - destruct (String.eqb k0 k) eqn:E; simpl; rewrite E; [reflexivity|].
    now rewrite IH.
Qed.

Lemma prefixOf_keys_set {V : Type} (m : JsMap.t V) (k : string) (v : V) :
  prefixOf (JsMap.keys m) (JsMap.keys (JsMap.set m k v)).
Proof.
  destruct (keys_set V m k v) as [->|[_ ->]].
  - exists []. now rewrite app_nil_r.
  - now exists [k].
Qed.

Lemma prefixOf_refl {A : Type} (l : list A) : prefixOf l l.
Proof. exists []. now rewrite app_nil_r. Qed.

(** X3. Picking an option stores a bare answer holding the option under
    the question's identity: the question then shows as answered, a
    second pick replaces the first as if the first had never been made,
    and the answers to other questions are not touched. *)
Theorem X3_last_selected_option_wins :
  forall (q : Question) (answers : ledger) (first second : string),
    let once := ExamInterface.handleOptionSelect q answers second in
    let twice :=
      ExamInterface.handleOptionSelect q
        (ExamInterface.handleOptionSelect q answers first) second in
    twice = once
    /\ JsMap.get twice (q_id q)
       = Some {| questionId := q_id q; selectedOptionId := Some second;
                 code := None; isCorrect := None; feedback := None;
                 output := None; testInput := None |}
    /\ ExamInterface.isAnswered twice (q_id q) = true
    /\ (forall k, k <> q_id q -> JsMap.get twice k = JsMap.get answers k)
    /\ (forall q', q_type q' = MCQ ->
          forall a, JsMap.get twice (q_id q) = Some a ->
          ResultsView.computedCorrect q' a = true
          <-> q_correctOptionId q' = Some second).
Proof.
  intros q answers first second once twice.
  assert (E : twice = once) by apply set_set.
  split; [exact E|]. rewrite E. unfold once, ExamInterface.handleOptionSelect.
  split; [apply get_set_same|].
  split; [unfold ExamInterface.isAnswered; now rewrite get_set_same|].
  split; [intros k Hk; apply get_set_other; congruence|].
  intros q' Hq a Ha. rewrite get_set_same in Ha. injection Ha as <-.
  unfold ResultsView.computedCorrect. rewrite Hq. simpl.
  destruct (q_correctOptionId q') as [c|]; [|split; discriminate].
  rewrite String.eqb_eq. split; congruence.
Qed.

Lemma X3_last_selected_option_wins_witness :
  ResultsView.computedCorrect (choiceQuestion "q1" "a")
    {| questionId := "q1"; selectedOptionId := Some "a"; code := None;
       isCorrect := None; feedback := None; output := None; testInput := None |}
  = true.
Proof.
  apply (proj2 (proj2 (proj2 (proj2
           (X3_last_selected_option_wins (choiceQuestion "q1" "a") JsMap.empty "b" "a"))))
           (choiceQuestion "q1" "a") eq_refl _ eq_refl).
  reflexivity.
Defined.

(** X4. Typing in the editor, resetting the code and storing generated
    test cases change one field of the answer on screen and keep the
    rest: a judgement given to earlier code stays attached to the changed
    code, and the scorer counts the answer exactly as before. *)
Theorem X4_editing_keeps_the_judgement :
  forall (q : Question) (answers : ledger) (c : string) (cases : list string),
    let a := existingAnswer answers (q_id q) in
    let kept (a' : UserAnswer) :=
      questionId a' = questionId a
      /\ selectedOptionId a' = selectedOptionId a
      /\ isCorrect a' = isCorrect a
      /\ feedback a' = feedback a
      /\ output a' = output a
      /\ forall questions, counted questions a' = counted questions a in
    (exists a', JsMap.get (ExamInterface.handleCodeChange q answers c) (q_id q)
                = Some a'
                /\ code a' = Some c /\ testInput a' = testInput a /\ kept a')
    /\ (exists a', JsMap.get (ExamInterface.handleResetCode q answers true) (q_id q)
                   = Some a'
                   /\ code a' = Some (ExamInterface.resetText q)
                   /\ testInput a' = testInput a /\ kept a')
    /\ (exists a', JsMap.get (ExamInterface.storeTestCases q answers cases) (q_id q)
                   = Some a'
                   /\ code a' = code a
                   /\ testInput a' = Some (ExamInterface.formatTestInput cases)
                   /\ kept a').
Proof.
  intros q answers c cases a kept.
  unfold ExamInterface.handleCodeChange, ExamInterface.handleResetCode,
    ExamInterface.storeTestCases.
  fold a. rewrite !get_set_same.
  repeat split; eexists; (split; [reflexivity|]); repeat split.
Qed.

(** X7. What the editor shows: the code last typed, the starting text
    after a reset, the submitted code after a judgement; for a question
    with no code stored, the starting code or the placeholder, and never
    an empty text.  Handlers of one question leave the editor of another
    as it was. *)
Theorem X7_editor_shows_the_stored_code :
  forall (q : Question) (answers : ledger) (c : string) (r : GradingResult),
    ExamInterface.getEditorValue q (ExamInterface.handleCodeChange q answers c) = c
    /\ ExamInterface.getEditorValue q (ExamInterface.handleResetCode q answers true)
       = ExamInterface.resetText q
    /\ ExamInterface.getEditorValue q (ExamInterface.storeJudgement q answers c r) = c
    /\ ExamInterface.getEditorValue q (ExamInterface.handleOptionSelect q answers c)
       = ExamInterface.resetText q
    /\ (JsMap.get answers (q_id q) = None ->
        ExamInterface.getEditorValue q answers = ExamInterface.resetText q)
    /\ ExamInterface.resetText q <> EmptyString
    /\ (forall q', q_id q' <> q_id q ->
          ExamInterface.getEditorValue q' (ExamInterface.handleCodeChange q answers c)
          = ExamInterface.getEditorValue q' answers
          /\ ExamInterface.getEditorValue q'
               (ExamInterface.handleResetCode q answers true)
             = ExamInterface.getEditorValue q' answers
          /\ ExamInterface.getEditorValue q'
               (ExamInterface.storeJudgement q answers c r)
             = ExamInterface.getEditorValue q' answers).
Proof.
  intros q answers c r.
  unfold ExamInterface.getEditorValue, ExamInterface.handleCodeChange,
    ExamInterface.handleResetCode, ExamInterface.storeJudgement,
    ExamInterface.handleOptionSelect.
  rewrite !get_set_same. simpl.
  repeat split.
  - intros ->. reflexivity.
  - unfold ExamInterface.resetText, ExamInterface.placeholder.
    destruct (q_startingCode q) as [s|].
    + destruct (String.eqb_spec s ""); [|assumption].
      destruct (q_language q) as [[]|]; discriminate.
    + destruct (q_language q) as [[]|]; discriminate.
  - now rewrite get_set_other by congruence.
  - now rewrite get_set_other by congruence.
  - now rewrite get_set_other by congruence.
Qed.

Lemma X7_editor_shows_the_stored_code_witness :
  ExamInterface.getEditorValue (codeQuestion "q2") JsMap.empty
  = "# Start your code here".
Proof.
  apply (proj1 (proj2 (proj2 (proj2 (proj2
           (X7_editor_shows_the_stored_code (codeQuestion "q2") JsMap.empty ""
              GeminiService.gradingFallback)))))).
  reflexivity.
Defined.

(* ================================================================== *)
(** * The exam screen: requests in flight *)
(* ================================================================== *)

Lemma synchronous_handle env p q m ev :
  synchronous ev = true ->
  let m' := ExamInterface.handle env p q m ev in
  ExamInterface.pending m' = ExamInterface.pending m
  /\ ExamInterface.isGrading (ExamInterface.state m')
     = ExamInterface.isGrading (ExamInterface.state m)
  /\ ExamInterface.isGeneratingTests (ExamInterface.state m')
     = ExamInterface.isGeneratingTests (ExamInterface.state m)
  /\ prefixOf (JsMap.keys (ExamInterface.answers (ExamInterface.state m)))
              (JsMap.keys (ExamInterface.answers (ExamInterface.state m')))
  /\ forall k, k <> q_id q ->
       JsMap.get (ExamInterface.answers (ExamInterface.state m')) k
       = JsMap.get (ExamInterface.answers (ExamInterface.state m)) k.
Proof.
  destruct ev; try discriminate; intros _; simpl.
  - auto using prefixOf_refl.
  - destruct (idx <? _); simpl; auto using prefixOf_refl.
  - auto using prefixOf_refl.
  - auto using prefixOf_refl.
  - repeat split; try apply prefixOf_keys_set.
    intros k Hk. apply get_set_other. congruence.
  - repeat split; try apply prefixOf_keys_set.
    intros k Hk. apply get_set_other. congruence.
  - destruct confirmed; simpl; auto using prefixOf_refl.
    repeat split; try apply prefixOf_keys_set.
    intros k Hk. apply get_set_other. congruence.
Qed.

(** X6. An event that is handled at once - a tick, a move to another
    question, a pick, an edit, a reset - changes no answer but that of
    the question on screen, never removes or reorders the questions
    answered so far, and leaves the requests in flight and their
    progress flags alone. *)
Theorem X6_an_edit_touches_only_the_question_on_screen :
  forall (env : GeminiService.Env) (p : ExamInterface.Props)
         (m m' : ExamInterface.Mounted) (ev : ExamInterface.Event) (q : Question),
    synchronous ev = true ->
    ExamInterface.currentQuestion p (ExamInterface.state m) = Some q ->
    ExamInterface.dispatch env p m ev = Some m' ->
    (forall k, k <> q_id q ->
       JsMap.get (ExamInterface.answers (ExamInterface.state m')) k
       = JsMap.get (ExamInterface.answers (ExamInterface.state m)) k)
    /\ prefixOf (JsMap.keys (ExamInterface.answers (ExamInterface.state m)))
                (JsMap.keys (ExamInterface.answers (ExamInterface.state m')))
    /\ ExamInterface.pending m' = ExamInterface.pending m
    /\ ExamInterface.isGrading (ExamInterface.state m')
       = ExamInterface.isGrading (ExamInterface.state m)
    /\ ExamInterface.isGeneratingTests (ExamInterface.state m')
       = ExamInterface.isGeneratingTests (ExamInterface.state m).
Proof.
  intros env p m m' ev q Hs Hq. unfold ExamInterface.dispatch. rewrite Hq.
  intros [= <-]. rewrite commit_pending, commit_state.
  destruct (synchronous_handle env p q m ev Hs) as (Hp & Hg & Ht & Hk & Hf).
  auto.
Qed.

Lemma X6_an_edit_touches_only_the_question_on_screen_witness :
  JsMap.get
    (ExamInterface.handleCodeChange (codeQuestion "q2")
       (ExamInterface.answers typedState) "print(2)") "q1"
  = JsMap.get (ExamInterface.answers typedState) "q1".
Proof.
  refine (proj1 (X6_an_edit_touches_only_the_question_on_screen sampleEnv sampleProps
            typedMounted _ (ExamInterface.CodeChange "print(2)") (codeQuestion "q2")
            eq_refl eq_refl eq_refl) "q1" _).
  discriminate.
Defined.

Lemma synchronous_run env p evs : forall m m',
  forallb synchronous evs = true ->
  ExamInterface.run env p m evs = Some m' ->
  ExamInterface.pending m' = ExamInterface.pending m
  /\ ExamInterface.isGrading (ExamInterface.state m')
     = ExamInterface.isGrading (ExamInterface.state m)
  /\ ExamInterface.isGeneratingTests (ExamInterface.state m')
     = ExamInterface.isGeneratingTests (ExamInterface.state m).
Proof.
  induction evs as [|ev evs IH]; simpl; intros m m' Hs.
  - intros [= <-]. auto.
  - apply andb_true_iff in Hs. destruct Hs as [Hev Hs].
    unfold ExamInterface.dispatch.
    destruct (ExamInterface.currentQuestion p (ExamInterface.state m)) as [q|];
      [|discriminate].
    intros Hrun. destruct (IH _ _ Hs Hrun) as (Hp & Hg & Ht).
    rewrite Hp, Hg, Ht, commit_pending, commit_state.
    destruct (synchronous_handle env p q m ev Hev) as (Hp' & Hg' & Ht' & _).
    auto.
Qed.

Lemma run_current env p m evs m' :
  ExamInterface.run env p m evs = Some m' ->
  evs <> [] ->
  exists q, ExamInterface.currentQuestion p (ExamInterface.state m) = Some q.
Proof.
  destruct evs as [|ev evs]; [congruence|]. simpl. unfold ExamInterface.dispatch.
  destruct (ExamInterface.currentQuestion p (ExamInterface.state m)) as [q|];
    [eauto | discriminate].
Qed.

(** X5. Whatever the user does between pressing Run and the verdict -
    typing on, answering other questions - is lost when the verdict
    arrives: the answers then are the answers as they were when Run was
    pressed, with the verdict stored for the submitted code. *)
Theorem X5_edits_during_judging_are_lost :
  forall (env : GeminiService.Env) (p : ExamInterface.Props)
         (m m' : ExamInterface.Mounted) (q : Question) (editor : option string)
         (edits : list ExamInterface.Event) (reply : GeminiService.api_reply)
         (ai : string),
    let before := ExamInterface.answers (ExamInterface.state m) in
    let userCode := ExamInterface.submittedCode q before editor in
    GeminiService.getAiClient env = Returned ai ->
    ExamInterface.pending m = [] ->
    ExamInterface.currentQuestion p (ExamInterface.state m) = Some q ->
    ExamInterface.blank userCode = false ->
    forallb synchronous edits = true ->
    ExamInterface.run env p m
      (ExamInterface.RunCode editor
       :: edits ++ [ExamInterface.JudgeSettled 0 reply]) = Some m' ->
    exists result,
      GeminiService.gradeCodeSubmission env q userCode reply = Returned result
      /\ ExamInterface.answers (ExamInterface.state m')
         = ExamInterface.storeJudgement q before userCode result
      /\ ExamInterface.isGrading (ExamInterface.state m') = false
      /\ ExamInterface.pending m' = [].
Proof.
  intros env p m m' q editor edits reply ai before userCode Hai Hp Hq Hb Hs.
  simpl ExamInterface.run. unfold ExamInterface.dispatch at 1. rewrite Hq.
  rewrite ExamInterface_run_app.
  destruct (ExamInterface.run env p _ edits) as [m1|] eqn:Hrun; [|discriminate].
  destruct (synchronous_run env p edits _ _ Hs Hrun) as (Hp1 & _ & _).
  rewrite commit_pending in Hp1. simpl in Hp1. fold before userCode in Hp1.
  rewrite Hb in Hp1. simpl in Hp1. rewrite Hp in Hp1. simpl in Hp1.
  simpl ExamInterface.run. unfold ExamInterface.dispatch.
  destruct (ExamInterface.currentQuestion p (ExamInterface.state m1)) as [q1|];
    [|discriminate].
  intros [= <-]. rewrite commit_state, commit_pending.
  simpl. rewrite Hp1. simpl.
  unfold GeminiService.gradeCodeSubmission. rewrite Hai.
  destruct (GeminiService.gradeCodeSubmission_try env reply) as [result|message];
    eexists; simpl; auto.
Qed.

Lemma X5_edits_during_judging_are_lost_witness :
  exists m' result,
    ExamInterface.run sampleEnv sampleProps typedMounted
      (ExamInterface.RunCode None
       :: editsInBetween
          ++ [ExamInterface.JudgeSettled 0 (GeminiService.ApiThrows "offline")])
    = Some m'
    /\ ExamInterface.answers (ExamInterface.state m')
       = ExamInterface.storeJudgement (codeQuestion "q2")
           (ExamInterface.answers typedState) "print(1)" result.
Proof.
  destruct (ExamInterface.run sampleEnv sampleProps typedMounted
              (ExamInterface.RunCode None
               :: editsInBetween
                  ++ [ExamInterface.JudgeSettled 0 (GeminiService.ApiThrows "offline")]))
    as [m'|] eqn:Hrun; [|vm_compute in Hrun; discriminate].
  destruct (X5_edits_during_judging_are_lost sampleEnv sampleProps typedMounted m'
              (codeQuestion "q2") None editsInBetween
              (GeminiService.ApiThrows "offline") "key"
              eq_refl eq_refl eq_refl eq_refl eq_refl Hrun)
    as (result & _ & Ha & _).
  exists m', result. split; [reflexivity | exact Ha].
Defined.

(** X8. A request for test cases always ends: when it settles the
    progress flag is cleared whatever the service did.  With an API key
    the service gives a list of cases in every case, and it is stored
    over the answers as they were when the request started, so edits made
    in between are lost; without a key the service throws and the answers
    stay as the edits left them. *)
Theorem X8_test_case_request_always_ends :
  forall (env : GeminiService.Env) (p : ExamInterface.Props)
         (m m' : ExamInterface.Mounted) (q : Question)
         (edits : list ExamInterface.Event) (reply : GeminiService.api_reply),
    let before := ExamInterface.answers (ExamInterface.state m) in
    ExamInterface.pending m = [] ->
    ExamInterface.isGeneratingTests (ExamInterface.state m) = false ->
    ExamInterface.currentQuestion p (ExamInterface.state m) = Some q ->
    forallb synchronous edits = true ->
    ExamInterface.run env p m
      (ExamInterface.GenerateTestCases
       :: edits ++ [ExamInterface.TestCasesSettled 0 reply]) = Some m' ->
    ExamInterface.isGeneratingTests (ExamInterface.state m') = false
    /\ ExamInterface.pending m' = []
    /\ (forall ai, GeminiService.getAiClient env = Returned ai ->
          exists cases,
            GeminiService.generateTestCases env q reply = Returned cases
            /\ ExamInterface.answers (ExamInterface.state m')
               = ExamInterface.storeTestCases q before cases)
    /\ (forall message, GeminiService.getAiClient env = Thrown message ->
          exists m1,
            ExamInterface.run env p m (ExamInterface.GenerateTestCases :: edits)
            = Some m1
            /\ ExamInterface.answers (ExamInterface.state m')
               = ExamInterface.answers (ExamInterface.state m1)).
Proof.
  intros env p m m' q edits reply before Hp Ht Hq Hs.
  change (ExamInterface.GenerateTestCases
          :: edits ++ [ExamInterface.TestCasesSettled 0 reply])
    with ((ExamInterface.GenerateTestCases :: edits)
          ++ [ExamInterface.TestCasesSettled 0 reply]).
  rewrite ExamInterface_run_app.
  destruct (ExamInterface.run env p m (ExamInterface.GenerateTestCases :: edits))
    as [m1|] eqn:Hrun; [|discriminate].
  assert (Hp1 : ExamInterface.pending m1 = [ExamInterface.AwaitingTestCases q before]).
  { simpl in Hrun. unfold ExamInterface.dispatch in Hrun at 1. rewrite Hq in Hrun.
    destruct (synchronous_run env p edits _ _ Hs Hrun) as (Hp1 & _ & _).
    rewrite commit_pending in Hp1. simpl in Hp1. rewrite Ht in Hp1. simpl in Hp1.
    now rewrite Hp in Hp1. }
  simpl ExamInterface.run. unfold ExamInterface.dispatch.
  destruct (ExamInterface.currentQuestion p (ExamInterface.state m1)) as [q1|];
    [|discriminate].
  intros [= <-]. rewrite commit_state, commit_pending.
  simpl. rewrite Hp1. simpl.
  destruct (GeminiService.generateTestCases env q reply) as [cases|message] eqn:Eg;
    simpl; (split; [reflexivity|]); (split; [reflexivity|]); split.
  - intros ai _. now exists cases.
  - intros message Hm. unfold GeminiService.generateTestCases in Eg.
    rewrite Hm in Eg. discriminate.
  - intros ai Hai. unfold GeminiService.generateTestCases in Eg. rewrite Hai in Eg.
    destruct reply as [|[t|]]; try discriminate.
    destruct (GeminiService.no_text (Some t)); try discriminate.
    destruct (GeminiService.JSON_parse_testCases env t) as [[|]|]; discriminate.
  - intros _ _. now exists m1.
Qed.

Lemma X8_test_case_request_always_ends_witness :
  exists m',
    ExamInterface.run sampleEnv sampleProps typedMounted
      (ExamInterface.GenerateTestCases
       :: editsInBetween
          ++ [ExamInterface.TestCasesSettled 0 (GeminiService.ApiThrows "offline")])
    = Some m'
    /\ ExamInterface.isGeneratingTests (ExamInterface.state m') = false
    /\ ExamInterface.pending m' = [].
Proof.
  destruct (ExamInterface.run sampleEnv sampleProps typedMounted
              (ExamInterface.GenerateTestCases
               :: editsInBetween
                  ++ [ExamInterface.TestCasesSettled 0
                        (GeminiService.ApiThrows "offline")]))
    as [m'|] eqn:Hrun; [|vm_compute in Hrun; discriminate].
  destruct (X8_test_case_request_always_ends sampleEnv sampleProps typedMounted m'
              (codeQuestion "q2") editsInBetween
              (GeminiService.ApiThrows "offline")
              eq_refl eq_refl eq_refl eq_refl Hrun)
    as (Ht & Hp & _).
  exists m'. auto.
Defined.

(** X9. With an API key [generateTestCases] never throws.  A call that
    fails, a reply without text and a reply that cannot be parsed each
    give a list of one line, the error message, which the exam screen
    then shows as test case 1; a parsed list of cases is handed on as it
    is. *)
Theorem X9_test_case_errors_become_test_cases :
  forall (env : GeminiService.Env) (q : Question)
         (reply : GeminiService.api_reply) (ai : string),
    GeminiService.getAiClient env = Returned ai ->
    exists cases,
      GeminiService.generateTestCases env q reply = Returned cases
      /\ (forall message, reply = GeminiService.ApiThrows message ->
            cases = ["Error generating test cases. Please try again."]
            /\ ExamInterface.formatTestInput cases
               = ("Case 1:" ++ ExamInterface.newline
                  ++ "Error generating test cases. Please try again.")%string)
      /\ (forall text, reply = GeminiService.ApiResponds text ->
            GeminiService.no_text text = true ->
            cases = ["Could not generate test cases."])
      /\ (forall t, reply = GeminiService.ApiResponds (Some t) ->
            t <> EmptyString ->
            match GeminiService.JSON_parse_testCases env t with
            | Returned (Some parsed) => cases = parsed
            | Returned None => cases = ["No test cases returned."]
            | Thrown _ => cases = ["Error generating test cases. Please try again."]
            end).
Proof.
  intros env q reply ai Hai. unfold GeminiService.generateTestCases. rewrite Hai.
  destruct reply as [message|[t|]].
  - eexists. split; [reflexivity|]. repeat split; try discriminate.
  - destruct (GeminiService.no_text (Some t)) eqn:En.
    + eexists. split; [reflexivity|]. split; [discriminate|]. split; [reflexivity|].
      intros t' [= <-] Hne. simpl in En. apply String.eqb_eq in En. contradiction.
    + destruct (GeminiService.JSON_parse_testCases env t) as [[parsed|]|message] eqn:Ep;
        eexists; (split; [reflexivity|]); (split; [discriminate|]);
        (split; [intros text [= <-]; congruence|]);
        intros t' [= <-] _; rewrite Ep; reflexivity.
  - eexists. split; [reflexivity|]. split; [discriminate|]. split; [reflexivity|].
    discriminate.
Qed.

Lemma X9_test_case_errors_become_test_cases_witness :
  exists cases,
    GeminiService.generateTestCases sampleEnv (codeQuestion "q2")
      (GeminiService.ApiThrows "offline") = Returned cases
    /\ ExamInterface.formatTestInput cases
       = ("Case 1:" ++ ExamInterface.newline
          ++ "Error generating test cases. Please try again.")%string.
Proof.
  destruct (X9_test_case_errors_become_test_cases sampleEnv (codeQuestion "q2")
              (GeminiService.ApiThrows "offline") "key" eq_refl)
    as (cases & Hc & Hthrow & _).
  exists cases. split; [exact Hc|]. exact (proj2 (Hthrow "offline" eq_refl)).
Defined.

Lemma no_key_handle env p q m ev message :
  GeminiService.getAiClient env = Thrown message ->
  ExamInterface.isGrading (ExamInterface.state m) = true ->
  ExamInterface.isGrading (ExamInterface.state (ExamInterface.handle env p q m ev))
  = true.
Proof.
  intros Hk Hg. destruct ev; simpl; try assumption.
  - now destruct (idx <? _).
  - now destruct confirmed.
  - now destruct (ExamInterface.blank _).
  - destruct (nth_error (ExamInterface.pending m) i) as [[q' captured userCode|]|];
      try assumption.
    unfold GeminiService.gradeCodeSubmission. now rewrite Hk.
  - now destruct (ExamInterface.isGeneratingTests _).
  - destruct (nth_error (ExamInterface.pending m) i) as [[|q' captured]|];
      try assumption.
    unfold GeminiService.generateTestCases. now rewrite Hk.
Qed.

Lemma no_key_run env p evs message : forall m m',
  GeminiService.getAiClient env = Thrown message ->
  ExamInterface.isGrading (ExamInterface.state m) = true ->
  ExamInterface.run env p m evs = Some m' ->
  ExamInterface.isGrading (ExamInterface.state m') = true.
Proof.
  induction evs as [|ev evs IH]; simpl; intros m m' Hk Hg.
  - now intros [= <-].
  - unfold ExamInterface.dispatch.
    destruct (ExamInterface.currentQuestion p (ExamInterface.state m)) as [q|];
      [|discriminate].
    apply IH; [assumption|]. rewrite commit_state. now apply no_key_handle with message.
Qed.

(** X10. Without an API key every call of the service throws the same
    error before anything is sent.  [handleRunCode] does not catch it:
    once Run has been pressed on code that is not blank, the screen stays
    in its grading state whatever happens afterwards. *)
Theorem X10_without_a_key_grading_never_ends :
  forall (env : GeminiService.Env) (p : ExamInterface.Props)
         (m m' : ExamInterface.Mounted) (q : Question) (editor : option string)
         (evs : list ExamInterface.Event),
    GeminiService.VITE_API_KEY env = None
      \/ GeminiService.VITE_API_KEY env = Some EmptyString ->
    let message := "API_KEY is missing from environment variables." in
    (forall reply, GeminiService.generateExamQuestions env reply = Thrown message)
    /\ (forall q' userCode reply,
          GeminiService.gradeCodeSubmission env q' userCode reply = Thrown message)
    /\ (forall q' reply, GeminiService.generateTestCases env q' reply = Thrown message)
    /\ (ExamInterface.currentQuestion p (ExamInterface.state m) = Some q ->
        ExamInterface.blank
          (ExamInterface.submittedCode q
             (ExamInterface.answers (ExamInterface.state m)) editor) = false ->
        ExamInterface.run env p m (ExamInterface.RunCode editor :: evs) = Some m' ->
        ExamInterface.isGrading (ExamInterface.state m') = true).
Proof.
  intros env p m m' q editor evs Hkey message.
  assert (Hk : GeminiService.getAiClient env = Thrown message).
  { unfold GeminiService.getAiClient. now destruct Hkey as [-> | ->]. }
  unfold GeminiService.generateExamQuestions, GeminiService.gradeCodeSubmission,
    GeminiService.generateTestCases.
  rewrite Hk. repeat split.
  intros Hq Hb. simpl. unfold ExamInterface.dispatch at 1. rewrite Hq.
  apply (no_key_run env p evs message); [exact Hk|].
  rewrite commit_state. simpl. now rewrite Hb.
Qed.

Lemma X10_without_a_key_grading_never_ends_witness :
  exists m',
    ExamInterface.run keylessEnv sampleProps typedMounted
      [ExamInterface.RunCode None;
       ExamInterface.JudgeSettled 0 (GeminiService.ApiResponds (Some "{}"))]
    = Some m'
    /\ ExamInterface.isGrading (ExamInterface.state m') = true.
Proof.
  destruct (ExamInterface.run keylessEnv sampleProps typedMounted
              [ExamInterface.RunCode None;
               ExamInterface.JudgeSettled 0 (GeminiService.ApiResponds (Some "{}"))])
    as [m'|] eqn:Hrun; [|vm_compute in Hrun; discriminate].
  exists m'. split; [reflexivity|].
  exact (proj2 (proj2 (proj2
           (X10_without_a_key_grading_never_ends keylessEnv sampleProps typedMounted
              m' (codeQuestion "q2") None _ (or_introl eq_refl))))
           eq_refl eq_refl Hrun).
Defined.

(* ================================================================== *)
(** * The exam screen: hints, the red timer, the counters *)
(* ================================================================== *)

Lemma has_app s1 s2 x :
  JsSet.has (s1 ++ s2) x = JsSet.has s1 x || JsSet.has s2 x.
Proof.
  induction s1 as [|y s1 IH]; simpl; [reflexivity|].
  now rewrite IH, orb_assoc.
Qed.

Lemma has_add s x y :
  JsSet.has (JsSet.add s x) y = String.eqb x y || JsSet.has s y.
Proof.
  unfold JsSet.add. destruct (JsSet.has s x) eqn:E.
  - destruct (String.eqb_spec x y) as [<-|]; [now rewrite E | reflexivity].
  - rewrite has_app. simpl. now rewrite orb_false_r, orb_comm.
Qed.

Lemma has_delete s x y :
  JsSet.has (JsSet.delete s x) y = negb (String.eqb x y) && JsSet.has s y.
Proof.
  induction s as [|z s IH]; simpl.
  - now rewrite andb_false_r.
  - destruct (String.eqb_spec z x) as [->|Hzx]; simpl; rewrite IH.
    + destruct (String.eqb x y); reflexivity.
    + destruct (String.eqb_spec z y) as [->|Hzy]; simpl; [|reflexivity].
      destruct (String.eqb_spec x y); [congruence | reflexivity].
Qed.

Lemma has_toggleHint q s y :
  JsSet.has (ExamScreen.toggleHint q s) y
  = if String.eqb (q_id q) y then negb (JsSet.has s y) else JsSet.has s y.
Proof.
  unfold ExamScreen.toggleHint.
  destruct (JsSet.has s (q_id q)) eqn:E.
  - rewrite has_delete. destruct (String.eqb_spec (q_id q) y) as [<-|]; simpl;
      [now rewrite E | reflexivity].
  - rewrite has_add. destruct (String.eqb_spec (q_id q) y) as [<-|]; simpl;
      [now rewrite E | reflexivity].
Qed.

(** X11. The hint button flips the hint of the question on screen and of
    no other question: a hint revealed for one question is still revealed
    when the user comes back to it, pressing the button twice restores
    what was shown, and a question without hints never shows a hint
    block. *)
Theorem X11_hints_are_toggled_per_question :
  forall (q q' : Question) (hintsRevealed : JsSet.t),
    JsSet.has (ExamScreen.toggleHint q hintsRevealed) (q_id q)
    = negb (JsSet.has hintsRevealed (q_id q))
    /\ (q_id q' <> q_id q ->
        ExamScreen.hintShown q' (ExamScreen.toggleHint q hintsRevealed)
        = ExamScreen.hintShown q' hintsRevealed)
    /\ (forall x, JsSet.has
                    (ExamScreen.toggleHint q (ExamScreen.toggleHint q hintsRevealed)) x
                  = JsSet.has hintsRevealed x)
    /\ (q_hints q <> None ->
        ExamScreen.hintShown q (ExamScreen.toggleHint q hintsRevealed)
        = negb (ExamScreen.hintShown q hintsRevealed))
    /\ (q_hints q = None -> ExamScreen.hintShown q hintsRevealed = false)
    /\ ExamScreen.hintShown q JsSet.empty = false.
Proof.
  intros q q' s. unfold ExamScreen.hintShown.
  split; [rewrite has_toggleHint; now rewrite String.eqb_refl|].
  split.
  { intros Hne. rewrite has_toggleHint.
    destruct (String.eqb_spec (q_id q) (q_id q')); [congruence | reflexivity]. }
  split.
  { intros x. rewrite !has_toggleHint.
    destruct (String.eqb (q_id q) x); [apply negb_involutive | reflexivity]. }
  split.
  { intros Hh. rewrite has_toggleHint, String.eqb_refl.
    destruct (q_hints q); [|congruence]. now rewrite !andb_true_r. }
  split; [intros ->; apply andb_false_r | reflexivity].
Qed.

Lemma X11_hints_are_toggled_per_question_witness :
  ExamScreen.hintShown (choiceQuestion "q1" "a")
    (ExamScreen.toggleHint (codeQuestion "q2") ["q1"]) = false.
Proof.
  rewrite (proj1 (proj2 (X11_hints_are_toggled_per_question
                           (codeQuestion "q2") (choiceQuestion "q1" "a") ["q1"]))).
  - apply (proj1 (proj2 (proj2 (proj2 (proj2
             (X11_hints_are_toggled_per_question
                (choiceQuestion "q1" "a") (choiceQuestion "q1" "a") ["q1"])))))).
    reflexivity.
  - discriminate.
Defined.

Lemma clockAfter_ge limit e0 k : e0 <= clockAfter limit e0 k.
Proof.
  unfold clockAfter.
  destruct (ExamInterface.timeIsUp limit e0) eqn:E; [lia|].
  destruct (Nat.eqb_spec limit 0); [lia|].
  unfold ExamInterface.timeIsUp in E.
  apply andb_false_iff in E. rewrite Nat.ltb_ge, Nat.leb_gt in E. lia.
Qed.

(** X12. The clock never goes back, so the timer, once red, stays red:
    it is red exactly when there is a limit and less than five minutes
    are left on the display, which is the case from the moment the time
    is up. *)
Theorem X12_red_timer_stays_red :
  forall (env : GeminiService.Env) (p : ExamInterface.Props)
         (m m' : ExamInterface.Mounted) (evs : list ExamInterface.Event),
    ExamInterface.run env p m evs = Some m' ->
    let limit := ExamInterface.timeLimit p in
    let e := ExamInterface.elapsed (ExamInterface.state m) in
    let e' := ExamInterface.elapsed (ExamInterface.state m') in
    e <= e'
    /\ ExamScreen.isTimeCritical limit e'
       = (0 <? limit) && (ExamInterface.timerSeconds limit e' <? 300)
    /\ (ExamScreen.isTimeCritical limit e = true ->
        ExamScreen.isTimeCritical limit e' = true)
    /\ (ExamInterface.timeIsUp limit e = true ->
        ExamScreen.isTimeCritical limit e' = true)
    /\ (limit = 0 -> ExamScreen.isTimeCritical limit e' = false).
Proof.
  intros env p m m' evs Hrun limit e e'.
  assert (Hle : e <= e').
  { unfold e'. rewrite (elapsed_run env p evs _ _ Hrun), iter_tick.
    apply clockAfter_ge. }
  split; [exact Hle|]. unfold ExamScreen.isTimeCritical, ExamInterface.timerSeconds.
  split.
  { destruct (Nat.eqb_spec limit 0) as [->|]; [reflexivity|].
    now rewrite Nat.max_0_l. }
  split.
  { rewrite !andb_true_iff, !Nat.ltb_lt. lia. }
  split.
  { rewrite timeIsUp_spec, andb_true_iff, !Nat.ltb_lt. lia. }
  intros ->. reflexivity.
Qed.

Lemma X12_red_timer_stays_red_witness :
  exists m',
    ExamInterface.run sampleEnv sampleProps typedMounted editsInBetween = Some m'
    /\ ExamScreen.isTimeCritical 1 (ExamInterface.elapsed (ExamInterface.state m'))
       = true.
Proof.
  destruct (ExamInterface.run sampleEnv sampleProps typedMounted editsInBetween)
    as [m'|] eqn:Hrun; [|vm_compute in Hrun; discriminate].
  exists m'. split; [reflexivity|].
  exact (proj1 (proj2 (proj2
           (X12_red_timer_stays_red sampleEnv sampleProps typedMounted m'
              editsInBetween Hrun))) eq_refl).
Defined.

Lemma countsInBadge_isAnswered (l : ledger) (a : UserAnswer) :
  JsMap.get l (questionId a) = Some a ->
  ExamScreen.countsInBadge a = true ->
  ExamInterface.isAnswered l (questionId a) = true.
Proof.
  intros Hget. unfold ExamScreen.countsInBadge, ExamInterface.isAnswered.
  rewrite Hget. unfold ExamScreen.truthyString.
  destruct (selectedOptionId a); [reflexivity|]. simpl.
  destruct (code a) as [c|]; [|discriminate].
  rewrite andb_true_iff, !Nat.ltb_lt. lia.
Qed.

Lemma badge_le_dots questions (l : ledger) :
  wellFormedLedger questions l ->
  ExamScreen.badgeCount l <= ExamScreen.dotCount questions l.
Proof.
  intros Hl. unfold ExamScreen.badgeCount, ExamScreen.dotCount.
  rewrite <- (length_map questionId (filter _ (JsMap.values l))).
  rewrite <- (length_map q_id (filter _ questions)).
  apply NoDup_incl_length.
  - apply NoDup_map_filter. now apply wellFormed_answers_nodup with questions.
  - intros x Hx. apply in_map_iff in Hx. destruct Hx as (a & <- & Ha).
    apply filter_In in Ha. destruct Ha as [Ha Hc].
    destruct (wellFormed_answer_known questions l a Hl Ha) as [Hknown _].
    apply in_map_iff in Hknown. destruct Hknown as (q & Hq & Hin).
    apply in_map_iff. exists q. split; [assumption|].
    apply filter_In. split; [assumption|]. rewrite Hq.
    apply countsInBadge_isAnswered; [|assumption].
    apply in_get_nodup; [apply (wf_nodup _ _ Hl)|].
    apply in_map_iff in Ha. destruct Ha as ([k a'] & Hsnd & Hin'). simpl in Hsnd.
    subst a'. pose proof (wf_keyed _ _ Hl) as Hkey. unfold keyed in Hkey.
    rewrite Forall_forall in Hkey. specialize (Hkey _ Hin'). simpl in Hkey.
    now rewrite Hkey.
Qed.

(** X13. The counter on the sidebar button never shows more than there
    are green dots in the question list, during any session started from
    a sound ledger; it can show fewer, because it asks for more than ten
    characters of code where the dots ask for more than five. *)
Theorem X13_badge_never_exceeds_the_dots :
  forall (env : GeminiService.Env) (p : ExamInterface.Props)
         (evs : list ExamInterface.Event) (m : ExamInterface.Mounted),
    wellFormedLedger (ExamInterface.questions p)
      (ExamInterface.initialLedger (ExamInterface.initialAnswers p)) ->
    ExamInterface.run env p (ExamInterface.mount p) evs = Some m ->
    ExamScreen.badgeCount (ExamInterface.answers (ExamInterface.state m))
    <= ExamScreen.dotCount (ExamInterface.questions p)
         (ExamInterface.answers (ExamInterface.state m))
    /\ forall q c, In q (ExamInterface.questions p) ->
         5 < String.length c <= 10 ->
         let l := ExamInterface.handleCodeChange q JsMap.empty c in
         ExamScreen.badgeCount l = 0
         /\ ExamScreen.dotCount (ExamInterface.questions p) l >= 1.
Proof.
  intros env p evs m Hinit Hrun. split.
  - apply badge_le_dots.
    apply (wfm_ledger p m).
    apply (wellFormed_run env p evs _ _ (wellFormed_mount p Hinit) Hrun).
  - intros q c Hq Hc l. split.
    + unfold l, ExamScreen.badgeCount, ExamInterface.handleCodeChange. simpl.
      unfold ExamScreen.countsInBadge. simpl.
      destruct (Nat.ltb_spec 10 (String.length c)); [lia|].
      now rewrite andb_false_r.
    + unfold ExamScreen.dotCount.
      assert (Hin : In q (filter (fun q0 => ExamInterface.isAnswered l (q_id q0))
                            (ExamInterface.questions p))).
      { apply filter_In. split; [assumption|].
        unfold l, ExamInterface.isAnswered, ExamInterface.handleCodeChange.
        rewrite get_set_same. simpl. apply Nat.ltb_lt. lia. }
      destruct (filter _ _); [contradiction | simpl; lia].
Qed.

Lemma X13_badge_never_exceeds_the_dots_witness :
  exists m,
    ExamInterface.run sampleEnv sampleProps (ExamInterface.mount sampleProps)
      [ExamInterface.Next; ExamInterface.CodeChange "print(1)"] = Some m
    /\ ExamScreen.badgeCount (ExamInterface.answers (ExamInterface.state m))
       <= ExamScreen.dotCount sampleQuestions
            (ExamInterface.answers (ExamInterface.state m)).
Proof.
  destruct (ExamInterface.run sampleEnv sampleProps (ExamInterface.mount sampleProps)
              [ExamInterface.Next; ExamInterface.CodeChange "print(1)"])
    as [m|] eqn:Hrun; [|vm_compute in Hrun; discriminate].
  exists m. split; [reflexivity|].
  exact (proj1 (X13_badge_never_exceeds_the_dots sampleEnv sampleProps _ m
                  (wellFormed_empty sampleQuestions) Hrun)).
Defined.

(* ================================================================== *)
(** * The results screen *)
(* ================================================================== *)

Lemma find_map_questionId (g : UserAnswer -> UserAnswer) (id : string)
    (answers : list UserAnswer) :
  (forall a, questionId (g a) = questionId a) ->
  find (fun a => String.eqb (questionId a) id) (map g answers)
  = option_map g (find (fun a => String.eqb (questionId a) id) answers).
Proof.
  intros Hg. induction answers as [|a answers IH]; simpl; [reflexivity|].
  rewrite Hg. destruct (String.eqb (questionId a) id); [reflexivity | exact IH].
Qed.

Lemma graded_questionId questions a :
  questionId (snd (ResultsView.gradeAnswer questions 0 a)) = questionId a.
Proof.
  unfold ResultsView.gradeAnswer.
  now destruct (ResultsView.findQuestion questions (questionId a)).
Qed.

Lemma graded_truthy questions a :
  In (questionId a) (map q_id questions) ->
  ResultsView.truthy (isCorrect (snd (ResultsView.gradeAnswer questions 0 a)))
  = counted questions a.
Proof.
  intros Hin. unfold ResultsView.gradeAnswer, counted.
  destruct (findQuestion_known questions _ Hin) as [q ->]. simpl.
  now destruct (ResultsView.computedCorrect q a).
Qed.

Lemma shownCorrect_spec questions answers q :
  In q questions ->
  ResultsScreen.shownCorrect (ResultsView.gradedAnswers questions answers) q
  = match find (fun a => String.eqb (questionId a) (q_id q)) answers with
    | Some a => counted questions a
    | None => false
    end.
Proof.
  intros Hq. unfold ResultsScreen.shownCorrect.
  rewrite gradedAnswers_spec, find_map_questionId by apply graded_questionId.
  destruct (find _ answers) as [a|] eqn:E; simpl; [|reflexivity].
  apply find_some in E. destruct E as [_ E]. apply String.eqb_eq in E.
  apply graded_truthy. rewrite E. now apply in_map.
Qed.

Lemma find_nodup_questionId (answers : list UserAnswer) (a : UserAnswer) :
  NoDup (map questionId answers) -> In a answers ->
  find (fun b => String.eqb (questionId b) (questionId a)) answers = Some a.
Proof.
  induction answers as [|b answers IH]; simpl; [tauto|].
  intros Hnd Hin. inversion Hnd as [|? ? Hnotin Hnd']; subst.
  destruct (String.eqb_spec (questionId b) (questionId a)) as [E|Hne].
  - destruct Hin as [->|Hin]; [reflexivity|].
    exfalso. apply Hnotin. rewrite E. now apply in_map.
  - destruct Hin as [->|Hin]; [congruence | auto].
Qed.

(** X14. When the questions have distinct identities and no two answers
    name the same question, the detailed analysis marks exactly as many
    questions correct as the score says, and an answer that names no
    question of the exam is handed on ungraded and counts for nothing. *)
Theorem X14_analysis_agrees_with_the_score :
  forall (questions : list Question) (answers : list UserAnswer),
    NoDup (map q_id questions) ->
    NoDup (map questionId answers) ->
    List.length
      (filter (ResultsScreen.shownCorrect
                 (ResultsView.gradedAnswers questions answers)) questions)
    = ResultsView.score questions answers
    /\ forall a, ~ In (questionId a) (map q_id questions) ->
         snd (ResultsView.gradeAnswer questions 0 a) = a
         /\ ResultsView.score questions (a :: answers)
            = ResultsView.score questions answers.
Proof.
  intros questions answers Hq Ha. split.
  - rewrite score_spec.
    rewrite <- (length_map q_id (filter _ questions)).
    rewrite <- (length_map questionId (filter _ answers)).
    apply Nat.le_antisymm; apply NoDup_incl_length;
      try (now apply NoDup_map_filter).
    + intros x Hx. apply in_map_iff in Hx. destruct Hx as (q & <- & Hin).
      apply filter_In in Hin. destruct Hin as [Hin Hs].
      rewrite shownCorrect_spec in Hs by assumption.
      destruct (find _ answers) as [a|] eqn:E; [|discriminate].
      apply find_some in E. destruct E as [Hain E]. apply String.eqb_eq in E.
      apply in_map_iff. exists a. split; [assumption|].
      apply filter_In. now split.
    + intros x Hx. apply in_map_iff in Hx. destruct Hx as (a & <- & Hin).
      apply filter_In in Hin. destruct Hin as [Hin Hc].
      pose proof (counted_known questions a Hc) as Hk.
      apply in_map_iff in Hk. destruct Hk as (q & Hid & Hqin).
      apply in_map_iff. exists q. split; [assumption|].
      apply filter_In. split; [assumption|].
      rewrite shownCorrect_spec by assumption.
      rewrite Hid, find_nodup_questionId by assumption. exact Hc.
  - intros a Hn.
    assert (E : ResultsView.findQuestion questions (questionId a) = None).
    { destruct (ResultsView.findQuestion questions (questionId a)) as [q|] eqn:E;
        [|reflexivity].
      apply findQuestion_Some in E. destruct E as [Hin Hid].
      exfalso. apply Hn. rewrite <- Hid. now apply in_map. }
    split.
    + unfold ResultsView.gradeAnswer. now rewrite E.
    + rewrite !score_spec. simpl. unfold counted at 1. now rewrite E.
Qed.

Lemma X14_analysis_agrees_with_the_score_witness :
  List.length
    (filter (ResultsScreen.shownCorrect
               (ResultsView.gradedAnswers threeChoices (JsMap.values twoOfThree)))
            threeChoices)
  = ResultsView.score threeChoices (JsMap.values twoOfThree).
Proof.
  apply (X14_analysis_agrees_with_the_score threeChoices (JsMap.values twoOfThree)).
  - repeat constructor; simpl; intuition discriminate.
  - repeat constructor; simpl; intuition discriminate.
Defined.

Lemma rating_upTo (k : nat) :
  k <= 100 -> ResultsScreen.rating (JsNumber.of_nat k) = ratingOf k.
Proof.
  intros Hk.
  assert (H : ratingExactUpTo 100 = true) by (vm_compute; reflexivity).
  unfold ratingExactUpTo in H. rewrite forallb_forall in H.
  specialize (H k). 
  assert (Hin : In k (seq 0 101)) by (apply in_seq; lia).
  specialize (H Hin).
  destruct (ResultsScreen.rating (JsNumber.of_nat k)), (ratingOf k);
    try discriminate; reflexivity.
Qed.

(** X15. The rating of an exam with at least one question is read off
    the whole percentage: Expert from 90, Proficient from 70, Developing
    from 50 and Novice below.  Over an empty list of questions the
    percentage is not a number and every comparison fails, so the rating
    is Novice. *)
Theorem X15_rating_follows_the_percentage :
  forall (questions : list Question) (answers : list UserAnswer),
    NoDup (map questionId answers) ->
    (Z.of_nat (List.length questions) < 2 ^ 53)%Z ->
    (1 <= List.length questions ->
       exists k, k <= 100
         /\ ResultsView.percentage questions answers = JsNumber.of_nat k
         /\ ResultsScreen.rating (ResultsView.percentage questions answers)
            = ratingOf k)
    /\ (questions = [] ->
          ResultsScreen.rating (ResultsView.percentage questions answers)
          = ResultsScreen.Novice).
Proof.
  intros questions answers Hnd Hlen. split.
  - intros Hone.
    destruct (percentOf_bounds (ResultsView.score questions answers)
                (List.length questions) Hone Hlen
                (score_le_questions questions answers Hnd)) as (k & Hk & Hr).
    exists (Z.to_nat k).
    assert (Ek : ResultsView.percentage questions answers
                 = JsNumber.of_nat (Z.to_nat k)).
    { unfold JsNumber.of_nat. rewrite Z2Nat.id by lia. exact Hk. }
    split; [lia|]. split; [exact Ek|]. rewrite Ek. apply rating_upTo. lia.
  - intros ->. unfold ResultsView.percentage.
    rewrite score_without_questions. vm_compute. reflexivity.
Qed.

Lemma X15_rating_follows_the_percentage_witness :
  exists k, k <= 100
    /\ ResultsView.percentage threeChoices (JsMap.values twoOfThree)
       = JsNumber.of_nat k
    /\ ResultsScreen.rating
         (ResultsView.percentage threeChoices (JsMap.values twoOfThree))
       = ratingOf k.
Proof.
  apply (X15_rating_follows_the_percentage threeChoices (JsMap.values twoOfThree)).
  - repeat constructor; simpl; intuition discriminate.
  - vm_compute. reflexivity.
  - simpl. lia.
Defined.

Lemma saveEffects_saved stored items :
  ResultsScreen.saveEffects true stored items = (true, stored).
Proof.
  unfold ResultsScreen.saveEffects.
  induction items as [|item items IH]; simpl; [reflexivity | exact IH].
Qed.

(** X16. However often the effect of the results screen runs, and
    whatever record each run would build, one record is added to the
    history: the record of the first run, put in front of the records
    that were there, which are kept in their order. *)
Theorem X16_result_is_recorded_once :
  forall (stored items : list ResultsView.HistoryItem)
         (item : ResultsView.HistoryItem),
    ResultsScreen.saveEffects false stored (item :: items)
    = (true, item :: stored)
    /\ ResultsScreen.saveEffects false stored [] = (false, stored)
    /\ ResultsScreen.saveEffects true stored (item :: items) = (true, stored).
Proof.
  intros stored items item. split; [|split].
  - unfold ResultsScreen.saveEffects. simpl.
    apply (saveEffects_saved (item :: stored) items).
  - reflexivity.
  - apply saveEffects_saved.
Qed.

(* ================================================================== *)
(** * The progress screen *)
(* ================================================================== *)

(** X17. The chart shows the ten most recent attempts, oldest first: it
    has as many points as the history has records, ten at most; its
    point [i] is the record [i] places before the last one it takes; and
    once a result has been recorded, that result is the last point. *)
Theorem X17_chart_shows_the_last_ten_oldest_first :
  forall (history : list ResultsView.HistoryItem) (item : ResultsView.HistoryItem),
    let shown := Nat.min 10 (List.length history) in
    List.length (ProgressView.chartData history) = shown
    /\ (forall i, i < shown ->
          nth_error (ProgressView.chartData history) i
          = nth_error history (shown - 1 - i))
    /\ ProgressView.chartData (ResultsView.recordHistory item history)
       = rev (firstn 9 history) ++ [item]
    /\ incl (ProgressView.chartData history) history.
Proof.
  intros history item shown. unfold ProgressView.chartData.
  assert (Hlen : List.length (firstn 10 history) = shown).
  { rewrite length_firstn. reflexivity. }
  split; [now rewrite length_rev|]. split.
  - intros i Hi.
    rewrite nth_error_rev, Hlen, nth_error_firstn.
    replace (shown - S i) with (shown - 1 - i) by lia.
    destruct (Nat.ltb_spec i shown); [|lia].
    destruct (Nat.ltb_spec (shown - 1 - i) 10); [reflexivity|].
    unfold shown in *. lia.
  - split; [reflexivity|].
    intros x Hx. apply in_rev in Hx.
    rewrite <- (firstn_skipn 10 history). apply in_or_app. now left.
Qed.

Lemma X17_chart_shows_the_last_ten_oldest_first_witness :
  nth_error (ProgressView.chartData [sampleRecord "b" 80; sampleRecord "a" 40]) 0
  = Some (sampleRecord "a" 40).
Proof.
  rewrite (proj1 (proj2 (X17_chart_shows_the_last_ten_oldest_first
                           [sampleRecord "b" 80; sampleRecord "a" 40]
                           (sampleRecord "c" 0))) 0).
  - reflexivity.
  - simpl. lia.
Defined.

Lemma max2_upTo (a b : nat) :
  a <= 100 -> b <= 100 ->
  JsMath.max2 (JsNumber.of_nat a) (JsNumber.of_nat b)
  = JsNumber.of_nat (Nat.max a b).
Proof.
  intros Ha Hb.
  assert (H : max2ExactUpTo 100 = true) by (vm_compute; reflexivity).
  unfold max2ExactUpTo in H. rewrite forallb_forall in H.
  assert (Hina : In a (seq 0 101)) by (apply in_seq; lia).
  assert (Hinb : In b (seq 0 101)) by (apply in_seq; lia).
  specialize (H a Hina). rewrite forallb_forall in H. specialize (H b Hinb).
  now apply number_eqb_eq.
Qed.

Lemma max2_from_below (a : nat) :
  a <= 100 ->
  JsMath.max2 (S754_infinity true) (JsNumber.of_nat a) = JsNumber.of_nat a.
Proof.
  intros Ha.
  assert (H : maxFromBelowUpTo 100 = true) by (vm_compute; reflexivity).
  unfold maxFromBelowUpTo in H. rewrite forallb_forall in H.
  apply number_eqb_eq, H, in_seq. lia.
Qed.

Lemma fold_max2 (ks : list Z) : forall a : Z,
  (0 <= a <= 100)%Z ->
  Forall (fun k => (0 <= k <= 100)%Z) ks ->
  fold_left JsMath.max2 (map JsNumber.of_Z ks) (JsNumber.of_Z a)
  = JsNumber.of_Z (fold_left Z.max ks a)
  /\ (0 <= fold_left Z.max ks a <= 100)%Z.
Proof.
  induction ks as [|k ks IH]; simpl; intros a Ha Hks; [auto|].
  inversion Hks as [|? ? Hk Hks']; subst.
  replace (JsMath.max2 (JsNumber.of_Z a) (JsNumber.of_Z k))
    with (JsNumber.of_Z (Z.max a k)); [apply IH; [lia | assumption]|].
  rewrite <- (Z2Nat.id a), <- (Z2Nat.id k) by lia.
  rewrite <- Nat2Z.inj_max.
  change (JsNumber.of_nat (Nat.max (Z.to_nat a) (Z.to_nat k))
          = JsMath.max2 (JsNumber.of_nat (Z.to_nat a)) (JsNumber.of_nat (Z.to_nat k))).
  symmetry. apply max2_upTo; lia.
Qed.

Lemma fold_max_spec (ks : list Z) : forall a : Z,
  (a <= fold_left Z.max ks a)%Z
  /\ Forall (fun k => (k <= fold_left Z.max ks a)%Z) ks
  /\ (fold_left Z.max ks a = a \/ In (fold_left Z.max ks a) ks).
Proof.
  induction ks as [|k ks IH]; simpl; intros a.
  - split; [lia|]. split; [constructor | now left].
  - destruct (IH (Z.max a k)) as (Hle & Hall & Hin).
    split; [lia|]. split; [constructor; [lia | assumption]|].
    destruct Hin as [E|Hin]; [|now right; right].
    rewrite E. destruct (Z.max_spec a k) as [[_ ->]|[_ ->]]; [right; now left | now left].
Qed.

(** X18. When the stored percentages are whole numbers from 0 to 100,
    the top score is the largest of them, and 0 for an empty history: no
    record has a higher percentage, and some record has this one. *)
Theorem X18_top_score_is_the_largest_percentage :
  forall (history : list ResultsView.HistoryItem) (ks : list Z),
    percentagesInRange history ks ->
    ProgressView.topScore history = JsNumber.of_Z (maxOf 0 ks)
    /\ Forall (fun k => (k <= maxOf 0 ks)%Z) ks
    /\ (history <> [] ->
        exists h, In h history
                  /\ ResultsView.h_percentage h = ProgressView.topScore history).
Proof.
  intros history ks [Hmap Hks].
  assert (Htop : ProgressView.topScore history = JsNumber.of_Z (maxOf 0 ks)).
  { unfold ProgressView.topScore, ProgressView.totalExams, maxOf, JsMath.Math_max.
    rewrite Hmap.
    destruct history as [|h history]; destruct ks as [|k ks]; try discriminate;
      [reflexivity|].
    simpl.
    inversion Hks as [|? ? Hk Hks']; subst.
    replace (JsMath.max2 (S754_infinity true) (JsNumber.of_Z k))
      with (JsNumber.of_Z k).
    - rewrite Z.max_r by lia. now apply fold_max2.
    - rewrite <- (Z2Nat.id k) by lia. symmetry.
      apply (max2_from_below (Z.to_nat k)). lia. }
  split; [exact Htop|]. split; [apply fold_max_spec|].
  intros Hne. rewrite Htop. unfold maxOf.
  destruct (fold_max_spec ks 0%Z) as (_ & _ & [E|Hin]).
  - destruct history as [|h history]; [congruence|].
    destruct ks as [|k ks]; [discriminate|].
    exists h. split; [now left|]. simpl in Hmap. injection Hmap as Hh _.
    rewrite Hh, E. f_equal.
    destruct (fold_max_spec (k :: ks) 0%Z) as (_ & Hall & _).
    inversion Hall as [|? ? Hle _]; subst. rewrite E in Hle.
    inversion Hks as [|? ? Hk _]; subst. lia.
  - assert (Hin' : In (JsNumber.of_Z (fold_left Z.max ks 0%Z))
                      (map ResultsView.h_percentage history)).
    { rewrite Hmap. now apply in_map. }
    apply in_map_iff in Hin'. destruct Hin' as (h & Hh & Hhin). now exists h.
Qed.

Lemma X18_top_score_is_the_largest_percentage_witness :
  ProgressView.topScore [sampleRecord "b" 80; sampleRecord "a" 40]
  = JsNumber.of_Z 80.
Proof.
  apply (X18_top_score_is_the_largest_percentage
           [sampleRecord "b" 80; sampleRecord "a" 40] [80%Z; 40%Z]).
  split; [reflexivity|]. repeat constructor; lia.
Defined.

(* ================================================================== *)
(** * Sums and averages of percentages *)
(* ================================================================== *)

Section Binary64Sums.
Local Open Scope Z_scope.

Lemma binary_round_aux_shifted s m M d e :
  Zdigits2 (Zpos M) = 53 -> 0 <= d -> Zpos m = Zpos M * 2 ^ d ->
  -1074 <= e + d <= 971 ->
  binary_round_aux 53 1024 s (Zpos m) e loc_Exact = S754_finite s M (e + d).
Proof.
  intros HdM Hd Hm He. unfold binary_round_aux.
  assert (Hdm : Zdigits2 (Zpos m) = 53 + d).
  { rewrite Hm, Zdigits2_mul_pow2 by lia. lia. }
  assert (Hn : Z.max 0 (fexp 53 1024 (Zdigits2 (Zpos m) + e) - e) = d).
  { rewrite Hdm. unfold fexp, emin. lia. }
  assert (H2d : 0 < 2 ^ d) by (apply Z.pow_pos_nonneg; lia).
  destruct (shr_fexp 53 1024 (Zpos m) e loc_Exact) as [mrs' e'] eqn:E1.
  apply shr_fexp_spec in E1; [|lia].
  rewrite Hn in E1. destruct E1 as [-> [_ [Hm1 Hex1]]].
  assert (Hq : Zpos m / 2 ^ d = Zpos M) by (rewrite Hm; apply Z.div_mul; lia).
  assert (Hr : Zpos m mod 2 ^ d = 0) by (rewrite Hm; apply Z.mod_mul; lia).
  rewrite Hex1, Hm1, Hq by auto. simpl round_nearest_even.
  assert (Hn2 : Z.max 0 (fexp 53 1024 (Zdigits2 (Zpos M) + (e + d)) - (e + d)) = 0).
  { rewrite HdM. unfold fexp, emin. lia. }
  destruct (shr_fexp 53 1024 (Zpos M) (e + d) loc_Exact) as [mrs'' e''] eqn:E2.
  apply shr_fexp_spec in E2; [|lia].
  rewrite Hn2, Z.pow_0_r, Z.div_1_r, Z.add_0_r in E2.
  destruct E2 as [-> [_ [Hm2 _]]]. rewrite Hm2.
  replace (e + d <=? 1024 - 53) with true by (symmetry; apply Z.leb_le; lia).
  reflexivity.
Qed.

Lemma shl_align_value mx ex ez :
  ez <= ex -> Zpos (fst (shl_align mx ex ez)) = Zpos mx * 2 ^ (ex - ez)
              /\ snd (shl_align mx ex ez) = ez.
Proof.
  intros Hle. unfold shl_align.
  destruct (ez - ex) as [|d|d] eqn:Ed; cbn [fst snd]; [| lia |].
  - replace (ex - ez) with 0 by lia. rewrite Z.pow_0_r. split; lia.
  - rewrite iter_xO_pow2. split; [|reflexivity].
    f_equal. f_equal. lia.
Qed.

(** Normalising an integer written with a scale gives the number of the
    integer. *)
Lemma binary_normalize_scaled (N : positive) (P : positive) (ez : Z) :
  Zpos N < 2 ^ 53 -> -52 <= ez <= 0 -> Zpos P = Zpos N * 2 ^ (- ez) ->
  binary_normalize 53 1024 (Zpos P) ez false = JsNumber.of_Z (Zpos N).
Proof.
  intros HN Hez HP.
  destruct (of_Z_pos N HN) as (M & E & -> & HdM & HE & HM).
  assert (HdN : 1 <= Zdigits2 (Zpos N) <= 53).
  { rewrite Zdigits2_log2 by lia.
    pose proof (Z.log2_nonneg (Zpos N)).
    assert (Z.log2 (Zpos N) < 53) by (apply Z.log2_lt_pow2; lia). lia. }
  assert (HEd : E = Zdigits2 (Zpos N) - 53).
  { rewrite HM, Zdigits2_mul_pow2 in HdM by lia. lia. }
  unfold binary_normalize, binary_round.
  change (Zpos (digits2_pos P)) with (Zdigits2 (Zpos P)).
  assert (HdP : Zdigits2 (Zpos P) = Zdigits2 (Zpos N) - ez).
  { rewrite HP, Zdigits2_mul_pow2 by lia. lia. }
  assert (Hf : fexp 53 1024 (Zdigits2 (Zpos P) + ez) = E).
  { rewrite HdP. unfold fexp, emin. lia. }
  rewrite Hf.
  destruct (Z_le_gt_dec E ez) as [Hle|Hgt].
  - destruct (shl_align_value P ez E Hle) as [Hv He].
    destruct (shl_align P ez E) as [mz ez'] eqn:Es. cbn [fst snd] in Hv, He. subst ez'.
    assert (Hmz : mz = M).
    { apply Pos2Z.inj. rewrite Hv, HP, HM, <- Z.mul_assoc, <- Z.pow_add_r by lia.
      f_equal. f_equal. lia. }
    subst mz. apply binary_round_aux_canonical; [assumption | lia].
  - unfold shl_align. destruct (E - ez) as [|d|d] eqn:Ed; try lia.
    replace E with (ez + Zpos d) by lia.
    apply binary_round_aux_shifted; try assumption; try lia.
    rewrite HP, HM, <- Z.mul_assoc, <- Z.pow_add_r by lia.
    f_equal. f_equal. lia.
Qed.

(** Adding two whole numbers is exact as long as the sum is below 2^53. *)
Lemma add_exact (a b : Z) :
  0 <= a -> 0 <= b -> a + b < 2 ^ 53 ->
  JsMath.add (JsNumber.of_Z a) (JsNumber.of_Z b) = JsNumber.of_Z (a + b).
Proof.
  intros Ha Hb Hab. unfold JsMath.add.
  destruct a as [|a|a]; [|clear Ha|lia].
  { change (JsNumber.of_Z 0) with (S754_zero false). rewrite Z.add_0_l.
    destruct b as [|b|b]; [reflexivity| |lia].
    destruct (of_Z_pos b ltac:(lia)) as (m & e & -> & _). reflexivity. }
  destruct b as [|b|b]; [|clear Hb|lia].
  { change (JsNumber.of_Z 0) with (S754_zero false). rewrite Z.add_0_r.
    destruct (of_Z_pos a ltac:(lia)) as (m & e & -> & _). reflexivity. }
  destruct (of_Z_pos a ltac:(lia)) as (ma & ea & -> & Hda & Hea & Hma).
  destruct (of_Z_pos b ltac:(lia)) as (mb & eb & -> & Hdb & Heb & Hmb).
  unfold SFadd. simpl cond_Zopp.
  destruct (shl_align_value ma ea (Z.min ea eb) ltac:(lia)) as [Hva _].
  destruct (shl_align_value mb eb (Z.min ea eb) ltac:(lia)) as [Hvb _].
  set (ez := Z.min ea eb) in *.
  change (Zpos (fst (shl_align ma ea ez)) + Zpos (fst (shl_align mb eb ez)))
    with (Zpos (fst (shl_align ma ea ez) + fst (shl_align mb eb ez))).
  change (Zpos a + Zpos b) with (Zpos (a + b)).
  apply (binary_normalize_scaled (a + b)); [lia | lia |].
  rewrite !Pos2Z.inj_add, Hva, Hvb, Hma, Hmb.
  rewrite <- !Z.mul_assoc, <- !Z.pow_add_r by lia.
  replace (- ea + (ea - ez)) with (- ez) by lia.
  replace (- eb + (eb - ez)) with (- ez) by lia. lia.
Qed.

(** The quotient of two 53-bit mantissas whose value is at most one
    hundred. *)
Lemma div_at_most_hundred ms es mn en :
  Zdigits2 (Zpos ms) = 53 -> Zdigits2 (Zpos mn) = 53 ->
  -52 <= es <= 0 -> -52 <= en <= 0 ->
  Zpos ms * 2 ^ (- en) <= 100 * (Zpos mn * 2 ^ (- es)) ->
  JsNumber.div (S754_finite false ms es) (S754_finite false mn en)
    = S754_zero false
  \/ exists m e,
       JsNumber.div (S754_finite false ms es) (S754_finite false mn en)
         = S754_finite false m e
       /\ e < 0
       /\ Zpos m <= 100 * 2 ^ (- e).
Proof.
  intros Hds Hdn Hes Hen Hle.
  unfold JsNumber.div, SFdiv, SFdiv_core_binary. rewrite Hds, Hdn.
  set (e0 := es - en - 53).
  assert (He0 : Z.min (fexp JsNumber.prec JsNumber.emax (53 + es - (53 + en))) (es - en)
                = e0).
  { unfold fexp, emin, JsNumber.prec, JsNumber.emax, e0. lia. }
  rewrite He0. replace (es - en - e0) with 53 by (unfold e0; lia).
  rewrite Z.shiftl_mul_pow2 by lia.
  pose proof (Z_div_mod (Zpos ms * 2 ^ 53) (Zpos mn) eq_refl) as Hdm.
  destruct (Z.div_eucl (Zpos ms * 2 ^ 53) (Zpos mn)) as [q r].
  destruct Hdm as [Hq Hr].
  assert (H2es : 0 < 2 ^ (- es)) by (apply Z.pow_pos_nonneg; lia).
  assert (H2en : 0 < 2 ^ (- en)) by (apply Z.pow_pos_nonneg; lia).
  assert (HB : 2 ^ (- e0) * 2 ^ (- en) = 2 ^ 53 * 2 ^ (- es)).
  { rewrite <- !Z.pow_add_r by lia. f_equal. unfold e0. lia. }
  assert (Hbound : Zpos ms * 2 ^ 53 <= Zpos mn * (100 * 2 ^ (- e0))).
  { apply Z.mul_le_mono_pos_r with (2 ^ (- en)); [assumption|].
    replace (Zpos mn * (100 * 2 ^ (- e0)) * 2 ^ (- en))
      with (100 * Zpos mn * (2 ^ (- e0) * 2 ^ (- en))) by ring.
    rewrite HB. nia. }
  assert (H2e0 : 0 < 2 ^ (- e0)) by (apply Z.pow_pos_nonneg; unfold e0; lia).
  assert (Hqle : 0 <= q <= 100 * 2 ^ (- e0)) by nia.
  assert (Hcase : q < 100 * 2 ^ (- e0)
                  \/ (q = 100 * 2 ^ (- e0) /\ new_location (Zpos mn) r = loc_Exact)).
  { destruct (Z.eq_dec q (100 * 2 ^ (- e0))) as [Heq|Hne]; [right | left; lia].
    split; [assumption|].
    assert (r = 0) by nia. subst r. apply new_location_exact. }
  assert (Hd100 : Zdigits2 100 <= 53) by (simpl; lia).
  assert (He0neg : e0 <= 0) by (unfold e0; lia).
  destruct (binary_round_aux_le 100 (xorb false false) q e0
              (new_location (Zpos mn) r) ltac:(lia) Hd100 (proj1 Hqle) He0neg Hcase)
    as [Hz|[m [e [Hf [He1 [He2 Hm]]]]]].
  - now left.
  - right. exists m, e. split; [apply Hf|]. split; [|lia].
    unfold fexp, emin, e0 in He1. simpl Zdigits2 in He1. lia.
Qed.

Lemma average_bounds (S n : Z) :
  0 <= S -> 1 <= n -> n < 2 ^ 53 -> S < 2 ^ 53 -> S <= 100 * n ->
  exists k, JsNumber.Math_round (JsNumber.div (JsNumber.of_Z S) (JsNumber.of_Z n))
            = JsNumber.of_Z k
            /\ 0 <= k <= 100.
Proof.
  intros HS Hn Hn53 HS53 Hle.
  destruct n as [|n|n]; try lia.
  destruct (of_Z_pos n Hn53) as (mn & en & -> & Hdn & Hen & Hmn).
  destruct S as [|S|S]; try lia.
  { exists 0. split; [reflexivity | lia]. }
  destruct (of_Z_pos S HS53) as (ms & es & -> & Hds & Hes & Hms).
  assert (H2es : 0 < 2 ^ (- es)) by (apply Z.pow_pos_nonneg; lia).
  assert (H2en : 0 < 2 ^ (- en)) by (apply Z.pow_pos_nonneg; lia).
  destruct (div_at_most_hundred ms es mn en Hds Hdn Hes Hen)
    as [->|(m & e & -> & He & Hm)].
  { rewrite Hms, Hmn. nia. }
  - exists 0. split; [reflexivity | lia].
  - now apply Math_round_at_most_hundred.
Qed.

End Binary64Sums.

Lemma sumPercentages_exact (history : list ResultsView.HistoryItem) :
  forall (ks : list Z) (a : Z),
    map ResultsView.h_percentage history = map JsNumber.of_Z ks ->
    Forall (fun k => (0 <= k <= 100)%Z) ks ->
    (0 <= a)%Z ->
    (a + 100 * Z.of_nat (List.length history) < 2 ^ 53)%Z ->
    fold_left (fun acc curr => JsMath.add acc (ResultsView.h_percentage curr))
              history (JsNumber.of_Z a)
    = JsNumber.of_Z (fold_left Z.add ks a)
    /\ (a <= fold_left Z.add ks a
        <= a + 100 * Z.of_nat (List.length history))%Z.
Proof.
  induction history as [|h history IH]; intros [|k ks] a Hmap Hks Ha Hlen;
    try discriminate.
  - simpl. split; [reflexivity | lia].
  - simpl in Hmap. injection Hmap as Hh Hmap.
    inversion Hks as [|? ? Hk Hks']; subst.
    cbn [fold_left]. rewrite Hh.
    cbn [List.length] in Hlen. rewrite Nat2Z.inj_succ in Hlen.
    rewrite add_exact by lia.
    destruct (IH ks (a + k)%Z Hmap Hks' ltac:(lia) ltac:(lia)) as [E Hb].
    split; [exact E|]. cbn [List.length]. rewrite Nat2Z.inj_succ. lia.
Qed.

(** X25. When the stored percentages are whole numbers from 0 to 100
    (and there are fewer than 2^53 / 100 of them), their running sum is
    computed without any rounding, and the average shown is a whole
    number from 0 to 100; it is 0 for an empty history. *)
Theorem X25_average_is_a_whole_percentage :
  forall (history : list ResultsView.HistoryItem) (ks : list Z),
    percentagesInRange history ks ->
    (100 * Z.of_nat (List.length history) < 2 ^ 53)%Z ->
    ProgressView.sumPercentages history = JsNumber.of_Z (sumOf ks)
    /\ (0 <= sumOf ks <= 100 * Z.of_nat (List.length history))%Z
    /\ (exists k, ProgressView.avgScore history = JsNumber.of_Z k
                  /\ (0 <= k <= 100)%Z)
    /\ (history = [] -> ProgressView.avgScore history = JsNumber.of_Z 0).
Proof.
  intros history ks [Hmap Hks] Hlen.
  destruct (sumPercentages_exact history ks 0%Z Hmap Hks ltac:(lia) ltac:(lia))
    as [Hsum Hb].
  change (fold_left Z.add ks 0%Z) with (sumOf ks) in *.
  split; [exact Hsum|]. split; [lia|]. split; [|intros ->; reflexivity].
  unfold ProgressView.avgScore, ProgressView.totalExams.
  destruct history as [|h history]; [exists 0%Z; split; [reflexivity | lia]|].
  change (0 <? List.length (h :: history)) with true. cbv iota.
  unfold ProgressView.sumPercentages in Hsum.
  unfold ProgressView.sumPercentages.
  change (JsNumber.of_nat 0) with (JsNumber.of_Z 0). rewrite Hsum.
  unfold JsNumber.of_nat.
  apply average_bounds; try lia.
  cbn [List.length]. lia.
Qed.

Lemma X25_average_is_a_whole_percentage_witness :
  exists k, ProgressView.avgScore [sampleRecord "b" 80; sampleRecord "a" 40]
            = JsNumber.of_Z k
            /\ (0 <= k <= 100)%Z.
Proof.
  apply (X25_average_is_a_whole_percentage
           [sampleRecord "b" 80; sampleRecord "a" 40] [80%Z; 40%Z]).
  - split; [reflexivity|]. repeat constructor; lia.
  - vm_compute. reflexivity.
Defined.

(* ================================================================== *)
(** * The controller: screens, the slot, a whole session *)
(* ================================================================== *)






Lemma dispatch_keeps_slot env w ev w' :
  writesSlot ev = false ->
  App.dispatch env w ev = Some w' ->
  App.savedExam w' = App.savedExam w.
Proof.
  unfold App.dispatch. intros Hw.
  destruct ev; try discriminate; destruct (App.appState w) eqn:Es;
    try discriminate; try (intros [= <-]; reflexivity).
  - intros [= <-]. unfold App.handleStartExam_settle.
    now destruct (GeminiService.generateExamQuestions env reply).
  - intros [= <-]. apply handleResumeExam_slot.
  - destruct (App.config w); [|discriminate]. now intros [= <-].
Qed.

Lemma run_keeps_slot env evs : forall w w',
  forallb (fun ev => negb (writesSlot ev)) evs = true ->
  App.run env w evs = Some w' ->
  App.savedExam w' = App.savedExam w.
Proof.
  induction evs as [|ev evs IH]; simpl; intros w w' Hs.
  - now intros [= <-].
  - apply andb_true_iff in Hs. destruct Hs as [Hev Hs].
    destruct (App.dispatch env w ev) as [w1|] eqn:Hd; [|discriminate].
    intros Hrun. rewrite (IH _ _ Hs Hrun).
    apply (dispatch_keeps_slot env w ev w1); [|assumption].
    now destruct (writesSlot ev).
Qed.

(** X20. Only saving an exam and completing one write to the snapshot
    slot: every other event, a page reload and a resume of whatever is
    stored included, leaves the stored item as it is, and a resume on the
    setup screen is accepted whatever is stored.  So a stored item that
    cannot be read - a text that does not parse, or the text of [null] -
    is never repaired or removed by them: each attempt to resume it shows
    the alert, stays on the setup screen and changes nothing else. *)
Theorem X20_only_save_and_complete_write_the_slot :
  forall (env : GeminiService.Env) (w w' : App.World) (evs : list App.Event),
    forallb (fun ev => negb (writesSlot ev)) evs = true ->
    App.run env w evs = Some w' ->
    App.savedExam w' = App.savedExam w
    /\ (App.appState w' = SETUP ->
        exists w'',
          App.dispatch env w' App.Resume = Some w''
          /\ App.savedExam w'' = App.savedExam w)
    /\ forall item,
         App.savedExam w = Some item ->
         unreadable item ->
         App.appState w' = SETUP ->
         exists w'',
           App.dispatch env w' App.Resume = Some w''
           /\ App.appState w'' = SETUP
           /\ App.savedExam w'' = Some item
           /\ App.questions w'' = App.questions w'
           /\ App.config w'' = App.config w'
           /\ App.userAnswers w'' = App.userAnswers w'
           /\ App.foreign w'' = App.foreign w'
           /\ App.alerts w''
              = App.alerts w'
                ++ ["Could not resume saved exam. Data might be corrupted."].
Proof.
  intros env w w' evs Hs Hrun.
  pose proof (run_keeps_slot env evs w w' Hs Hrun) as Hslot.
  split; [exact Hslot|]. split.
  - intros Es. unfold App.dispatch. rewrite Es. eexists. split; [reflexivity|].
    now rewrite handleResumeExam_slot.
  - intros item Hitem Hun Es. unfold App.dispatch. rewrite Es.
    eexists. split; [reflexivity|].
    unfold App.handleResumeExam. rewrite Hslot, Hitem.
    destruct Hun as [(text & -> & Hne)| ->]; simpl.
    + destruct (String.eqb_spec text ""); [contradiction|]. simpl.
      repeat (split; [congruence|]). reflexivity.
    + repeat (split; [congruence|]). reflexivity.
Qed.

Lemma X20_only_save_and_complete_write_the_slot_witness :
  exists w',
    App.run sampleEnv (App.load (Some (Json.Serialized Json.JNull)) [])
      [App.Resume; App.ViewProgress; App.Back; App.Reload] = Some w'
    /\ App.savedExam w' = Some (Json.Serialized Json.JNull).
Proof.
  destruct (App.run sampleEnv (App.load (Some (Json.Serialized Json.JNull)) [])
              [App.Resume; App.ViewProgress; App.Back; App.Reload])
    as [w'|] eqn:Hrun; [|vm_compute in Hrun; discriminate].
  exists w'. split; [reflexivity|].
  exact (proj1 (X20_only_save_and_complete_write_the_slot sampleEnv
                  (App.load (Some (Json.Serialized Json.JNull)) []) w'
                  [App.Resume; App.ViewProgress; App.Back; App.Reload]
                  eq_refl Hrun)).
Defined.

(** X21. [generateExamQuestions] returns questions exactly when there is
    an API key, the reply has a text that is not empty, and the text
    parses; a start that succeeds then opens the exam over exactly these
    questions with the chosen configuration, and the exam begins fresh -
    no answers, clock at zero, first question - whatever an earlier
    resumed session had left behind. *)
Theorem X21_successful_start_begins_a_fresh_exam :
  forall (env : GeminiService.Env) (w : App.World) (examConfig : ExamConfig)
         (reply : GeminiService.api_reply) (generated : list Question),
    (GeminiService.generateExamQuestions env reply = Returned generated
     <-> exists ai t,
           GeminiService.getAiClient env = Returned ai
           /\ reply = GeminiService.ApiResponds (Some t)
           /\ t <> EmptyString
           /\ GeminiService.JSON_parse_Questions env t = Returned generated)
    /\ (App.appState w = SETUP ->
        GeminiService.generateExamQuestions env reply = Returned generated ->
        exists w',
          App.run env w [App.Start examConfig; App.GenerationSettled reply] = Some w'
          /\ App.appState w' = EXAM
          /\ App.config w' = Some examConfig
          /\ App.questions w' = generated
          /\ App.savedExam w' = App.savedExam w
          /\ App.alerts w' = App.alerts w
          /\ ExamInterface.initialState (App.examProps w' examConfig)
             = {| ExamInterface.currentIdx := 0;
                  ExamInterface.answers := JsMap.empty;
                  ExamInterface.elapsed := 0;
                  ExamInterface.isGrading := false;
                  ExamInterface.isGeneratingTests := false |}
          /\ ExamInterface.timeLimit (App.examProps w' examConfig)
             = timeLimit examConfig).
Proof.
  intros env w examConfig reply generated. split.
  - unfold GeminiService.generateExamQuestions. split.
    + destruct (GeminiService.getAiClient env) as [ai|]; [|discriminate].
      destruct reply as [|[t|]]; try discriminate.
      destruct (GeminiService.no_text (Some t)) eqn:En; [discriminate|].
      intros Hp. exists ai, t. repeat split; try assumption.
      intros ->. discriminate.
    + intros (ai & t & -> & -> & Hne & Hp).
      simpl. destruct (String.eqb_spec t ""); [contradiction | exact Hp].
  - intros Es Hg. rewrite App_run_cons. unfold App.dispatch at 1. rewrite Es.
    rewrite App_run_cons. unfold App.dispatch at 1. simpl App.appState.
    rewrite Hg. simpl. eexists. split; [reflexivity|]. simpl.
    repeat split.
Qed.

Lemma X21_successful_start_begins_a_fresh_exam_witness :
  exists w',
    App.run sampleEnv
      (App.handleSaveExam examWorld (JsMap.values (ExamInterface.answers typedState))
         30 1 "2025-11-24T17:38:48.000Z")
      [App.Start sampleConfig;
       App.GenerationSettled (GeminiService.ApiResponds (Some "[]"))] = Some w'
    /\ App.appState w' = EXAM
    /\ App.questions w' = sampleQuestions.
Proof.
  destruct (proj2 (X21_successful_start_begins_a_fresh_exam sampleEnv
                     (App.handleSaveExam examWorld
                        (JsMap.values (ExamInterface.answers typedState))
                        30 1 "2025-11-24T17:38:48.000Z")
                     sampleConfig (GeminiService.ApiResponds (Some "[]"))
                     sampleQuestions) eq_refl eq_refl)
    as (w' & Hrun & Hs & _ & Hq & _).
  exists w'. auto.
Defined.

(** X22. A session from the exam screen to the stored record: started
    from a sound ledger over at least one question, whatever the user
    does before the answers are submitted, completing the exam is
    accepted, clears the snapshot, and the record built for the history
    names the configured topic, has a score no larger than the number of
    questions, a whole percentage from 0 to 100, and as time spent what
    the clock showed. *)
Theorem X22_a_session_ends_in_a_sound_record :
  forall (env : GeminiService.Env) (w : App.World) (c : ExamConfig)
         (evs : list ExamInterface.Event) (m : ExamInterface.Mounted)
         (uuid now : string),
    App.appState w = EXAM ->
    App.config w = Some c ->
    App.questions w <> [] ->
    (Z.of_nat (List.length (App.questions w)) < 2 ^ 53)%Z ->
    wellFormedLedger (App.questions w)
      (ExamInterface.initialLedger (Some (App.initialAnswers w))) ->
    ExamInterface.run env (App.examProps w c)
      (ExamInterface.mount (App.examProps w c)) evs = Some m ->
    let submitted := ExamInterface.handleSubmitAll (ExamInterface.state m) in
    exists w',
      App.dispatch env w (App.Complete (fst submitted) (snd submitted)) = Some w'
      /\ App.appState w' = RESULTS
      /\ App.savedExam w' = None
      /\ App.config w' = Some c
      /\ let item := ResultsView.historyItem (App.questions w') (App.userAnswers w')
                       c (App.timeSpent w') uuid now in
         ResultsView.h_topic item = topic c
         /\ ResultsView.h_totalQuestions item = List.length (App.questions w)
         /\ ResultsView.h_score item <= ResultsView.h_totalQuestions item
         /\ (exists k, k <= 100
               /\ ResultsView.h_percentage item = JsNumber.of_nat k)
         /\ ResultsView.h_timeSpent item
            = clockAfter (timeLimit c) (App.initialTimeSpent w) (ticks evs).
Proof.
  intros env w c evs m uuid now Es Ec Hq Hlen Hinit Hrun submitted.
  unfold App.dispatch. rewrite Es, Ec. eexists. split; [reflexivity|].
  simpl. repeat split; try assumption.
  - pose proof (wellFormed_run env _ evs _ _
                  (wellFormed_mount (App.examProps w c) Hinit) Hrun) as Hm.
    apply score_le_questions.
    apply (wellFormed_answers_nodup (App.questions w)). apply Hm.
  - pose proof (wellFormed_run env _ evs _ _
                  (wellFormed_mount (App.examProps w c) Hinit) Hrun) as Hm.
    assert (Hone : 1 <= List.length (App.questions w)).
    { destruct (App.questions w); [congruence | simpl; lia]. }
    destruct (percentOf_bounds
                (ResultsView.score (App.questions w)
                   (JsMap.values (ExamInterface.answers (ExamInterface.state m))))
                (List.length (App.questions w)) Hone Hlen) as (k & Hk & Hr).
    { apply score_le_questions.
      apply (wellFormed_answers_nodup (App.questions w)). apply Hm. }
    exists (Z.to_nat k). split; [lia|].
    unfold JsNumber.of_nat. rewrite Z2Nat.id by lia. exact Hk.
  - rewrite (elapsed_run env _ evs _ _ Hrun), iter_tick.
    unfold ExamInterface.mount. rewrite commit_state. simpl.
    now destruct (Nat.eqb_spec (App.initialTimeSpent w) 0) as [->|].
Qed.

Lemma X22_a_session_ends_in_a_sound_record_witness :
  exists m w',
    ExamInterface.run sampleEnv (App.examProps examWorld sampleConfig)
      (ExamInterface.mount (App.examProps examWorld sampleConfig)) sampleEvents
    = Some m
    /\ App.dispatch sampleEnv examWorld
         (App.Complete (fst (ExamInterface.handleSubmitAll (ExamInterface.state m)))
                       (snd (ExamInterface.handleSubmitAll (ExamInterface.state m))))
       = Some w'
    /\ App.appState w' = RESULTS
    /\ App.savedExam w' = None.
Proof.
  destruct (ExamInterface.run sampleEnv (App.examProps examWorld sampleConfig)
              (ExamInterface.mount (App.examProps examWorld sampleConfig))
              sampleEvents) as [m|] eqn:Hrun; [|vm_compute in Hrun; discriminate].
  assert (Hq : App.questions examWorld <> []) by discriminate.
  assert (Hlen : (Z.of_nat (List.length (App.questions examWorld)) < 2 ^ 53)%Z)
    by (vm_compute; reflexivity).
  destruct (X22_a_session_ends_in_a_sound_record sampleEnv examWorld sampleConfig
              sampleEvents m "id" "2025-11-24T17:38:48.000Z" eq_refl eq_refl Hq Hlen
              (wellFormed_empty sampleQuestions) Hrun)
    as (w' & Hd & Hs & Hslot & _).
  exists m, w'. auto.
Defined.

(* ================================================================== *)
(** * Requests for test cases, and resumed sessions *)
(* ================================================================== *)

Lemma testRequests_app l1 l2 :
  testRequests (l1 ++ l2) = testRequests l1 + testRequests l2.
Proof.
  induction l1 as [|[] l1 IH]; simpl; [reflexivity | exact IH | now rewrite IH].
Qed.

Lemma testRequests_remove_nth i : forall l c,
  nth_error l i = Some c ->
  testRequests l
  = testRequests (ExamInterface.remove_nth i l)
    + match c with
      | ExamInterface.AwaitingTestCases _ _ => 1
      | ExamInterface.AwaitingJudge _ _ _ => 0
      end.
Proof.
  induction i as [|i IH]; intros [|x l] c; simpl; try discriminate.
  - intros [= ->]. destruct c; simpl; lia.
  - intros Hn. rewrite (IH l c Hn). destruct x; simpl; lia.
Qed.

Lemma oneTestRequest_handle env p q m ev :
  oneTestRequest m -> oneTestRequest (ExamInterface.handle env p q m ev).
Proof.
  unfold oneTestRequest. intros H.
  destruct ev; simpl; try assumption.
  - now destruct (idx <? _).
  - now destruct confirmed.
  - destruct (ExamInterface.blank _); [assumption|]. simpl.
    rewrite testRequests_app. simpl. lia.
  - destruct (nth_error (ExamInterface.pending m) i) as [[q' captured userCode|]|] eqn:En;
      try assumption.
    pose proof (testRequests_remove_nth i _ _ En) as Hr. simpl in Hr.
    destruct (GeminiService.gradeCodeSubmission env q' userCode reply); simpl;
      rewrite <- H; lia.
  - destruct (ExamInterface.isGeneratingTests (ExamInterface.state m)) eqn:Eg.
    + now rewrite Eg.
    + simpl. rewrite testRequests_app. simpl. lia.
  - destruct (nth_error (ExamInterface.pending m) i) as [[|q' captured]|] eqn:En;
      try assumption.
    pose proof (testRequests_remove_nth i _ _ En) as Hr. simpl in Hr.
    destruct (ExamInterface.isGeneratingTests (ExamInterface.state m));
      destruct (GeminiService.generateTestCases env q' reply); simpl; lia.
Qed.

Lemma oneTestRequest_run env p evs : forall m m',
  oneTestRequest m -> ExamInterface.run env p m evs = Some m' -> oneTestRequest m'.
Proof.
  induction evs as [|ev evs IH]; simpl; intros m m' H.
  - now intros [= <-].
  - unfold ExamInterface.dispatch.
    destruct (ExamInterface.currentQuestion p (ExamInterface.state m)) as [q|];
      [|discriminate].
    apply IH. unfold oneTestRequest.
    rewrite commit_pending, commit_state. now apply oneTestRequest_handle.
Qed.

(** X23. At no time in a session are two requests for test cases in
    flight: a click on the button while one is being generated is
    ignored, and the progress flag is set exactly while a request is
    out. *)
Theorem X23_one_test_case_request_at_a_time :
  forall (env : GeminiService.Env) (p : ExamInterface.Props)
         (evs : list ExamInterface.Event) (m : ExamInterface.Mounted),
    ExamInterface.run env p (ExamInterface.mount p) evs = Some m ->
    testRequests (ExamInterface.pending m) <= 1
    /\ (ExamInterface.isGeneratingTests (ExamInterface.state m) = true
        <-> testRequests (ExamInterface.pending m) = 1)
    /\ (ExamInterface.isGeneratingTests (ExamInterface.state m) = true ->
        forall m',
          ExamInterface.dispatch env p m ExamInterface.GenerateTestCases = Some m' ->
          ExamInterface.pending m' = ExamInterface.pending m
          /\ ExamInterface.state m' = ExamInterface.state m).
Proof.
  intros env p evs m Hrun.
  assert (H : oneTestRequest m).
  { apply (oneTestRequest_run env p evs _ _) in Hrun; [assumption|].
    unfold oneTestRequest, ExamInterface.mount.
    rewrite commit_pending, commit_state. reflexivity. }
  unfold oneTestRequest in H. rewrite H.
  destruct (ExamInterface.isGeneratingTests (ExamInterface.state m)) eqn:Eg.
  - split; [lia|]. split; [tauto|]. intros _ m'. unfold ExamInterface.dispatch.
    destruct (ExamInterface.currentQuestion p (ExamInterface.state m)) as [q|];
      [|discriminate].
    intros [= <-]. rewrite commit_pending, commit_state. simpl. now rewrite Eg.
  - split; [lia|]. split; [|discriminate]. split; [discriminate | lia].
Qed.

Lemma X23_one_test_case_request_at_a_time_witness :
  exists m,
    ExamInterface.run sampleEnv sampleProps (ExamInterface.mount sampleProps)
      [ExamInterface.GenerateTestCases; ExamInterface.GenerateTestCases;
       ExamInterface.Next; ExamInterface.GenerateTestCases] = Some m
    /\ testRequests (ExamInterface.pending m) <= 1.
Proof.
  destruct (ExamInterface.run sampleEnv sampleProps (ExamInterface.mount sampleProps)
              [ExamInterface.GenerateTestCases; ExamInterface.GenerateTestCases;
               ExamInterface.Next; ExamInterface.GenerateTestCases])
    as [m|] eqn:Hrun; [|vm_compute in Hrun; discriminate].
  exists m. split; [reflexivity|].
  exact (proj1 (X23_one_test_case_request_at_a_time sampleEnv sampleProps _ m Hrun)).
Defined.

(** X24. A session that was saved and resumed is as sound as a fresh
    one: after any events the ledger again holds at most one answer for
    each question, each under the identity of a question of the resumed
    exam, and no more answers than questions. *)
Theorem X24_resumed_session_keeps_the_ledger_sound :
  forall (env : GeminiService.Env) (w w' : App.World) (c : ExamConfig)
         (s : ExamInterface.State) (now : string)
         (evs : list ExamInterface.Event) (m : ExamInterface.Mounted),
    App.appState w = EXAM ->
    App.config w = Some c ->
    wellFormedLedger (App.questions w) (ExamInterface.answers s) ->
    App.run env w
      [App.Save (fst (fst (ExamInterface.handleSave s)))
                (snd (fst (ExamInterface.handleSave s)))
                (snd (ExamInterface.handleSave s)) now;
       App.Resume] = Some w' ->
    ExamInterface.run env (App.examProps w' c)
      (ExamInterface.mount (App.examProps w' c)) evs = Some m ->
    let l := ExamInterface.answers (ExamInterface.state m) in
    App.questions w' = App.questions w
    /\ wellFormedLedger (App.questions w) l
    /\ NoDup (map questionId (JsMap.values l))
    /\ JsMap.size l <= List.length (App.questions w).
Proof.
  intros env w w' c s now evs m Es Ec Hs.
  rewrite App_run_cons. unfold App.dispatch at 1. rewrite Es, Ec.
  rewrite App_run_cons. unfold App.dispatch at 1.
  replace (App.appState (App.handleSaveExam w _ _ _ now)) with SETUP
    by (unfold App.handleSaveExam; now rewrite Ec).
  rewrite (handleResumeExam_after_save w c _ _ _ now Ec).
  unfold App.run. intros [= <-] Hrun.
  apply (wellFormed_run env _ evs _ _) in Hrun.
  - pose proof (wfm_ledger _ _ Hrun) as Hl. simpl in Hl.
    split; [reflexivity|]. split; [exact Hl|]. split.
    + now apply wellFormed_answers_nodup with (App.questions w).
    + now apply wellFormed_size.
  - apply wellFormed_resumed with (ExamInterface.answers s); [exact Hs | reflexivity].
Qed.

Lemma wellFormed_typedState :
  wellFormedLedger sampleQuestions (ExamInterface.answers typedState).
Proof.
  change (ExamInterface.answers typedState)
    with (ExamInterface.handleCodeChange (codeQuestion "q2")
            (ExamInterface.handleOptionSelect (choiceQuestion "q1" "a")
               JsMap.empty "a")
            "print(1)").
  apply wellFormed_handleCodeChange; [simpl; auto|].
  apply wellFormed_handleOptionSelect; [simpl; auto|].
  apply wellFormed_empty.
Qed.

Lemma X24_resumed_session_keeps_the_ledger_sound_witness :
  exists w' m,
    App.run sampleEnv examWorld
      [App.Save (JsMap.values (ExamInterface.answers typedState)) 30 1
                "2025-11-24T17:38:48.000Z";
       App.Resume] = Some w'
    /\ ExamInterface.run sampleEnv (App.examProps w' sampleConfig)
         (ExamInterface.mount (App.examProps w' sampleConfig)) editsInBetween
       = Some m
    /\ JsMap.size (ExamInterface.answers (ExamInterface.state m)) <= 3.
Proof.
  destruct (App.run sampleEnv examWorld
              [App.Save (JsMap.values (ExamInterface.answers typedState)) 30 1
                        "2025-11-24T17:38:48.000Z";
               App.Resume]) as [w'|] eqn:Hw; [|vm_compute in Hw; discriminate].
  destruct (ExamInterface.run sampleEnv (App.examProps w' sampleConfig)
              (ExamInterface.mount (App.examProps w' sampleConfig)) editsInBetween)
    as [m|] eqn:Hrun;
    [|vm_compute in Hw; injection Hw as <-; vm_compute in Hrun; discriminate].
  exists w', m. split; [reflexivity|]. split; [exact Hrun|].
  exact (proj2 (proj2 (proj2
           (X24_resumed_session_keeps_the_ledger_sound sampleEnv examWorld w'
              sampleConfig typedState "2025-11-24T17:38:48.000Z" editsInBetween m
              eq_refl eq_refl wellFormed_typedState Hw Hrun)))).
Defined.
